(** * PM-2.5 forecasting: the Dataset alignment pipeline

    A shallow embedding of [Dataset.ipynb] (snapshot and batch segmentation,
    duplicate averaging, the [Dataset] container) and of the helpers of
    [Utils.ipynb] it imports ([find_nearest], [delete_indices]).

    Conventions.
    - A [datetime64[ns]] or [timedelta64[ns]] value is an [option Z]:
      [Some n] is [n] nanoseconds, [None] is NaT.  The index of the primary
      table holds no NaT and is a [list Z].
    - A [float64] is the rational ([Qc]) it denotes, and every operation
      on floats rounds to the nearest [float64] ([F64]); NaN and the
      infinities do not occur.
    - A Python exception is the [Err] branch of [result]. *)

From Stdlib Require Import ZArith List Bool Lia String Ascii Sorted.
From Stdlib Require Import QArith Qcanon.
Import ListNotations.
Open Scope Z_scope.

(** ** Python exceptions *)

Inductive PyError : Type :=
| IndexError
| KeyError
| ValueError
| TypeError.

Inductive result (A : Type) : Type :=
| Ok (a : A)
| Err (e : PyError).

Arguments Ok {A} a.
Arguments Err {A} e.

Definition bind {A B : Type} (r : result A) (k : A -> result B) : result B :=
  match r with
  | Ok a => k a
  | Err e => Err e
  end.

Notation "x <- c ;; k" := (bind c (fun x => k))
  (at level 61, c at next level, right associativity).

Fixpoint mapM {A B : Type} (f : A -> result B) (l : list A) : result (list B) :=
  match l with
  | [] => Ok []
  | x :: r => y <- f x ;; ys <- mapM f r ;; Ok (y :: ys)
  end.

(** ** IEEE 754 binary64 arithmetic *)

(** A finite [float64] is kept as the rational it denotes.  NaN, the
    infinities and the sign of zero are no values of the model: it agrees
    with the hardware as long as no result reaches [2^1024], which the sums
    and means of the columns and timestamps at hand do not. *)
Module F64.

(** The integer nearest to [n / d], ties to the even one ([0 <= n],
    [0 < d]). *)
Definition nearest_even (n d : Z) : Z :=
  let q := n / d in
  match 2 * (n mod d) ?= d with
  | Lt => q
  | Gt => q + 1
  | Eq => if Z.even q then q else q + 1
  end.

(** [floor (log2 (n / d))] for [0 < n] and [0 < d]. *)
Definition floor_log2 (n d : Z) : Z :=
  let k := Z.log2 n - Z.log2 d in
  let above := if 0 <=? k then d * 2 ^ k <=? n else d <=? n * 2 ^ (- k) in
  if above then k else k - 1.

(** Rounding of [n / d > 0] to 53 significant bits, with the exponent of
    the last bit no smaller than [-1074] (gradual underflow). *)
Definition round_pos (n d : Z) : Q :=
  let e := Z.max (floor_log2 n d - 52) (- 1074) in
  if 0 <=? e then inject_Z (nearest_even n (d * 2 ^ e) * 2 ^ e)
  else Qmake (nearest_even (n * 2 ^ (- e)) d) (Z.to_pos (2 ^ (- e))).

(** Round to nearest, ties to even: the rounding of every operation. *)
Definition round (q : Qc) : Qc :=
  match (Qnum q ?= 0)%Z with
  | Eq => 0%Qc
  | Gt => Q2Qc (round_pos (Qnum q) (Zpos (Qden q)))
  | Lt => (- Q2Qc (round_pos (- Qnum q)%Z (Zpos (Qden q))))%Qc
  end.

Definition add (x y : Qc) : Qc := round (x + y)%Qc.
Definition sub (x y : Qc) : Qc := round (x - y)%Qc.
Definition div (x y : Qc) : Qc := round (x / y)%Qc.

(** An integer converted to [float64]. *)
Definition of_Z (x : Z) : Qc := round (Q2Qc (inject_Z x)).

(** The rationals that are [float64] values. *)
Definition representable (q : Qc) : Prop := round q = q.

(** A [float64] converted to an integer: the fraction is dropped. *)
Definition truncate (x : Qc) : Z := (Z.quot (Qnum x) (Zpos (Qden x)))%Z.

End F64.

(** ** The NumPy and Python primitives the notebooks call *)

Module Np.

(** [datetime64[ns]] and [timedelta64[ns]]; [None] is NaT. *)
Definition Timestamp : Type := option Z.
Definition Timedelta : Type := option Z.

Definition ns_per_minute : Z := 60000000000.

(** Dates and durations are [int64] values: a difference or a product is
    taken modulo [2^64], and the value [-2^63] is NaT. *)
Definition wrap64 (z : Z) : Z := (z + 2 ^ 63) mod 2 ^ 64 - 2 ^ 63.

Definition of_int64 (z : Z) : Timedelta :=
  let w := wrap64 z in
  if w =? - 2 ^ 63 then None else Some w.

(** [np.timedelta64(m, 'm')] as it is compared with a [timedelta64[ns]]:
    cast to nanoseconds; [np.timedelta64(None, 'm')] is NaT. *)
Definition timedelta64_m (m : option Z) : Timedelta :=
  match m with
  | Some k => of_int64 (k * ns_per_minute)
  | None => None
  end.

(** Subtraction and [np.abs]: NaT is absorbing. *)
Definition sub (a b : Timestamp) : Timedelta :=
  match a, b with
  | Some x, Some y => of_int64 (x - y)
  | _, _ => None
  end.

Definition abs (a : Timedelta) : Timedelta := option_map Z.abs a.

(** Comparisons: every comparison with NaT is [False]. *)
Definition cmp (op : Z -> Z -> bool) (a b : Timedelta) : bool :=
  match a, b with
  | Some x, Some y => op x y
  | _, _ => false
  end.

Definition lt := cmp Z.ltb.
Definition le := cmp Z.leb.
Definition gt := cmp Z.gtb.
Definition ge := cmp Z.geb.

(** [np.diff(a)] on dates: [a[1:] - a[:-1]]. *)
Fixpoint diff (a : list Z) : list Timedelta :=
  match a with
  | x :: ((y :: _) as r) => of_int64 (y - x) :: diff r
  | _ => []
  end.

(** [np.nonzero(mask)[0]]: the positions holding [True]. *)
Fixpoint nonzero_from (i : Z) (mask : list bool) : list Z :=
  match mask with
  | [] => []
  | b :: r => if b then i :: nonzero_from (i + 1) r else nonzero_from (i + 1) r
  end.

Definition nonzero (mask : list bool) : list Z := nonzero_from 0 mask.

Definition len {A : Type} (a : list A) : Z := Z.of_nat (List.length a).

(** [a[i]] for an integer [i]: negative indices count from the end, anything
    outside [-len, len) raises [IndexError]. *)
Definition getitem {A : Type} (a : list A) (i : Z) : result A :=
  let j := if i <? 0 then i + len a else i in
  if j <? 0 then Err IndexError
  else match nth_error a (Z.to_nat j) with
       | Some x => Ok x
       | None => Err IndexError
       end.

(** [a[idx]] for an integer array [idx] (fancy indexing). *)
Definition take {A : Type} (a : list A) (idx : list Z) : result (list A) :=
  mapM (getitem a) idx.

(** [a[mask]] for a boolean array [mask] of the length of [a]. *)
Fixpoint compress {A : Type} (mask : list bool) (a : list A) : list A :=
  match mask, a with
  | b :: m, x :: r => if b then x :: compress m r else compress m r
  | _, _ => []
  end.

(** [a[start:stop]]: bounds are clamped, negative bounds count from the
    end. *)
Definition clamp (n i : Z) : Z :=
  if i <? 0 then Z.max 0 (i + n) else Z.min i n.

Definition slice {A : Type} (a : list A) (start stop : Z) : list A :=
  let s := clamp (len a) start in
  let e := clamp (len a) stop in
  firstn (Z.to_nat (e - s)) (skipn (Z.to_nat s) a).

(** [np.split(a, points)]: the list
    [a[0:p1], a[p1:p2], ..., a[pk:len(a)]]. *)
Definition split {A : Type} (a : list A) (points : list Z) : list (list A) :=
  let div_points := 0 :: points ++ [len a] in
  map (fun se => slice a (fst se) (snd se))
      (combine div_points (tl div_points)).

(** [np.searchsorted(a, v)] (side ['left']) on a sorted [a]: the number of
    entries strictly below [v].  NaT sorts after every timestamp. *)
Fixpoint count_below (a : list Z) (v : Z) : Z :=
  match a with
  | [] => 0
  | x :: r => if x <? v then 1 + count_below r v else 0
  end.

Definition searchsorted (a : list Z) (v : Timestamp) : Z :=
  match v with
  | Some x => count_below a x
  | None => len a
  end.

(** The sum [np.add.reduce] computes in [float64] (pairwise summation).
    Fewer than 8 entries are added one after the other; up to 128 entries
    go to eight running sums that are added in pairs, the entries left over
    being added last; a longer array is halved. *)
Definition sum_from (acc : Qc) (a : list Qc) : Qc := fold_left F64.add a acc.

Fixpoint add_blocks (blocks : nat) (r a : list Qc) : list Qc * list Qc :=
  match blocks with
  | O => (r, a)
  | S k =>
      add_blocks k
        (map (fun p => F64.add (fst p) (snd p)) (combine r (firstn 8 a)))
        (skipn 8 a)
  end.

Definition unrolled_sum (a : list Qc) : Qc :=
  let n := List.length a in
  let ra := add_blocks (Nat.div n 8 - 1) (firstn 8 a) (skipn 8 a) in
  match fst ra with
  | [r0; r1; r2; r3; r4; r5; r6; r7] =>
      sum_from
        (F64.add (F64.add (F64.add r0 r1) (F64.add r2 r3))
                 (F64.add (F64.add r4 r5) (F64.add r6 r7)))
        (snd ra)
  | _ => 0%Qc
  end.

Fixpoint pairwise_sum (fuel : nat) (a : list Qc) : Qc :=
  let n := List.length a in
  if (n <? 8)%nat then sum_from 0%Qc a
  else if (n <=? 128)%nat then unrolled_sum a
  else match fuel with
       | O => 0%Qc
       | S f =>
           let n2 := (Nat.div n 2 - Nat.modulo (Nat.div n 2) 8)%nat in
           F64.add (pairwise_sum f (firstn n2 a)) (pairwise_sum f (skipn n2 a))
       end.

(** The reduction casts the integers to [float64] through a buffer of 8192
    entries and adds the sum of each buffer to the result. *)
Definition buffer_size : nat := Z.to_nat 8192.

Fixpoint reduce_sum (fuel : nat) (acc : Qc) (a : list Qc) : Qc :=
  match a, fuel with
  | [], _ => acc
  | _, O => acc
  | _, S f =>
      reduce_sum f (F64.add acc (pairwise_sum 16 (firstn buffer_size a)))
                 (skipn buffer_size a)
  end.

(** [a.view('i8').mean()] stored back as [datetime64[ns]]: the mean is
    computed in [float64] and its fraction dropped; the mean of an empty
    slice is NaN, stored as NaT, and so is a value outside [int64]. *)
Definition mean_i8 (a : list Z) : Timestamp :=
  match a with
  | [] => None
  | _ =>
      let total := reduce_sum (List.length a) 0%Qc (map F64.of_Z a) in
      let m := F64.truncate (F64.div total (F64.of_Z (len a))) in
      if (- 2 ^ 63 <? m) && (m <? 2 ^ 63) then Some m else None
  end.

(** [np.remainder] on integers: the sign follows the divisor and a zero
    divisor gives 0. *)
Definition remainder (a b : Z) : Z :=
  if b =? 0 then 0 else a mod b.

End Np.

(** Built-in Python sequences. *)
Module Py.

(** [del arr[i]] on a list. *)
Fixpoint remove_nth {A : Type} (n : nat) (l : list A) : list A :=
  match l, n with
  | [], _ => []
  | _ :: r, O => r
  | x :: r, S k => x :: remove_nth k r
  end.

Definition del {A : Type} (arr : list A) (i : Z) : result (list A) :=
  let j := if i <? 0 then i + Np.len arr else i in
  if (j <? 0) || (Np.len arr <=? j) then Err IndexError
  else Ok (remove_nth (Z.to_nat j) arr).

(** [slice(start, stop, step).indices(length)]. *)
Definition adjust (length step : Z) (i : option Z) (is_stop : bool) : Z :=
  match i with
  | None =>
      if step <? 0 then (if is_stop then -1 else length - 1)
      else (if is_stop then length else 0)
  | Some i =>
      if i <? 0 then
        (if i + length <? 0 then (if step <? 0 then -1 else 0)
         else i + length)
      else if length <=? i then (if step <? 0 then length - 1 else length)
      else i
  end.

Definition slice_indices (start stop step : option Z) (length : Z)
  : result (Z * Z * Z) :=
  let st := match step with None => 1 | Some s => s end in
  if st =? 0 then Err ValueError
  else Ok (adjust length st start false, adjust length st stop true, st).

(** [range(start, stop, step)] for a non-zero step. *)
Definition range (start stop step : Z) : list Z :=
  let n :=
    if 0 <? step then (stop - start + step - 1) / step
    else (start - stop - step - 1) / (- step) in
  map (fun k => start + Z.of_nat k * step) (seq 0 (Z.to_nat n)).

End Py.

(** ** pandas: the tables the notebooks pass around *)

Module Pd.

(** A frame with a named [DatetimeIndex], float columns and the columns of
    tuples that [df[name] = list_of_tuples] adds.  [rows] pairs each index
    value with the float cells of the row, in the order of [columns]; a
    tuple column holds one tuple per row.  Labels are unique, the index
    holds no NaT and its name is no column label. *)
Record DataFrame : Type := mkDataFrame {
  index_name : string;
  columns : list string;
  rows : list (Z * list Qc);
  tuple_columns : list (string * list (list Qc))
}.

(** [df.index.values] and [df.values] (float columns only). *)
Definition index_values (df : DataFrame) : list Z := map fst (rows df).
Definition values (df : DataFrame) : list (list Qc) := map snd (rows df).

Fixpoint position (name : string) (labels : list string) : option nat :=
  match labels with
  | [] => None
  | l :: r =>
      if String.eqb name l then Some O
      else option_map S (position name r)
  end.

Definition locate (labels : list string) (name : string) : result nat :=
  match position name labels with
  | Some p => Ok p
  | None => Err KeyError
  end.

Definition cells_at (ps : list nat) (cells : list Qc) : list Qc :=
  map (fun p => nth p cells 0%Qc) ps.

(** [df[names].values]: one list of cells per row, [KeyError] on a label
    that is no float column. *)
Definition get_values (df : DataFrame) (names : list string)
  : result (list (list Qc)) :=
  ps <- mapM (locate (columns df)) names ;;
  Ok (map (fun r => cells_at ps (snd r)) (rows df)).

(** [df[name].values]. *)
Definition get_column (df : DataFrame) (name : string) : result (list Qc) :=
  p <- locate (columns df) name ;;
  Ok (map (fun r => nth p (snd r) 0%Qc) (rows df)).

Fixpoint set_assoc {V : Type} (k : string) (v : V) (l : list (string * V))
  : list (string * V) :=
  match l with
  | [] => [(k, v)]
  | (k', v') :: r =>
      if String.eqb k k' then (k, v) :: r else (k', v') :: set_assoc k v r
  end.

(** [df[name] = tuples], in place: a float column of that label is replaced
    by the column of tuples. *)
Definition set_tuple_column (df : DataFrame) (name : string)
    (tuples : list (list Qc)) : DataFrame :=
  match position name (columns df) with
  | Some p =>
      mkDataFrame (index_name df)
        (Py.remove_nth p (columns df))
        (map (fun r => (fst r, Py.remove_nth p (snd r))) (rows df))
        (set_assoc name tuples (tuple_columns df))
  | None =>
      mkDataFrame (index_name df) (columns df) (rows df)
        (set_assoc name tuples (tuple_columns df))
  end.

(** [df.set_index(new_index, inplace=True)] with an index of the same name. *)
Definition set_index_values (df : DataFrame) (f : Z -> Z) : DataFrame :=
  mkDataFrame (index_name df) (columns df)
    (map (fun r => (f (fst r), snd r)) (rows df)) (tuple_columns df).

(** [index.floor(f'{minutes}min')]: [t - np.remainder(t, unit)]. *)
Definition floor (minutes : Z) (t : Z) : Z :=
  t - Np.remainder t (minutes * Np.ns_per_minute).

(** *** [groupby([df.index, tuple_column]).mean()] *)

Definition Key : Type := Z * list Qc.

(** Python's ordering of tuples of floats. *)
Fixpoint tuple_compare (a b : list Qc) : comparison :=
  match a, b with
  | [], [] => Eq
  | [], _ :: _ => Lt
  | _ :: _, [] => Gt
  | x :: a', y :: b' =>
      match (x ?= y)%Qc with
      | Eq => tuple_compare a' b'
      | c => c
      end
  end.

Definition key_compare (k k' : Key) : comparison :=
  match fst k ?= fst k' with
  | Eq => tuple_compare (snd k) (snd k')
  | c => c
  end.

(** Groups are kept sorted by key; a row joins the group of its key. *)
Fixpoint insert_group (k : Key) (r : list Qc)
    (groups : list (Key * list (list Qc))) : list (Key * list (list Qc)) :=
  match groups with
  | [] => [(k, [r])]
  | (k', rs) :: rest =>
      match key_compare k k' with
      | Lt => (k, [r]) :: groups
      | Eq => (k', rs ++ [r]) :: rest
      | Gt => (k', rs) :: insert_group k r rest
      end
  end.

Definition group_rows (keyed : list (Key * list Qc))
  : list (Key * list (list Qc)) :=
  fold_left (fun groups kr => insert_group (fst kr) (snd kr) groups) keyed [].

Definition Qc_of_nat (n : nat) : Qc := Q2Qc (inject_Z (Z.of_nat n)).

(** The mean of one column over one group, as [group_mean] computes it:
    a running sum with Kahan's compensation term, divided by the count. *)
Definition kahan_step (st : Qc * Qc) (val : Qc) : Qc * Qc :=
  let y := F64.sub val (snd st) in
  let t := F64.add (fst st) y in
  (t, F64.sub (F64.sub t (fst st)) y).

Definition mean (l : list Qc) : Qc :=
  F64.div (fst (fold_left kahan_step l (0%Qc, 0%Qc)))
          (Qc_of_nat (List.length l)).

(** The mean of every float column over the rows of one group. *)
Definition column_means (ncols : nat) (rs : list (list Qc)) : list Qc :=
  map (fun j => mean (map (fun r => nth j r 0%Qc) rs)) (seq 0 ncols).

(** [df.groupby([df.index, name]).mean().reset_index()
       .drop(columns=name).set_index(index_name)] where [tuples] is the
    column [name]: one row per key, in the order of the keys; the float
    columns hold the group means and no column of tuples is left (the key
    column is dropped, any other is no numeric column). *)
Definition groupby_mean (df : DataFrame) (tuples : list (list Qc))
  : DataFrame :=
  let keyed := combine (combine (index_values df) tuples) (values df) in
  mkDataFrame (index_name df) (columns df)
    (map (fun g => (fst (fst g),
                    column_means (List.length (columns df)) (snd g)))
         (group_rows keyed))
    [].

End Pd.

(** ** Dataset.ipynb: free functions *)

(** [comp_snapshot_indices(index, snapshot_minutes)].  [np.insert(indices, 0, 0)]
    and [np.append(indices, len(index))] flatten the tuple [np.nonzero] returns. *)
Definition comp_snapshot_indices (index : list Z) (snapshot_minutes : Z)
  : list (Z * Z) :=
  let indices :=
    Np.nonzero
      (map (fun d => Np.ge d (Np.timedelta64_m (Some snapshot_minutes)))
           (Np.diff index)) in
  combine (0 :: indices) (indices ++ [Np.len index]).

(** [comp_snapshot_timestamps(snapshot_indices, timestamps)]. *)
Definition comp_snapshot_timestamps (snapshot_indices : list (Z * Z))
    (timestamps : list Z) : list Np.Timestamp :=
  map (fun se => Np.mean_i8 (Np.slice timestamps (fst se) (snd se)))
      snapshot_indices.

(** [split_snapshot_indices_to_batches(timestamps, snapshot_indices,
    snapshot_minutes)]: [snapshot_indices[1:, 0]] are the starts of all
    snapshots but the first, [snapshot_indices[:-1, 1] - 1] the last positions
    of all snapshots but the last. *)
Definition split_snapshot_indices_to_batches (timestamps : list Z)
    (snapshot_indices : list (Z * Z)) (snapshot_minutes : Z)
  : result (list Z) :=
  starts <- Np.take timestamps (tl (map fst snapshot_indices)) ;;
  ends <- Np.take timestamps
            (map (fun e => e - 1) (removelast (map snd snapshot_indices))) ;;
  Ok (Np.nonzero
        (map (fun se => Np.gt (Np.sub (Some (fst se)) (Some (snd se)))
                              (Np.timedelta64_m (Some snapshot_minutes)))
             (combine starts ends))).

(** [find_indices_of_unit_batches(batch_indices)]. *)
Fixpoint unit_batches_from {A : Type} (i : Z) (batches : list (list A))
  : list Z :=
  match batches with
  | [] => []
  | b :: r =>
      if Np.len b <=? 1 then i :: unit_batches_from (i + 1) r
      else unit_batches_from (i + 1) r
  end.

Definition find_indices_of_unit_batches {A : Type} (batch_indices : list (list A))
  : list Z :=
  unit_batches_from 0 batch_indices.

(** [map_timestamps_to_features(timestamps, f)].  The callback [f] is the
    caller's: it may raise, as the encoders of the feature engineering
    notebook do on NaT. *)
Definition map_timestamps_to_features {V : Type} (timestamps : list Np.Timestamp)
    (f : Np.Timestamp -> result V) : result (list V) :=
  mapM f timestamps.

(** [split_by_double_index(index, arr)]. *)
Definition split_by_double_index {A : Type} (index : list (Z * Z))
    (arr : list A) : list (list A) :=
  map (fun se => Np.slice arr (fst se) (snd se)) index.

(** ** Utils.ipynb *)

(** [find_nearest(arr, vals)], one query at a time: the source is vectorised
    over [vals], and every failing lookup raises the same [IndexError]. *)
Definition find_nearest1 (arr : list Z) (v : Np.Timestamp) : result Z :=
  let idx := Np.searchsorted arr v in
  before <- Np.getitem arr (idx - 1) ;;
  at_idx <- Np.getitem arr (Np.remainder idx (Np.len arr)) ;;
  Ok (idx - Z.b2z (Np.lt (Np.abs (Np.sub (Some before) v))
                         (Np.abs (Np.sub (Some at_idx) v)))).

Definition find_nearest (arr : list Z) (vals : list Np.Timestamp)
  : result (list Z) :=
  mapM (find_nearest1 arr) vals.

(** [sorted(indices, reverse=True)]. *)
Fixpoint insert_desc (x : Z) (l : list Z) : list Z :=
  match l with
  | [] => [x]
  | y :: r => if y <=? x then x :: l else y :: insert_desc x r
  end.

Definition sorted_reverse (l : list Z) : list Z :=
  fold_right insert_desc [] l.

(** [delete_indices(arr, indices)]: [del arr[idx]] for each index, largest
    first.  The list is mutated in place; the model returns the new list. *)
Definition delete_indices {A : Type} (arr : list A) (indices : list Z)
  : result (list A) :=
  fold_left (fun acc idx => a <- acc ;; Py.del a idx)
            (sorted_reverse indices) (Ok arr).

(** ** Dataset.ipynb: the duplicate averager *)

(** [average_duplicates(df, columns)].  The call adds the column of tuples to
    [df] in place and returns a new frame: the result is the pair of [df]
    after the call and the returned frame. *)
Definition average_duplicates (df : Pd.DataFrame) (columns : list string)
  : result (Pd.DataFrame * Pd.DataFrame) :=
  let temp_col_name := String.concat ", " columns in
  tuples <- Pd.get_values df columns ;;
  let df := Pd.set_tuple_column df temp_col_name tuples in
  Ok (df, Pd.groupby_mean df tuples).

(** ** Dataset.ipynb: the container *)

Definition Vec : Type := list Qc.

(** The state of [self] while [__init__] runs, before [split_to_batches]:
    the index structures are flat arrays, one entry per snapshot.
    [weather_idx] is set exactly when [weather_values] is. *)
Record Snapshots : Type := mkSnapshots {
  s_pm_values : list Qc;
  s_gps_values : list (list Qc);
  s_weather_values : option (list Vec);
  s_time_values : option (list Vec);
  s_pm_gps_idx : list (Z * Z);
  s_timestamps : list Np.Timestamp;
  s_weather_idx : option (list Z)
}.

(** The constructed [Dataset]: the index structures are Python lists with one
    array per batch. *)
Record Dataset : Type := mkDataset {
  pm_values : list Qc;
  gps_values : list (list Qc);
  weather_values : option (list Vec);
  time_values : option (list (list Vec));
  pm_gps_idx : list (list (Z * Z));
  timestamps : list (list Np.Timestamp);
  weather_idx : option (list (list Z))
}.

(** Modelled from the spec: the class [Batch], which [Dataset.ipynb] builds
    from the keyword arguments it collects but does not define.  It exposes the
    timestamps, the per-snapshot [pm] and [gps] arrays and, when configured,
    one weather vector and one calendar vector per snapshot ([None] stands
    for the spec's null). *)
Record Batch : Type := mkBatch {
  b_timestamps : list Np.Timestamp;
  b_pm : list (list Qc);
  b_gps : list (list (list Qc));
  b_weather : option (list Vec);
  b_time : option (list Vec)
}.

(** [Dataset.prep_pm_gps(pm_gps, snapshot_minutes)]: the result is [pm_gps]
    after the call; the frame [average_duplicates] returns is dropped. *)
Definition prep_pm_gps (pm_gps : Pd.DataFrame) (snapshot_minutes : Z)
  : result Pd.DataFrame :=
  let pm_gps := Pd.set_index_values pm_gps (Pd.floor snapshot_minutes) in
  r <- average_duplicates pm_gps ["gpsLatitude"; "gpsLongitude"]%string ;;
  Ok (fst r).

(** [Dataset.weather_available_mask]. *)
Definition weather_available_mask (self : Snapshots)
    (weather_index_values : list Z) (minutes_to_weather : option Z)
  : result (list bool) :=
  match s_weather_idx self with
  | None => Err TypeError
  | Some widx =>
      near <- Np.take weather_index_values widx ;;
      Ok (map (fun wt => Np.le (Np.abs (Np.sub (Some (fst wt)) (snd wt)))
                               (Np.timedelta64_m minutes_to_weather))
              (combine near (s_timestamps self)))
  end.

(** [Dataset.remove_snapshots_without_weather]. *)
Definition remove_snapshots_without_weather (self : Snapshots)
    (weather_index_values : list Z) (minutes_to_weather : option Z)
  : result Snapshots :=
  mask <- weather_available_mask self weather_index_values minutes_to_weather ;;
  Ok (mkSnapshots (s_pm_values self) (s_gps_values self)
        (s_weather_values self) (s_time_values self)
        (Np.compress mask (s_pm_gps_idx self))
        (Np.compress mask (s_timestamps self))
        (option_map (Np.compress mask) (s_weather_idx self))).

(** [Dataset.remove_unit_batches]. *)
Definition remove_unit_batches (self : Dataset) : result Dataset :=
  let idx := find_indices_of_unit_batches (pm_gps_idx self) in
  pm_gps_idx' <- delete_indices (pm_gps_idx self) idx ;;
  timestamps' <- delete_indices (timestamps self) idx ;;
  time_values' <- match time_values self with
                  | Some tv => tv' <- delete_indices tv idx ;; Ok (Some tv')
                  | None => Ok None
                  end ;;
  weather_idx' <- match weather_values self, weather_idx self with
                  | Some _, Some wi =>
                      wi' <- delete_indices wi idx ;; Ok (Some wi')
                  | _, wi => Ok wi
                  end ;;
  Ok (mkDataset (pm_values self) (gps_values self) (weather_values self)
        time_values' pm_gps_idx' timestamps' weather_idx').

(** [Dataset.split_to_batches]. *)
Definition split_to_batches (self : Snapshots) (pm_gps_index_values : list Z)
    (snapshot_minutes : Z) : result Dataset :=
  batch_splits <- split_snapshot_indices_to_batches pm_gps_index_values
                    (s_pm_gps_idx self) snapshot_minutes ;;
  remove_unit_batches
    (mkDataset (s_pm_values self) (s_gps_values self) (s_weather_values self)
       (option_map (fun tv => Np.split tv batch_splits) (s_time_values self))
       (Np.split (s_pm_gps_idx self) batch_splits)
       (Np.split (s_timestamps self) batch_splits)
       (match s_weather_values self with
        | Some _ =>
            option_map (fun wi => Np.split wi batch_splits) (s_weather_idx self)
        | None => None
        end)).

(** [Dataset.__init__] up to the call of [split_to_batches]: the state of
    [self] once the snapshots are computed, matched to the weather and gated,
    and mapped to calendar features, paired with the caller's [pm_gps] frame
    as [prep_pm_gps] leaves it.  [weather], [minutes_to_weather] and
    [datetime_to_vec] default to [None]. *)
Definition init_snapshots (pm_gps : Pd.DataFrame) (snapshot_minutes : Z)
    (weather : option Pd.DataFrame) (minutes_to_weather : option Z)
    (datetime_to_vec : option (Np.Timestamp -> result Vec))
  : result (Snapshots * Pd.DataFrame) :=
  pm_gps <- prep_pm_gps pm_gps snapshot_minutes ;;
  pm <- Pd.get_column pm_gps "pm2_5" ;;
  gps <- Pd.get_values pm_gps ["gpsLongitude"; "gpsLatitude"]%string ;;
  let idx := comp_snapshot_indices (Pd.index_values pm_gps) snapshot_minutes in
  let ts := comp_snapshot_timestamps idx (Pd.index_values pm_gps) in
  let self := mkSnapshots pm gps None None idx ts None in
  self <- match weather with
          | Some w =>
              widx <- find_nearest (Pd.index_values w) (s_timestamps self) ;;
              remove_snapshots_without_weather
                (mkSnapshots pm gps (Some (Pd.values w)) None idx ts (Some widx))
                (Pd.index_values w) minutes_to_weather
          | None => Ok self
          end ;;
  self <- match datetime_to_vec with
          | Some f =>
              tv <- map_timestamps_to_features (s_timestamps self) f ;;
              Ok (mkSnapshots (s_pm_values self) (s_gps_values self)
                    (s_weather_values self) (Some tv)
                    (s_pm_gps_idx self) (s_timestamps self)
                    (s_weather_idx self))
          | None => Ok self
          end ;;
  Ok (self, pm_gps).

(** [Dataset.__init__]: the result pairs the new [Dataset] with the caller's
    [pm_gps] frame as construction leaves it. *)
Definition Dataset_init (pm_gps : Pd.DataFrame) (snapshot_minutes : Z)
    (weather : option Pd.DataFrame) (minutes_to_weather : option Z)
    (datetime_to_vec : option (Np.Timestamp -> result Vec))
  : result (Dataset * Pd.DataFrame) :=
  r <- init_snapshots pm_gps snapshot_minutes weather minutes_to_weather
         datetime_to_vec ;;
  d <- split_to_batches (fst r) (Pd.index_values (snd r)) snapshot_minutes ;;
  Ok (d, snd r).

(** [Dataset.__len__]. *)
Definition Dataset_len (self : Dataset) : Z := Np.len (timestamps self).

(** The keys [__getitem__] can receive: a Python [int] (a [bool] is one), a
    [slice], or anything else (a NumPy integer, a string, a tuple, [None]). *)
Inductive PyKey : Type :=
| KInt (i : Z)
| KBool (b : bool)
| KSlice (start stop step : option Z)
| KNumpyInt (i : Z)
| KStr (s : string)
| KTuple (l : list Z)
| KNone.

Definition isinstance_int (key : PyKey) : bool :=
  match key with KInt _ | KBool _ => true | _ => false end.

Definition isinstance_slice (key : PyKey) : bool :=
  match key with KSlice _ _ _ => true | _ => false end.

(** The integer an [int] key stands for. *)
Definition int_value (key : PyKey) : Z :=
  match key with KInt i => i | KBool b => Z.b2z b | _ => 0 end.

(** [key.indices(length)] for a [slice] key. *)
Definition key_indices (key : PyKey) (length : Z) : result (Z * Z * Z) :=
  match key with
  | KSlice start stop step => Py.slice_indices start stop step length
  | _ => Err TypeError
  end.

(** What [__getitem__] returns: a [Batch], a list of them, or [None]. *)
Inductive Item : Type :=
| ItemBatch (b : Batch)
| ItemList (l : list Batch)
| ItemNone.

(** The [isinstance(key, int)] branch of [__getitem__]. *)
Definition getitem_int (self : Dataset) (key : Z) : result Batch :=
  ts <- Np.getitem (timestamps self) key ;;
  idx <- Np.getitem (pm_gps_idx self) key ;;
  let pm := split_by_double_index idx (pm_values self) in
  let gps := split_by_double_index idx (gps_values self) in
  weather <- match weather_values self with
             | Some wv =>
                 match weather_idx self with
                 | Some wi =>
                     widx <- Np.getitem wi key ;;
                     w <- Np.take wv widx ;;
                     Ok (Some w)
                 | None => Err TypeError
                 end
             | None => Ok None
             end ;;
  time <- match time_values self with
          | Some tv => t <- Np.getitem tv key ;; Ok (Some t)
          | None => Ok None
          end ;;
  Ok (mkBatch ts pm gps weather time).

(** [Dataset.__getitem__(key)]: two [isinstance] tests, and the implicit
    [return None] at the end of the body. *)
Definition Dataset_getitem (self : Dataset) (key : PyKey) : result Item :=
  if isinstance_int key then
    b <- getitem_int self (int_value key) ;; Ok (ItemBatch b)
  else if isinstance_slice key then
    r <- key_indices key (Dataset_len self) ;;
    bs <- mapM (getitem_int self)
            (Py.range (fst (fst r)) (snd (fst r)) (snd r)) ;;
    Ok (ItemList bs)
  else Ok ItemNone.

(** ** Sample tables *)

Definition qc (z : Z) : Qc := Q2Qc (inject_Z z).

(** A primary table indexed by ["timestamp"] with the columns [pm2_5],
    [gpsLongitude], [gpsLatitude]; each reading is given as minute offset,
    mass value, longitude, latitude. *)
Definition pm_table (readings : list (Z * Z * Z * Z)) : Pd.DataFrame :=
  Pd.mkDataFrame "timestamp" ["pm2_5"; "gpsLongitude"; "gpsLatitude"]%string
    (map (fun r =>
            match r with
            | (m, pm, lon, lat) => (m * Np.ns_per_minute, [qc pm; qc lon; qc lat])
            end) readings)
    [].

(** A weather table with one feature column; each reading is given as minute
    offset and temperature. *)
Definition weather_table (readings : list (Z * Z)) : Pd.DataFrame :=
  Pd.mkDataFrame "timestamp" ["temperature"]%string
    (map (fun r => (fst r * Np.ns_per_minute, [qc (snd r)])) readings)
    [].

(** Two readings taken a minute apart at the same place. *)
Definition stationary : Pd.DataFrame :=
  pm_table [(0, 10, 1, 2); (1, 20, 1, 2)].

(** Readings at minutes 0, 1, 15, 60, 75, 76. *)
Definition sparse : Pd.DataFrame :=
  pm_table [(0, 10, 1, 2); (1, 20, 1, 2); (15, 30, 1, 2); (60, 5, 1, 2);
            (75, 6, 1, 2); (76, 7, 1, 2)].

(** Ten readings in four consecutive quarters of an hour. *)
Definition dense : Pd.DataFrame :=
  pm_table [(0, 10, 1, 2); (1, 20, 1, 2); (2, 20, 1, 2); (3, 30, 1, 2);
            (16, 5, 1, 2); (17, 6, 1, 2); (31, 7, 1, 2); (32, 7, 1, 2);
            (46, 7, 1, 2); (47, 7, 1, 2)].

(** The latitude 28.5384 as a [float64], and the next [float64] above it,
    28.538400000000003. *)
Definition lat_28_5384 : Qc := Q2Qc (8032845475359385 # 281474976710656).
Definition lat_above : Qc := Q2Qc (4016422737679693 # 140737488355328).

(** Six readings at one time and one longitude: five at the first latitude
    and one at the second. *)
Definition colliding : Pd.DataFrame :=
  Pd.mkDataFrame "timestamp" ["pm2_5"; "gpsLongitude"; "gpsLatitude"]%string
    [(0, [qc 1; qc 1; lat_28_5384]); (0, [qc 2; qc 1; lat_28_5384]);
     (0, [qc 3; qc 1; lat_28_5384]); (0, [qc 4; qc 1; lat_28_5384]);
     (0, [qc 5; qc 1; lat_28_5384]); (0, [qc 6; qc 1; lat_above])]
    [].

(** Weather readings every half hour. *)
Definition half_hourly : Pd.DataFrame :=
  weather_table [(0, 1); (30, 2); (60, 3); (90, 4)].

(** ** Segmentation correctness and batch integrity, as decidable checks *)

(** A list of minute offsets as nanosecond timestamps. *)
Definition at_minutes (l : list Z) : list Z :=
  map (fun m => m * Np.ns_per_minute) l.

(** [gap index i] is the difference between the timestamps at positions
    [i] and [i+1]. *)
Definition gap (index : list Z) (i : Z) : Z :=
  nth (Z.to_nat (i + 1)) index 0 - nth (Z.to_nat i) index 0.

Fixpoint zrange_from (s : Z) (n : nat) : list Z :=
  match n with
  | O => []
  | S k => s :: zrange_from (s + 1) k
  end.

(** Positions [s, s+1, ..., e-1]. *)
Definition zrange (s e : Z) : list Z := zrange_from s (Z.to_nat (e - s)).

(** Segmentation correctness of one snapshot: small gaps inside, a large gap
    before its start and after its last position. *)
Definition snapshot_ok (index : list Z) (snapshot_minutes : Z) (se : Z * Z)
  : bool :=
  let '(s, e) := se in
  let thr := snapshot_minutes * Np.ns_per_minute in
  forallb (fun i => gap index i <? thr) (zrange s (e - 1))
  && ((s <=? 0) || (thr <=? gap index (s - 1)))
  && ((Np.len index <=? e) || (thr <=? gap index (e - 1))).

Definition segmentation_ok (index : list Z) (snapshot_minutes : Z) : bool :=
  forallb (snapshot_ok index snapshot_minutes)
          (comp_snapshot_indices index snapshot_minutes).

(** The gap between two snapshots: from the last reading of the earlier one
    to the first reading of the later one. *)
Definition snapshot_gap (index : list Z) (earlier later : Z * Z) : Z :=
  nth (Z.to_nat (fst later)) index 0 - nth (Z.to_nat (snd earlier - 1)) index 0.

Fixpoint intra_batch_ok (index : list Z) (thr : Z) (batch : list (Z * Z))
  : bool :=
  match batch with
  | a :: ((b :: _) as r) =>
      (snapshot_gap index a b <=? thr) && intra_batch_ok index thr r
  | _ => true
  end.

Fixpoint inter_batch_ok (index : list Z) (thr : Z)
    (batches : list (list (Z * Z))) : bool :=
  match batches with
  | b1 :: ((b2 :: _) as r) =>
      match b1, b2 with
      | _ :: _, later :: _ =>
          (thr <? snapshot_gap index (last b1 (0, 0)) later)
          && inter_batch_ok index thr r
      | _, _ => inter_batch_ok index thr r
      end
  | _ => true
  end.

(** Batch integrity: two snapshots or more in every batch, no gap above the
    threshold inside a batch, a gap above it across every batch boundary. *)
Definition batch_integrity (index : list Z) (snapshot_minutes : Z)
    (batches : list (list (Z * Z))) : bool :=
  let thr := snapshot_minutes * Np.ns_per_minute in
  forallb (fun b => 2 <=? Np.len b) batches
  && forallb (intra_batch_ok index thr) batches
  && inter_batch_ok index thr batches.

(** Two calendar mappings with one feature.  [hour_of_day] raises on NaT, as
    the one-hot encoders of the feature engineering notebook do;
    [is_nat_feature] accepts every timestamp. *)
Definition hour_of_day (t : Np.Timestamp) : result Vec :=
  match t with
  | Some n => Ok [qc ((n / (60 * Np.ns_per_minute)) mod 24)]
  | None => Err IndexError
  end.

Definition is_nat_feature (t : Np.Timestamp) : result Vec :=
  match t with
  | Some _ => Ok [qc 0]
  | None => Ok [qc 1]
  end.

(** [item arr i] is [arr[i]] for an index known to be in [0, len). *)
Definition item (arr : list Z) (i : Z) : Z := nth (Z.to_nat i) arr 0.

(** [nth_batch self n b]: [b] is the [n]-th batch of [self], built from the
    [n]-th entry of every index structure that is set. *)
Definition nth_batch (self : Dataset) (n : nat) (b : Batch) : Prop :=
  nth_error (timestamps self) n = Some (b_timestamps b)
  /\ (exists idx,
        nth_error (pm_gps_idx self) n = Some idx
        /\ b_pm b = split_by_double_index idx (pm_values self)
        /\ b_gps b = split_by_double_index idx (gps_values self))
  /\ match weather_values self with
     | Some wv =>
         exists wi widx w,
           weather_idx self = Some wi
           /\ nth_error wi n = Some widx
           /\ Np.take wv widx = Ok w
           /\ b_weather b = Some w
     | None => b_weather b = None
     end
  /\ match time_values self with
     | Some tv => exists t, nth_error tv n = Some t /\ b_time b = Some t
     | None => b_time b = None
     end.

(** ** Invariants of the construction *)

(** An index that [a[i]] accepts. *)
Definition valid_index (n i : Z) : Prop := - n <= i < n.

(** The name of the index is a string that labels no column of the frame
    and differs from [label]: [reset_index] can insert the index as a column
    and [set_index] finds it again. *)
Definition index_name_free (df : Pd.DataFrame) (label : string) : Prop :=
  ~ In (Pd.index_name df) (Pd.columns df) /\ Pd.index_name df <> label.

(** A date between the years 1824 and 2116: the difference of two such
    dates stays inside [int64]. *)
Definition mid_range (t : Z) : Prop := - 2 ^ 62 <= t < 2 ^ 62.

(** The lengths in minutes that fit [int64] when counted in nanoseconds
    (up to 292 years). *)
Definition minutes_in_range (m : Z) : Prop :=
  - 2 ^ 63 < m * Np.ns_per_minute < 2 ^ 63.

(** A query date of [find_nearest]: NaT, or a date in that range. *)
Definition query_in_range (v : Np.Timestamp) : Prop :=
  match v with
  | Some x => mid_range x
  | None => True
  end.

(** The length of [a[start:stop]] when [a] has [n] entries. *)
Definition slice_length (n start stop : Z) : nat :=
  Nat.min (Z.to_nat (Np.clamp n stop - Np.clamp n start))
          (Z.to_nat n - Z.to_nat (Np.clamp n start)).

(** Before the split: one entry per snapshot in every array that is set, and
    every weather index is one the weather table accepts. *)
Definition aligned_snapshots (self : Snapshots) : Prop :=
  List.length (s_timestamps self) = List.length (s_pm_gps_idx self)
  /\ (forall tv, s_time_values self = Some tv ->
        List.length tv = List.length (s_pm_gps_idx self))
  /\ (forall wv, s_weather_values self = Some wv ->
        exists wi, s_weather_idx self = Some wi
          /\ List.length wi = List.length (s_pm_gps_idx self)
          /\ Forall (valid_index (Np.len wv)) wi).

(** After the split: the same batches, with the same number of snapshots in
    each, in every array that is set. *)
Definition aligned (self : Dataset) : Prop :=
  map (@List.length _) (timestamps self)
  = map (@List.length _) (pm_gps_idx self)
  /\ (forall tv, time_values self = Some tv ->
        map (@List.length _) tv = map (@List.length _) (pm_gps_idx self))
  /\ (forall wv, weather_values self = Some wv ->
        exists wi, weather_idx self = Some wi
          /\ map (@List.length _) wi = map (@List.length _) (pm_gps_idx self)
          /\ Forall (Forall (valid_index (Np.len wv))) wi).

(** ** Invariants of the grouping *)

Definition key_lt (k k' : Pd.Key) : Prop := Pd.key_compare k k' = Lt.

(** A key with the rows filed under it. *)
Definition Group : Type := (Pd.Key * list (list Qc))%type.

Definition groups_sorted (groups : list Group) : Prop :=
  StronglySorted (fun g g' => key_lt (fst g) (fst g')) groups.

(** A group is never empty, and [Q] holds of its key and each of its rows. *)
Definition group_ok (Q : Pd.Key -> list Qc -> Prop) (g : Group) : Prop :=
  snd g <> [] /\ Forall (Q (fst g)) (snd g).

Definition singleton_group (kr : Pd.Key * list Qc) : Group :=
  (fst kr, [snd kr]).

(** A row filed under a key: the key holds the cells of the row at the
    grouping columns, and the row has one cell per float column. *)
Definition keyed_row (ps : list nat) (n : nat) (k : Pd.Key) (r : list Qc)
  : Prop :=
  Pd.cells_at ps r = snd k /\ List.length r = n.

(** The rows of the frame [groupby_mean] returns, from its groups. *)
Definition averaged_rows (n : nat) (groups : list Group)
  : list (Z * list Qc) :=
  map (fun g => (fst (fst g), Pd.column_means n (snd g))) groups.

(** The rows of a frame with their grouping keys. *)
Definition key_rows (ps : list nat) (rows : list (Z * list Qc))
  : list (Pd.Key * list Qc) :=
  map (fun r => ((fst r, Pd.cells_at ps (snd r)), snd r)) rows.

(** ** Further notions used by the properties *)

(** [chained start l stop]: the pairs of [l] follow one another from [start]
    to [stop], each ending where the next begins, none running backwards. *)
Fixpoint chained (start : Z) (l : list (Z * Z)) (stop : Z) : Prop :=
  match l with
  | [] => start = stop
  | se :: r => fst se = start /\ fst se <= snd se /\ chained (snd se) r stop
  end.

(** Equality of grouping keys, as [groupby] decides it. *)
Definition key_eqb (k k' : Pd.Key) : bool :=
  match Pd.key_compare k k' with
  | Eq => true
  | _ => false
  end.

(** The rows filed under a key among sorted groups. *)
Fixpoint group_of (k : Pd.Key) (groups : list Group) : list (list Qc) :=
  match groups with
  | [] => []
  | g :: rest => if key_eqb k (fst g) then snd g else group_of k rest
  end.

(** The rows of a keyed table that carry the key [k], in their order. *)
Definition rows_with_key (k : Pd.Key) (keyed : list (Pd.Key * list Qc))
  : list (list Qc) :=
  map snd (filter (fun kr => key_eqb k (fst kr)) keyed).

(** [weather_close weather_index_values minutes_to_weather t w]: the weather
    reading at index [w] lies within [minutes_to_weather] minutes of the
    timestamp [t], as [weather_available_mask] tests it. *)
Definition weather_close (weather_index_values : list Z)
    (minutes_to_weather : option Z) (t : Np.Timestamp) (w : Z) : bool :=
  match Np.getitem weather_index_values w with
  | Ok x => Np.le (Np.abs (Np.sub (Some x) t))
                  (Np.timedelta64_m minutes_to_weather)
  | Err _ => false
  end.

(** A batch that [remove_unit_batches] keeps. *)
Definition kept {A : Type} (batch : list A) : bool :=
  negb (Np.len batch <=? 1).

(** A batch of at least two snapshots, with one entry per snapshot in every
    array it carries. *)
Definition full_batch (b : Batch) : Prop :=
  2 <= Np.len (b_timestamps b)
  /\ Np.len (b_pm b) = Np.len (b_timestamps b)
  /\ Np.len (b_gps b) = Np.len (b_timestamps b)
  /\ (forall w, b_weather b = Some w -> Np.len w = Np.len (b_timestamps b))
  /\ (forall t, b_time b = Some t -> Np.len t = Np.len (b_timestamps b)).

(** [arr] without the entries whose position is listed in [indices]; the
    first entry of [arr] is at position [i]. *)
Fixpoint drop_positions {A : Type} (i : Z) (indices : list Z) (arr : list A)
  : list A :=
  match arr with
  | [] => []
  | x :: r =>
      if existsb (Z.eqb i) indices then drop_positions (i + 1) indices r
      else x :: drop_positions (i + 1) indices r
  end.

(** ** feature engineering.ipynb: the calendar encoders *)

(** The fields of a [datetime.datetime] the encoders read: [month] (from 1),
    [weekday()] (Monday is 0) and [hour]. *)
Record DateTime : Type := mkDateTime {
  dt_month : Z;
  dt_weekday : Z;
  dt_hour : Z
}.

(** The ranges [datetime] guarantees for these fields. *)
Definition calendar_fields (datetime : DateTime) : Prop :=
  1 <= dt_month datetime <= 12
  /\ 0 <= dt_weekday datetime <= 6
  /\ 0 <= dt_hour datetime <= 23.

(** [np.zeros(n)]. *)
Definition zeros (n : nat) : Vec := repeat (qc 0) n.

(** [vec[i] = x] on an array: negative indices count from the end, anything
    outside [-len, len) raises [IndexError]. *)
Definition setitem {A : Type} (vec : list A) (i : Z) (x : A)
  : result (list A) :=
  let j := if i <? 0 then i + Np.len vec else i in
  if (j <? 0) || (Np.len vec <=? j) then Err IndexError
  else Ok (firstn (Z.to_nat j) vec ++ x :: skipn (S (Z.to_nat j)) vec).

(** [month_to_vec(datetime)]. *)
Definition month_to_vec (datetime : DateTime) : result Vec :=
  setitem (zeros 12) (dt_month datetime - 1) (qc 1).

(** [weekday_to_vec(datetime)]. *)
Definition weekday_to_vec (datetime : DateTime) : result Vec :=
  setitem (zeros 7) (dt_weekday datetime) (qc 1).

(** [hour_to_vec(datetime)]. *)
Definition hour_to_vec (datetime : DateTime) : result Vec :=
  setitem (zeros 24) (dt_hour datetime) (qc 1).

(** [timestamp_to_vec(datetime)]. *)
Definition timestamp_to_vec (datetime : DateTime) : result Vec :=
  month_vec <- month_to_vec datetime ;;
  weekday_vec <- weekday_to_vec datetime ;;
  hour_vec <- hour_to_vec datetime ;;
  Ok (month_vec ++ weekday_vec ++ hour_vec).

(** ** Utils.ipynb: the coordinates every snapshot of a batch holds *)

Definition tuple_eqb (p q : list Qc) : bool :=
  match Pd.tuple_compare p q with Eq => true | _ => false end.

(** [set(map(tuple, snapshot))]: a set is kept as the list of its members,
    each once; the order carries no meaning. *)
Fixpoint set_of_rows (snapshot : list (list Qc)) : list (list Qc) :=
  match snapshot with
  | [] => []
  | p :: r =>
      if existsb (tuple_eqb p) r then set_of_rows r else p :: set_of_rows r
  end.

(** [persistent_gps(batch_gps)]: [set.intersection] of the sets of the
    snapshots; called without any set it raises [TypeError]. *)
Definition persistent_gps (batch_gps : list (list (list Qc)))
  : result (list (list Qc)) :=
  match map set_of_rows batch_gps with
  | [] => Err TypeError
  | s :: sets =>
      Ok (filter (fun p => forallb (existsb (tuple_eqb p)) sets) s)
  end.

(** ** osmnx to PyG conversion.ipynb: pruning the attribute dictionaries *)

(** A Python [dict] with string keys, as its items in insertion order. *)
Definition PyDict (V : Type) : Type := list (string * V).

(** [d[k]]. *)
Definition dict_get {V : Type} (d : PyDict V) (k : string) : result V :=
  match find (fun kv => String.eqb k (fst kv)) d with
  | Some kv => Ok (snd kv)
  | None => Err KeyError
  end.

(** [d[k] = v]: a present key keeps its place, a new one goes last. *)
Fixpoint dict_set {V : Type} (d : PyDict V) (k : string) (v : V) : PyDict V :=
  match d with
  | [] => [(k, v)]
  | kv :: r =>
      if String.eqb k (fst kv) then (k, v) :: r else kv :: dict_set r k v
  end.

(** [{f: attr_dict[f] for f in ignore}]. *)
Definition restrict {V : Type} (attr_dict : PyDict V) (ignore : list string)
  : result (PyDict V) :=
  fold_left (fun acc f =>
               temp <- acc ;; v <- dict_get attr_dict f ;;
               Ok (dict_set temp f v))
            ignore (Ok []).

(** The loop of [clear_node_features] and [clear_edge_features] over the
    attribute dictionaries, each with the node or edge it belongs to.  The
    dictionaries are mutated in place: when a lookup raises, those visited
    before stay pruned.  The result is the dictionaries after the call and
    the exception, if one was raised. *)
Fixpoint clear_features {N V : Type} (attrs : list (N * PyDict V))
    (ignore : list string) : list (N * PyDict V) * option PyError :=
  match attrs with
  | [] => ([], None)
  | (n, attr_dict) :: r =>
      match restrict attr_dict ignore with
      | Err e => (attrs, Some e)
      | Ok temp =>
          let (r', e) := clear_features r ignore in ((n, temp) :: r', e)
      end
  end.

(** A [networkx] graph: the attribute dictionary of every node and of every
    edge. *)
Record Graph (V : Type) : Type := mkGraph {
  nodes : list (Z * PyDict V);
  edges : list ((Z * Z) * PyDict V)
}.
Arguments mkGraph {V} _ _.
Arguments nodes {V} _.
Arguments edges {V} _.

(** [clear_node_features(G, ignore)]; [ignore] defaults to [('x', 'y')]. *)
Definition clear_node_features {V : Type} (G : Graph V) (ignore : list string)
  : Graph V * option PyError :=
  let (nodes', e) := clear_features (nodes G) ignore in
  (mkGraph nodes' (edges G), e).

(** [clear_edge_features(G, ignore)]; [ignore] defaults to [('length',)]. *)
Definition clear_edge_features {V : Type} (G : Graph V) (ignore : list string)
  : Graph V * option PyError :=
  let (edges', e) := clear_features (edges G) ignore in
  (mkGraph (nodes G) edges', e).

(** The dictionary holds every key of [ignore]. *)
Definition has_keys {V : Type} (ignore : list string) (attr_dict : PyDict V)
  : Prop :=
  Forall (fun f => exists v, dict_get attr_dict f = Ok v) ignore.

(** [pruned ignore d d']: [d'] holds exactly the keys of [ignore], with the
    values they have in [d]. *)
Definition pruned {V : Type} (ignore : list string) (d d' : PyDict V) : Prop :=
  forall f,
    (In f ignore -> dict_get d' f = dict_get d f)
    /\ (~ In f ignore -> dict_get d' f = Err KeyError).

(** * Properties *)

(** ** The error monad and the array primitives *)

Lemma bind_Ok {A B : Type} (r : result A) (k : A -> result B) (b : B) :
  bind r k = Ok b -> exists a, r = Ok a /\ k a = Ok b.
Proof.
  destruct r as [a|e]; simpl; intros H; [eauto | discriminate].
Qed.

Ltac inv_bind H :=
  let a := fresh "v" in
  let Ha := fresh "Hv" in
  apply bind_Ok in H; destruct H as (a & Ha & H).

Tactic Notation "bind_inv" hyp(H) "as" ident(a) ident(Ha) :=
  apply bind_Ok in H; destruct H as (a & Ha & H).

Ltac inv_Ok H := injection H as H; try subst.

Lemma mapM_length {A B : Type} (f : A -> result B) (l : list A) (l' : list B) :
  mapM f l = Ok l' -> List.length l' = List.length l.
Proof.
  revert l'. induction l as [|x r IH]; simpl; intros l' H.
  - inv_Ok H. reflexivity.
  - inv_bind H. inv_bind H. inv_Ok H. simpl. f_equal. eauto.
Qed.

Lemma mapM_Forall {A B : Type} (f : A -> result B) (l : list A) (l' : list B) :
  mapM f l = Ok l' -> Forall (fun x => exists y, f x = Ok y) l.
Proof.
  revert l'. induction l as [|x r IH]; simpl; intros l' H.
  - constructor.
  - inv_bind H. inv_bind H. constructor; eauto.
Qed.

Lemma Forall_mapM {A B : Type} (f : A -> result B) (l : list A) :
  Forall (fun x => exists y, f x = Ok y) l -> exists l', mapM f l = Ok l'.
Proof.
  induction 1 as [|x r (y & Hy) _ (l' & Hl')]; simpl.
  - eauto.
  - rewrite Hy, Hl'. simpl. eauto.
Qed.


Lemma len_nonneg {A : Type} (a : list A) : 0 <= Np.len a.
Proof. unfold Np.len. lia. Qed.

Lemma getitem_Ok_valid {A : Type} (a : list A) (i : Z) (x : A) :
  Np.getitem a i = Ok x -> valid_index (Np.len a) i.
Proof.
  unfold Np.getitem, valid_index. intros H.
  destruct (i <? 0) eqn:Hi.
  - destruct (i + Np.len a <? 0) eqn:Hj; [discriminate|]. lia.
  - destruct (i <? 0) eqn:Hj; [discriminate|].
    destruct (nth_error a (Z.to_nat i)) eqn:Hn; [|discriminate].
    assert (Z.to_nat i < List.length a)%nat
      by (apply nth_error_Some; congruence).
    unfold Np.len. lia.
Qed.

Lemma getitem_invalid {A : Type} (a : list A) (i : Z) :
  ~ valid_index (Np.len a) i -> Np.getitem a i = Err IndexError.
Proof.
  intros H. destruct (Np.getitem a i) as [x|e] eqn:E.
  - apply getitem_Ok_valid in E. contradiction.
  - unfold Np.getitem in E.
    destruct (_ <? 0) in E; [congruence|].
    destruct (nth_error _ _) in E; congruence.
Qed.

Lemma getitem_nonneg {A : Type} (a : list A) (i : Z) :
  0 <= i < Np.len a ->
  exists x, Np.getitem a i = Ok x /\ nth_error a (Z.to_nat i) = Some x.
Proof.
  intros H. unfold Np.getitem.
  destruct (i <? 0) eqn:Hi; [lia|]. rewrite Hi.
  destruct (nth_error a (Z.to_nat i)) eqn:Hn; [eauto|].
  apply nth_error_None in Hn. unfold Np.len in H. lia.
Qed.

Lemma getitem_negative {A : Type} (a : list A) (i : Z) :
  - Np.len a <= i < 0 -> Np.getitem a i = Np.getitem a (i + Np.len a).
Proof.
  intros H. unfold Np.getitem. cbv zeta.
  assert (Hi : (i <? 0) = true) by lia.
  assert (Hj : (i + Np.len a <? 0) = false) by lia.
  rewrite Hi, !Hj. reflexivity.
Qed.

Lemma getitem_valid {A : Type} (a : list A) (i : Z) :
  valid_index (Np.len a) i -> exists x, Np.getitem a i = Ok x.
Proof.
  intros H. unfold valid_index in H.
  destruct (Z_lt_ge_dec i 0).
  - rewrite getitem_negative by lia.
    destruct (getitem_nonneg a (i + Np.len a)) as (x & Hx & _); [lia|eauto].
  - destruct (getitem_nonneg a i) as (x & Hx & _); [lia|eauto].
Qed.

Lemma take_Ok_valid {A : Type} (a : list A) (idx : list Z) (l : list A) :
  Np.take a idx = Ok l -> Forall (valid_index (Np.len a)) idx.
Proof.
  intros H. apply mapM_Forall in H.
  eapply Forall_impl; [|exact H].
  intros i (x & Hx). eapply getitem_Ok_valid; eauto.
Qed.

Lemma take_valid {A : Type} (a : list A) (idx : list Z) :
  Forall (valid_index (Np.len a)) idx -> exists l, Np.take a idx = Ok l.
Proof.
  intros H. apply Forall_mapM.
  eapply Forall_impl; [|exact H].
  intros i Hi. apply getitem_valid; assumption.
Qed.

(** *** Boolean masks *)

Lemma compress_length_eq {A B : Type} (mask : list bool) (a : list A)
    (b : list B) :
  List.length a = List.length b ->
  List.length (Np.compress mask a) = List.length (Np.compress mask b).
Proof.
  revert a b. induction mask as [|m r IH]; intros [|x a] [|y b] H;
    simpl in *; try reflexivity; try discriminate.
  destruct m; simpl; auto.
Qed.

Lemma compress_Forall {A : Type} (P : A -> Prop) (mask : list bool)
    (a : list A) :
  Forall P a -> Forall P (Np.compress mask a).
Proof.
  revert a. induction mask as [|m r IH]; intros [|x a] H; simpl;
    try constructor.
  inversion H; subst. destruct m; [constructor|]; auto.
Qed.

Lemma compress_all_false {A : Type} (mask : list bool) (a : list A) :
  Forall (fun b => b = false) mask -> Np.compress mask a = [].
Proof.
  revert a. induction mask as [|m r IH]; intros [|x a] H; simpl;
    try reflexivity.
  inversion H; subst. auto.
Qed.

(** *** Slices and [np.split] *)


Lemma slice_length_spec {A : Type} (a : list A) (start stop : Z) :
  List.length (Np.slice a start stop) = slice_length (Np.len a) start stop.
Proof.
  unfold Np.slice, slice_length.
  rewrite length_firstn, length_skipn.
  unfold Np.len. rewrite Nat2Z.id. reflexivity.
Qed.

Lemma Forall_firstn {A : Type} (P : A -> Prop) (n : nat) (l : list A) :
  Forall P l -> Forall P (firstn n l).
Proof.
  intros H. rewrite <- (firstn_skipn n l) in H.
  apply Forall_app in H. tauto.
Qed.

Lemma Forall_skipn {A : Type} (P : A -> Prop) (n : nat) (l : list A) :
  Forall P l -> Forall P (skipn n l).
Proof.
  intros H. rewrite <- (firstn_skipn n l) in H.
  apply Forall_app in H. tauto.
Qed.

Lemma slice_Forall {A : Type} (P : A -> Prop) (a : list A) (start stop : Z) :
  Forall P a -> Forall P (Np.slice a start stop).
Proof.
  intros H. unfold Np.slice.
  apply Forall_firstn, Forall_skipn. assumption.
Qed.

Lemma split_lengths {A B : Type} (a : list A) (b : list B) (points : list Z) :
  List.length a = List.length b ->
  map (@List.length A) (Np.split a points)
  = map (@List.length B) (Np.split b points).
Proof.
  intros H. unfold Np.split. rewrite !map_map.
  assert (Hl : Np.len a = Np.len b) by (unfold Np.len; congruence).
  rewrite Hl. apply map_ext. intros se.
  rewrite !slice_length_spec. congruence.
Qed.

Lemma split_Forall {A : Type} (P : A -> Prop) (a : list A) (points : list Z) :
  Forall P a -> Forall (Forall P) (Np.split a points).
Proof.
  intros H. unfold Np.split. apply Forall_map, Forall_forall.
  intros se _. apply slice_Forall. assumption.
Qed.

(** *** [del] and [delete_indices] *)

Lemma remove_nth_map {A B : Type} (f : A -> B) (n : nat) (l : list A) :
  map f (Py.remove_nth n l) = Py.remove_nth n (map f l).
Proof.
  revert n. induction l as [|x r IH]; intros [|n]; simpl; try reflexivity.
  f_equal. apply IH.
Qed.

Lemma remove_nth_Forall {A : Type} (P : A -> Prop) (n : nat) (l : list A) :
  Forall P l -> Forall P (Py.remove_nth n l).
Proof.
  intros H. revert n. induction H as [|x r Hx Hr IH]; intros [|n]; simpl;
    auto.
Qed.

Section Lockstep.

Context {A B C : Type} (f : A -> C) (g : B -> C).

Lemma del_lockstep (a a' : list A) (b b' : list B) (i : Z) :
  map f a = map g b ->
  Py.del a i = Ok a' -> Py.del b i = Ok b' ->
  map f a' = map g b'.
Proof.
  intros Hab Ha Hb. unfold Py.del in *.
  assert (Hl : Np.len a = Np.len b).
  { unfold Np.len. f_equal.
    rewrite <- (length_map f a), <- (length_map g b). congruence. }
  rewrite Hl in Ha.
  destruct (_ || _) in Ha, Hb; [discriminate|].
  inv_Ok Ha. inv_Ok Hb. rewrite !remove_nth_map. congruence.
Qed.

Let step {X : Type} (acc : result (list X)) (idx : Z) : result (list X) :=
  a <- acc ;; Py.del a idx.

Lemma fold_del_Err {X : Type} (l : list Z) (e : PyError) :
  fold_left (@step X) l (Err e) = Err e.
Proof. induction l; simpl; auto. Qed.

Lemma fold_del_lockstep (l : list Z) (a a' : list A) (b b' : list B) :
  map f a = map g b ->
  fold_left step l (Ok a) = Ok a' -> fold_left step l (Ok b) = Ok b' ->
  map f a' = map g b'.
Proof.
  revert a b. induction l as [|i l IH]; simpl; intros a b Hab Ha Hb.
  - inv_Ok Ha. inv_Ok Hb. assumption.
  - destruct (Py.del a i) as [a1|e] eqn:Ea;
      [|rewrite fold_del_Err in Ha; discriminate].
    destruct (Py.del b i) as [b1|e] eqn:Eb;
      [|rewrite fold_del_Err in Hb; discriminate].
    apply (IH a1 b1); [eapply del_lockstep; eauto | assumption | assumption].
Qed.

Lemma delete_indices_lockstep (idx : list Z) (a a' : list A)
    (b b' : list B) :
  map f a = map g b ->
  delete_indices a idx = Ok a' -> delete_indices b idx = Ok b' ->
  map f a' = map g b'.
Proof. apply fold_del_lockstep. Qed.

Lemma fold_del_Forall (P : A -> Prop) (l : list Z) (a a' : list A) :
  Forall P a -> fold_left step l (Ok a) = Ok a' -> Forall P a'.
Proof.
  revert a. induction l as [|i l IH]; simpl; intros a Ha H.
  - inv_Ok H. assumption.
  - destruct (Py.del a i) as [a1|e] eqn:Ea;
      [|rewrite fold_del_Err in H; discriminate].
    apply (IH a1); [|assumption].
    unfold Py.del in Ea. destruct (_ || _) in Ea; [discriminate|].
    inv_Ok Ea. apply remove_nth_Forall. assumption.
Qed.

Lemma delete_indices_Forall (P : A -> Prop) (idx : list Z) (a a' : list A) :
  Forall P a -> delete_indices a idx = Ok a' -> Forall P a'.
Proof. apply fold_del_Forall. Qed.

End Lockstep.

(** *** Pruning of unit batches *)

Lemma insert_desc_last (x : Z) (l : list Z) :
  Forall (fun y => x < y) l -> insert_desc x l = l ++ [x].
Proof.
  induction 1 as [|y r Hy Hr IH]; simpl; [reflexivity|].
  destruct (Z.leb_spec y x); [lia|]. f_equal. assumption.
Qed.

Lemma unit_batches_from_lower {A : Type} (i : Z) (batches : list (list A)) :
  Forall (fun j => i <= j) (unit_batches_from i batches).
Proof.
  revert i. induction batches as [|b r IH]; intros i; simpl; [constructor|].
  assert (H : Forall (fun j => i <= j) (unit_batches_from (i + 1) r)).
  { eapply Forall_impl; [|apply IH]. simpl. intros; lia. }
  destruct (Np.len b <=? 1); [constructor; [lia|]|]; exact H.
Qed.

Lemma sorted_reverse_unit_batches {A : Type} (i : Z) (batches : list (list A)) :
  sorted_reverse (unit_batches_from i batches)
  = rev (unit_batches_from i batches).
Proof.
  revert i. induction batches as [|b r IH]; intros i; simpl; [reflexivity|].
  destruct (Np.len b <=? 1); [|apply IH].
  simpl. rewrite IH. apply insert_desc_last.
  apply Forall_rev.
  eapply Forall_impl; [|apply (unit_batches_from_lower (i + 1))].
  simpl. intros; lia.
Qed.

Lemma del_middle {A : Type} (pre post : list A) (b : A) :
  Py.del (pre ++ b :: post) (Np.len pre) = Ok (pre ++ post).
Proof.
  unfold Py.del. pose proof (len_nonneg pre) as Hp.
  destruct (Z.ltb_spec (Np.len pre) 0); [lia|].
  assert (Hl : Np.len (pre ++ b :: post) = Np.len pre + 1 + Np.len post).
  { unfold Np.len. rewrite length_app. simpl. lia. }
  pose proof (len_nonneg post).
  destruct (Z.ltb_spec (Np.len pre) 0); [lia|].
  destruct (Z.leb_spec (Np.len (pre ++ b :: post)) (Np.len pre)); [lia|].
  simpl. f_equal. unfold Np.len. rewrite Nat2Z.id.
  clear. induction pre as [|x pre IH]; simpl; [reflexivity|].
  f_equal. assumption.
Qed.

(** Deleting the positions of the unit batches, largest first, keeps exactly
    the batches with two snapshots or more. *)
Lemma delete_unit_batches_from {A : Type} (pre batches : list (list A)) :
  fold_left (fun acc idx => a <- acc ;; Py.del a idx)
            (rev (unit_batches_from (Np.len pre) batches))
            (Ok (pre ++ batches))
  = Ok (pre ++ filter (fun b => negb (Np.len b <=? 1)) batches).
Proof.
  revert pre. induction batches as [|b r IH]; intros pre; simpl.
  - reflexivity.
  - specialize (IH (pre ++ [b])).
    assert (Hl : Np.len (pre ++ [b]) = Np.len pre + 1).
    { unfold Np.len. rewrite length_app. simpl. lia. }
    rewrite Hl, <- !app_assoc in IH. simpl in IH.
    destruct (Np.len b <=? 1); simpl.
    + rewrite fold_left_app, IH. simpl. apply del_middle.
    + exact IH.
Qed.

Lemma delete_unit_batches {A : Type} (batches : list (list A)) :
  delete_indices batches (find_indices_of_unit_batches batches)
  = Ok (filter (fun b => negb (Np.len b <=? 1)) batches).
Proof.
  unfold delete_indices, find_indices_of_unit_batches.
  rewrite sorted_reverse_unit_batches.
  apply (delete_unit_batches_from []).
Qed.

(** ** Interval segmenter *)

(** C1.  On readings at minutes 0, 1, 2, 20, 21, 40 with a 15 minute
    threshold the code returns the snapshots (0,2), (2,4), (4,6): the boundary
    is the position before each large gap, not the position after it.  The
    snapshot (2,4) holds the 18 minute gap between positions 2 and 3, and the
    gap before its start is one minute, so segmentation correctness fails. *)
Theorem comp_snapshot_indices_off_by_one :
  let index := at_minutes [0; 1; 2; 20; 21; 40] in
  comp_snapshot_indices index 15 = [(0, 2); (2, 4); (4, 6)]
  /\ gap index 2 = 18 * Np.ns_per_minute
  /\ gap index 1 = 1 * Np.ns_per_minute
  /\ snapshot_ok index 15 (2, 4) = false
  /\ segmentation_ok index 15 = false.
Proof.
  cbv zeta. repeat split; vm_compute; reflexivity.
Qed.

(** ** The duplicate averager *)

(** *** The ordering of the grouping keys *)

Lemma Qccompare_antisym (x y : Qc) : (y ?= x)%Qc = CompOpp (x ?= y)%Qc.
Proof. unfold Qccompare. symmetry. apply Qcompare_antisym. Qed.

Lemma Qccompare_refl (x : Qc) : (x ?= x)%Qc = Eq.
Proof. apply Qceq_alt. reflexivity. Qed.

Lemma Qccompare_trans (x y z : Qc) :
  (x ?= y)%Qc = Lt -> (y ?= z)%Qc = Lt -> (x ?= z)%Qc = Lt.
Proof.
  intros H1 H2. apply Qclt_alt. apply Qclt_alt in H1. apply Qclt_alt in H2.
  eapply Qclt_trans; eauto.
Qed.

Lemma tuple_compare_eq (a b : list Qc) :
  Pd.tuple_compare a b = Eq -> a = b.
Proof.
  revert b. induction a as [|x a IH]; intros [|y b]; simpl;
    try discriminate; try reflexivity.
  destruct (x ?= y)%Qc eqn:E; try discriminate.
  intros H. apply Qceq_alt in E. subst. f_equal. auto.
Qed.

Lemma tuple_compare_antisym (a b : list Qc) :
  Pd.tuple_compare b a = CompOpp (Pd.tuple_compare a b).
Proof.
  revert b. induction a as [|x a IH]; intros [|y b]; simpl; try reflexivity.
  rewrite (Qccompare_antisym x y).
  destruct (x ?= y)%Qc; simpl; auto.
Qed.

Lemma tuple_compare_trans (a b c : list Qc) :
  Pd.tuple_compare a b = Lt -> Pd.tuple_compare b c = Lt ->
  Pd.tuple_compare a c = Lt.
Proof.
  revert b c. induction a as [|x a IH]; intros [|y b] [|z c]; simpl;
    try discriminate; try reflexivity.
  destruct (x ?= y)%Qc eqn:Exy; try discriminate;
    destruct (y ?= z)%Qc eqn:Eyz; try discriminate; intros H1 H2.
  - apply Qceq_alt in Exy, Eyz. subst. rewrite Qccompare_refl. eauto.
  - apply Qceq_alt in Exy. subst. rewrite Eyz. reflexivity.
  - apply Qceq_alt in Eyz. subst. rewrite Exy. reflexivity.
  - rewrite (Qccompare_trans x y z) by assumption. reflexivity.
Qed.


Lemma key_compare_eq (k k' : Pd.Key) : Pd.key_compare k k' = Eq -> k = k'.
Proof.
  destruct k as [t a], k' as [t' a']. unfold Pd.key_compare. simpl.
  destruct (t ?= t') eqn:E; try discriminate.
  intros H. apply Z.compare_eq in E. apply tuple_compare_eq in H.
  congruence.
Qed.

Lemma key_compare_Gt (k k' : Pd.Key) : Pd.key_compare k k' = Gt -> key_lt k' k.
Proof.
  destruct k as [t a], k' as [t' a']. unfold key_lt, Pd.key_compare. simpl.
  rewrite (Z.compare_antisym t t'), (tuple_compare_antisym a a').
  destruct (t ?= t'); simpl; try discriminate; try reflexivity.
  destruct (Pd.tuple_compare a a'); simpl; try discriminate; reflexivity.
Qed.

Lemma key_lt_Gt (k k' : Pd.Key) : key_lt k' k -> Pd.key_compare k k' = Gt.
Proof.
  destruct k as [t a], k' as [t' a']. unfold key_lt, Pd.key_compare. simpl.
  rewrite (Z.compare_antisym t t'), (tuple_compare_antisym a a').
  destruct (t ?= t'); simpl; try discriminate; try reflexivity.
  destruct (Pd.tuple_compare a a'); simpl; try discriminate; reflexivity.
Qed.

Lemma key_lt_trans (k1 k2 k3 : Pd.Key) :
  key_lt k1 k2 -> key_lt k2 k3 -> key_lt k1 k3.
Proof.
  destruct k1 as [t1 a1], k2 as [t2 a2], k3 as [t3 a3].
  unfold key_lt, Pd.key_compare. simpl.
  destruct (t1 ?= t2) eqn:E12; try discriminate;
    destruct (t2 ?= t3) eqn:E23; try discriminate; intros H1 H2.
  - apply Z.compare_eq in E12, E23. subst. rewrite Z.compare_refl.
    eapply tuple_compare_trans; eauto.
  - apply Z.compare_eq in E12. subst. rewrite E23. reflexivity.
  - apply Z.compare_eq in E23. subst. rewrite E12. reflexivity.
  - assert (H12 : t1 < t2) by (apply Z.compare_lt_iff; assumption).
    assert (H23 : t2 < t3) by (apply Z.compare_lt_iff; assumption).
    assert (H13 : (t1 ?= t3) = Lt) by (apply Z.compare_lt_iff; lia).
    rewrite H13. reflexivity.
Qed.

(** *** Groups *)



Section Groups.

(** What is known of a row filed under a key. *)
Variable Q : Pd.Key -> list Qc -> Prop.


Lemma insert_group_keys (P : Pd.Key -> Prop) (k : Pd.Key) (r : list Qc)
    (groups : list Group) :
  P k -> Forall (fun g => P (fst g)) groups ->
  Forall (fun g => P (fst g)) (Pd.insert_group k r groups).
Proof.
  intros Hk. induction 1 as [|[k' rs] rest Hg Hrest IH]; simpl.
  - repeat constructor. assumption.
  - destruct (Pd.key_compare k k'); repeat constructor; auto.
Qed.

Lemma insert_group_sorted (k : Pd.Key) (r : list Qc) (groups : list Group) :
  groups_sorted groups -> groups_sorted (Pd.insert_group k r groups).
Proof.
  unfold groups_sorted.
  induction 1 as [|[k' rs] rest Hrest IH Hhd]; simpl.
  - repeat constructor.
  - destruct (Pd.key_compare k k') eqn:E.
    + constructor; assumption.
    + constructor; [constructor; assumption|].
      constructor; [exact E|].
      eapply Forall_impl; [|exact Hhd].
      intros g Hg. simpl in *. eapply key_lt_trans; eauto.
    + constructor; [assumption|].
      apply (insert_group_keys (fun x => key_lt k' x)); [|assumption].
      apply key_compare_Gt. assumption.
Qed.

Lemma insert_group_ok (k : Pd.Key) (r : list Qc) (groups : list Group) :
  Q k r -> Forall (group_ok Q) groups ->
  Forall (group_ok Q) (Pd.insert_group k r groups).
Proof.
  intros Hk. induction 1 as [|[k' rs] rest Hg Hrest IH]; simpl.
  - repeat constructor; simpl; [discriminate|auto].
  - destruct (Pd.key_compare k k') eqn:E.
    + apply key_compare_eq in E. subst k'.
      constructor; [|assumption].
      destruct Hg as (Hne & Hrs). split; simpl in *.
      * destruct rs; discriminate.
      * apply Forall_app. auto.
    + constructor; [|constructor; assumption].
      split; simpl; [discriminate|auto].
    + constructor; assumption.
Qed.

Lemma fold_insert_group_inv (keyed : list (Pd.Key * list Qc))
    (groups : list Group) :
  Forall (fun kr => Q (fst kr) (snd kr)) keyed ->
  groups_sorted groups -> Forall (group_ok Q) groups ->
  let groups' :=
    fold_left (fun gs kr => Pd.insert_group (fst kr) (snd kr) gs)
              keyed groups in
  groups_sorted groups' /\ Forall (group_ok Q) groups'.
Proof.
  intros H. revert groups.
  induction H as [|[k r] keyed Hkr Hkeyed IH]; simpl; intros groups Hs Hok.
  - auto.
  - apply IH.
    + apply insert_group_sorted. assumption.
    + apply insert_group_ok; assumption.
Qed.

Lemma group_rows_inv (keyed : list (Pd.Key * list Qc)) :
  Forall (fun kr => Q (fst kr) (snd kr)) keyed ->
  groups_sorted (Pd.group_rows keyed)
  /\ Forall (group_ok Q) (Pd.group_rows keyed).
Proof.
  intros H. apply fold_insert_group_inv; [assumption|constructor|constructor].
Qed.

End Groups.

Lemma insert_group_last (k : Pd.Key) (r : list Qc) (groups : list Group) :
  Forall (fun g => key_lt (fst g) k) groups ->
  Pd.insert_group k r groups = groups ++ [(k, [r])].
Proof.
  induction 1 as [|[k' rs] rest Hg Hrest IH]; simpl.
  - reflexivity.
  - simpl in Hg. rewrite (key_lt_Gt _ _ Hg). f_equal. assumption.
Qed.


Lemma fold_insert_group_sorted_input (keyed : list (Pd.Key * list Qc))
    (groups : list Group) :
  StronglySorted (fun x y => key_lt (fst x) (fst y)) keyed ->
  Forall (fun g => Forall (fun x => key_lt (fst g) (fst x)) keyed) groups ->
  fold_left (fun gs kr => Pd.insert_group (fst kr) (snd kr) gs) keyed groups
  = groups ++ map singleton_group keyed.
Proof.
  intros Hs. revert groups.
  induction Hs as [|[k r] keyed Hkeyed IH Hhd]; simpl; intros groups Hg.
  - rewrite app_nil_r. reflexivity.
  - rewrite insert_group_last.
    + rewrite IH.
      * rewrite <- app_assoc. reflexivity.
      * apply Forall_app. split.
        -- eapply Forall_impl; [|exact Hg].
           intros g H. inversion H; assumption.
        -- repeat constructor. exact Hhd.
    + eapply Forall_impl; [|exact Hg].
      intros g H. inversion H; assumption.
Qed.

Lemma group_rows_sorted_input (keyed : list (Pd.Key * list Qc)) :
  StronglySorted (fun x y => key_lt (fst x) (fst y)) keyed ->
  Pd.group_rows keyed = map singleton_group keyed.
Proof.
  intros H. unfold Pd.group_rows.
  rewrite fold_insert_group_sorted_input; [reflexivity|assumption|constructor].
Qed.

(** *** Means *)

(** Two roundings of the float means.  The mean of five latitudes 28.5384 is
    the next float, 28.538400000000003; the mean of the single timestamp
    1661527800001000000 is 64 ns earlier, the nearest float. *)
Example mean_of_five_latitudes :
  Pd.mean [lat_28_5384; lat_28_5384; lat_28_5384; lat_28_5384; lat_28_5384]
  = lat_above
  /\ lat_28_5384 <> lat_above.
Proof.
  split; [apply Qc_is_canon; vm_compute; reflexivity|].
  intros H. apply (f_equal (fun q => Qnum (this q))) in H.
  vm_compute in H. discriminate.
Qed.

Example mean_i8_single_reading :
  Np.mean_i8 [1661527800001000000] = Some 1661527800000999936.
Proof. vm_compute. reflexivity. Qed.

Lemma mean_single (x : Qc) : F64.representable x -> Pd.mean [x] = x.
Proof.
  unfold F64.representable. intros Hx.
  unfold Pd.mean, Pd.kahan_step, F64.sub, F64.add, F64.div.
  cbn [fold_left fst snd List.length].
  replace (x - 0)%Qc with x by ring. rewrite Hx.
  replace (0 + x)%Qc with x by ring. rewrite Hx.
  replace (Pd.Qc_of_nat 1) with 1%Qc by (apply Qc_is_canon; reflexivity).
  replace (x / 1)%Qc with x by (field; discriminate).
  exact Hx.
Qed.

(** *** Averaging twice *)

Lemma position_lt (name : string) (labels : list string) (p : nat) :
  Pd.position name labels = Some p -> (p < List.length labels)%nat.
Proof.
  revert p. induction labels as [|l r IH]; simpl; intros p H; [discriminate|].
  destruct (String.eqb name l).
  - inv_Ok H. lia.
  - destruct (Pd.position name r) as [q|]; [|discriminate].
    inv_Ok H. specialize (IH q eq_refl). lia.
Qed.

Lemma locate_all_lt (labels names : list string) (ps : list nat) :
  mapM (Pd.locate labels) names = Ok ps ->
  Forall (fun p => (p < List.length labels)%nat) ps.
Proof.
  revert ps. induction names as [|x r IH]; simpl; intros ps H.
  - inv_Ok H. constructor.
  - bind_inv H as p Hp. bind_inv H as ps' Hps. inv_Ok H.
    constructor; [|auto].
    unfold Pd.locate in Hp.
    destruct (Pd.position x labels) eqn:E; [|discriminate].
    inv_Ok Hp. eapply position_lt; eauto.
Qed.

Lemma column_means_length (n : nat) (rs : list (list Qc)) :
  List.length (Pd.column_means n rs) = n.
Proof. unfold Pd.column_means. rewrite length_map, length_seq. reflexivity. Qed.

Lemma nth_column_means (n p : nat) (rs : list (list Qc)) :
  (p < n)%nat ->
  nth p (Pd.column_means n rs) 0%Qc
  = Pd.mean (map (fun r => nth p r 0%Qc) rs).
Proof.
  intros H. unfold Pd.column_means.
  rewrite (nth_indep _ 0%Qc (Pd.mean (map (fun r => nth 0 r 0%Qc) rs)))
    by (rewrite length_map, length_seq; assumption).
  rewrite (map_nth (fun j => Pd.mean (map (fun r => nth j r 0%Qc) rs))).
  rewrite seq_nth by assumption. reflexivity.
Qed.

(** The means over a group of one row are the row. *)
Lemma column_means_single (r : list Qc) :
  Forall F64.representable r ->
  Pd.column_means (List.length r) [r] = r.
Proof.
  intros Hr. apply (nth_ext _ _ 0%Qc 0%Qc).
  - apply column_means_length.
  - intros p Hp. rewrite column_means_length in Hp.
    rewrite nth_column_means by assumption. cbn [map].
    apply mean_single. rewrite Forall_forall in Hr.
    apply Hr, nth_In, Hp.
Qed.

Lemma combine_map3 {A B C D : Type} (f : A -> B) (g : A -> C) (h : A -> D)
    (l : list A) :
  combine (combine (map f l) (map g l)) (map h l)
  = map (fun x => ((f x, g x), h x)) l.
Proof. induction l; simpl; congruence. Qed.

Lemma StronglySorted_of_map {A B : Type} (R : B -> B -> Prop) (f : A -> B)
    (l : list A) :
  StronglySorted R (map f l) -> StronglySorted (fun x y => R (f x) (f y)) l.
Proof.
  induction l as [|x l IH]; cbn [map]; intros H; [constructor|].
  inversion H as [|? ? Hs Hx]; subst. constructor; [auto|].
  exact (proj1 (Forall_map f (R (f x)) l) Hx).
Qed.

Lemma average_duplicates_unfold (df : Pd.DataFrame) (columns : list string)
    (ps : list nat) :
  Pd.position (String.concat ", " columns) (Pd.columns df) = None ->
  mapM (Pd.locate (Pd.columns df)) columns = Ok ps ->
  average_duplicates df columns
  = Ok (Pd.mkDataFrame (Pd.index_name df) (Pd.columns df) (Pd.rows df)
          (Pd.set_assoc (String.concat ", " columns)
             (map (fun r => Pd.cells_at ps (snd r)) (Pd.rows df))
             (Pd.tuple_columns df)),
        Pd.mkDataFrame (Pd.index_name df) (Pd.columns df)
          (averaged_rows (List.length (Pd.columns df))
             (Pd.group_rows (key_rows ps (Pd.rows df))))
          []).
Proof.
  intros Htemp Hps. unfold average_duplicates, Pd.get_values.
  rewrite Hps. cbn [bind]. unfold Pd.set_tuple_column. rewrite Htemp.
  unfold Pd.groupby_mean, Pd.index_values, Pd.values.
  cbn [Pd.columns Pd.rows Pd.index_name].
  rewrite combine_map3. reflexivity.
Qed.

Lemma map_pair_combine {A B C : Type} (f : A -> B) (g : A -> C) (l : list A) :
  map (fun x => (f x, g x)) l = combine (map f l) (map g l).
Proof. induction l; simpl; congruence. Qed.

(** The rows of a frame of floats that is sorted strictly by its keys are
    their own averages. *)
Lemma averaged_rows_sorted_input (ps : list nat) (n : nat)
    (rows : list (Z * list Qc)) :
  Forall (fun r => List.length (snd r) = n) rows ->
  Forall (fun r => Forall F64.representable (snd r)) rows ->
  StronglySorted key_lt (map fst (key_rows ps rows)) ->
  averaged_rows n (Pd.group_rows (key_rows ps rows)) = rows.
Proof.
  intros Hlen Hfl Hs. rewrite group_rows_sorted_input
    by (apply StronglySorted_of_map; exact Hs).
  unfold averaged_rows, key_rows, singleton_group. rewrite !map_map.
  cbn [fst snd]. rewrite <- (map_id rows) at 2. apply map_ext_in.
  intros [t r] Hr. cbn [fst snd]. f_equal.
  rewrite Forall_forall in Hlen, Hfl.
  rewrite <- (Hlen _ Hr). cbn [snd].
  apply column_means_single. exact (Hfl _ Hr).
Qed.

(** C8 (as amended).  Let [avg] be the frame a first application returns.
    When its cells are floats and its rows are ordered strictly by index
    value and key columns (no two rows share them), the second application
    returns [avg] itself, and it adds the column of tuples to its input: the
    input after the call is [avg] with that column. *)
Theorem average_duplicates_idempotent (df df' avg : Pd.DataFrame)
    (columns : list string) (tuples : list (list Qc)) :
  Forall (fun r => List.length (snd r) = List.length (Pd.columns df))
         (Pd.rows df) ->
  Pd.position (String.concat ", " columns) (Pd.columns df) = None ->
  average_duplicates df columns = Ok (df', avg) ->
  Forall (Forall F64.representable) (Pd.values avg) ->
  Pd.get_values avg columns = Ok tuples ->
  StronglySorted key_lt (combine (Pd.index_values avg) tuples) ->
  average_duplicates avg columns
  = Ok (Pd.set_tuple_column avg (String.concat ", " columns) tuples, avg).
Proof.
  intros Hwf Htemp H Hfl Htuples Hs.
  assert (Hps : exists ps, mapM (Pd.locate (Pd.columns df)) columns = Ok ps).
  { unfold average_duplicates, Pd.get_values in H.
    bind_inv H as tuples0 Htuples0. bind_inv Htuples0 as ps Hps. eauto. }
  destruct Hps as (ps & Hps).
  rewrite (average_duplicates_unfold df columns ps Htemp Hps) in H.
  inv_Ok H.
  set (n := List.length (Pd.columns df)) in *.
  set (rows := averaged_rows n (Pd.group_rows (key_rows ps (Pd.rows df)))) in *.
  unfold Pd.get_values in Htuples. cbn [Pd.columns Pd.rows] in Htuples.
  rewrite Hps in Htuples. cbn [bind] in Htuples. inv_Ok Htuples.
  unfold average_duplicates, Pd.get_values. cbn [Pd.columns Pd.rows].
  rewrite Hps. cbn [bind]. f_equal. f_equal.
  unfold Pd.set_tuple_column. cbn [Pd.columns]. rewrite Htemp.
  unfold Pd.groupby_mean, Pd.index_values, Pd.values.
  cbn [Pd.columns Pd.rows Pd.index_name Pd.tuple_columns].
  rewrite combine_map3. fold (key_rows ps rows). fold (averaged_rows
    (List.length (Pd.columns df)) (Pd.group_rows (key_rows ps rows))).
  fold n. rewrite averaged_rows_sorted_input; [reflexivity| | |].
  - unfold rows, averaged_rows. apply Forall_map, Forall_forall.
    intros g _. cbn [snd]. apply column_means_length.
  - unfold Pd.values in Hfl. cbn [Pd.rows] in Hfl.
    exact (proj1 (Forall_map snd (Forall F64.representable) rows) Hfl).
  - unfold Pd.index_values in Hs. cbn [Pd.rows] in Hs.
    unfold key_rows. rewrite map_map. cbn [fst].
    refine (eq_ind _ (StronglySorted key_lt) Hs _ _). symmetry.
    apply (map_pair_combine fst (fun r => Pd.cells_at ps (snd r)) rows).
Qed.

Lemma average_duplicates_idempotent_witness :
  exists df' avg tuples,
    average_duplicates (Pd.set_index_values stationary (Pd.floor 15))
      ["gpsLatitude"; "gpsLongitude"]%string = Ok (df', avg)
    /\ List.length (Pd.rows avg) = 1%nat
    /\ average_duplicates avg ["gpsLatitude"; "gpsLongitude"]%string
       = Ok (Pd.set_tuple_column avg "gpsLatitude, gpsLongitude" tuples, avg).
Proof.
  destruct (average_duplicates (Pd.set_index_values stationary (Pd.floor 15))
              ["gpsLatitude"; "gpsLongitude"]%string)
    as [[df' avg]|e] eqn:E; [|vm_compute in E; discriminate].
  destruct (Pd.get_values avg ["gpsLatitude"; "gpsLongitude"]%string)
    as [tuples|e] eqn:G;
    [|vm_compute in E; inv_Ok E; vm_compute in G; discriminate].
  exists df', avg, tuples. split; [reflexivity|].
  split; [vm_compute in E; inv_Ok E; reflexivity|].
  apply (average_duplicates_idempotent
           (Pd.set_index_values stationary (Pd.floor 15)) df' avg
           ["gpsLatitude"; "gpsLongitude"]%string tuples).
  - repeat constructor.
  - reflexivity.
  - exact E.
  - vm_compute in E. inv_Ok E. repeat constructor; apply Qc_is_canon;
      vm_compute; reflexivity.
  - exact G.
  - vm_compute in E. inv_Ok E. vm_compute in G. inv_Ok G.
    repeat constructor.
Defined.

(** The original claim fails on six readings at one time and one longitude,
    five at latitude 28.5384 and one at the next float above it.  The mean of
    the five latitudes is that next float, so the frame the first application
    returns holds two rows with the same index value and key columns; the
    second application merges them and returns one row.  It also changes its
    input, which gains the column of tuples. *)
Lemma average_duplicates_second_call_merges :
  exists df' avg avg' avg2,
    average_duplicates colliding ["gpsLatitude"; "gpsLongitude"]%string
    = Ok (df', avg)
    /\ average_duplicates avg ["gpsLatitude"; "gpsLongitude"]%string
       = Ok (avg', avg2)
    /\ Pd.rows avg = [(0, [qc 3; qc 1; lat_above]); (0, [qc 6; qc 1; lat_above])]
    /\ List.length (Pd.rows avg2) = 1%nat
    /\ avg2 <> avg
    /\ avg' <> avg.
Proof.
  destruct (average_duplicates colliding
              ["gpsLatitude"; "gpsLongitude"]%string)
    as [[df' avg]|e] eqn:E; [|vm_compute in E; discriminate].
  destruct (average_duplicates avg ["gpsLatitude"; "gpsLongitude"]%string)
    as [[avg' avg2]|e] eqn:G;
    [|vm_compute in E; inv_Ok E; vm_compute in G; discriminate].
  exists df', avg, avg', avg2. split; [reflexivity|]. split; [exact G|].
  vm_compute in E. inv_Ok E. vm_compute in G. inv_Ok G.
  split; [cbn [Pd.rows];
          repeat (f_equal; try (apply Qc_is_canon; vm_compute; reflexivity))|].
  split; [reflexivity|]. split; discriminate.
Qed.

(** *** Construction drops the averaged frame *)

(** C2.  Two readings a minute apart at one place fall in one 15 minute
    bucket at one position.  [average_duplicates] returns the single averaged
    row, but [prep_pm_gps] drops that frame: after construction the caller's
    table still holds both rows under the same key (only the index is floored
    and the column of tuples added), and the Dataset's [pm_values] are the two
    raw readings. *)
Theorem prep_pm_gps_keeps_duplicates :
  exists d pm_gps' df avg,
    Dataset_init stationary 15 None None None = Ok (d, pm_gps')
    /\ Pd.rows pm_gps' = [(0, [qc 10; qc 1; qc 2]); (0, [qc 20; qc 1; qc 2])]
    /\ pm_values d = [qc 10; qc 20]
    /\ average_duplicates (Pd.set_index_values stationary (Pd.floor 15))
         ["gpsLatitude"; "gpsLongitude"]%string = Ok (df, avg)
    /\ df = pm_gps'
    /\ Pd.rows avg = [(0, [qc 15; qc 1; qc 2])].
Proof.
  do 4 eexists.
  split; [vm_compute; reflexivity|].
  split; [vm_compute; reflexivity|].
  split; [vm_compute; reflexivity|].
  split; [vm_compute; reflexivity|].
  split; [reflexivity|].
  cbn [Pd.rows].
  repeat (f_equal; try (apply Qc_is_canon; vm_compute; reflexivity)).
Qed.

(** ** Batch segmenter *)

(** C3.  Readings at minutes 0, 1, 15, 60, 75, 76 with a 15 minute threshold
    give the snapshots (0,1), (1,2), (2,3), (3,6).  The only gap above the
    threshold is the 45 minutes between (2,3) and (3,6), yet [np.split] cuts
    before snapshot 2: the retained batches are [(0,1), (1,2)] and
    [(2,3), (3,6)].  The 45 minute gap lies inside the second batch and the
    gap across the batch boundary is 15 minutes, which does not exceed the
    threshold. *)
Theorem split_to_batches_off_by_one :
  exists d pm_gps',
    Dataset_init sparse 15 None None None = Ok (d, pm_gps')
    /\ pm_gps_idx d = [[(0, 1); (1, 2)]; [(2, 3); (3, 6)]]
    /\ split_snapshot_indices_to_batches (Pd.index_values pm_gps')
         [(0, 1); (1, 2); (2, 3); (3, 6)] 15 = Ok [2]
    /\ snapshot_gap (Pd.index_values pm_gps') (2, 3) (3, 6)
       = 45 * Np.ns_per_minute
    /\ snapshot_gap (Pd.index_values pm_gps') (1, 2) (2, 3)
       = 15 * Np.ns_per_minute
    /\ batch_integrity (Pd.index_values pm_gps') 15 (pm_gps_idx d) = false.
Proof.
  do 2 eexists.
  split; [vm_compute; reflexivity|].
  repeat split; vm_compute; reflexivity.
Qed.

(** Every batch that construction retains has two snapshots or more. *)
Lemma retained_batches_have_two_snapshots (pm_gps pm_gps' : Pd.DataFrame)
    (snapshot_minutes : Z) (weather : option Pd.DataFrame)
    (minutes_to_weather : option Z)
    (datetime_to_vec : option (Np.Timestamp -> result Vec)) (d : Dataset) :
  Dataset_init pm_gps snapshot_minutes weather minutes_to_weather
    datetime_to_vec = Ok (d, pm_gps') ->
  Forall (fun b => 2 <= Np.len b) (pm_gps_idx d).
Proof.
  intros H. unfold Dataset_init in H.
  bind_inv H as r Hr. bind_inv H as d' Hd. inv_Ok H.
  unfold split_to_batches in Hd. bind_inv Hd as batch_splits Hsplits.
  unfold remove_unit_batches in Hd. rewrite delete_unit_batches in Hd.
  cbn [bind] in Hd.
  bind_inv Hd as ts' Hts. bind_inv Hd as tv' Htv. bind_inv Hd as wi' Hwi.
  inv_Ok Hd. cbn [pm_gps_idx].
  apply Forall_forall. intros b Hb. apply filter_In in Hb.
  destruct Hb as (_ & Hb). destruct (Z.leb_spec (Np.len b) 1);
    [discriminate|lia].
Qed.

(** ** Alignment of the parallel arrays *)



Lemma values_len (w : Pd.DataFrame) :
  Np.len (Pd.values w) = Np.len (Pd.index_values w).
Proof.
  unfold Np.len, Pd.values, Pd.index_values. rewrite !length_map. reflexivity.
Qed.

Lemma remove_snapshots_without_weather_aligned (self self' : Snapshots)
    (w : Pd.DataFrame) (minutes_to_weather : option Z) :
  List.length (s_timestamps self) = List.length (s_pm_gps_idx self) ->
  s_time_values self = None ->
  s_weather_values self = Some (Pd.values w) ->
  (exists wi, s_weather_idx self = Some wi
     /\ List.length wi = List.length (s_pm_gps_idx self)) ->
  remove_snapshots_without_weather self (Pd.index_values w) minutes_to_weather
  = Ok self' ->
  aligned_snapshots self'
  /\ s_time_values self' = None
  /\ s_weather_values self' = Some (Pd.values w).
Proof.
  intros Hts Htv Hwv (wi & Hwi & Hlen) H.
  unfold remove_snapshots_without_weather in H. inv_bind H. inv_Ok H.
  unfold weather_available_mask in Hv. rewrite Hwi in Hv.
  inv_bind Hv. apply take_Ok_valid in Hv0.
  repeat split; simpl; auto.
  - apply compress_length_eq; assumption.
  - intros tv Hx. congruence.
  - intros wv Hx. rewrite Hwv in Hx. inv_Ok Hx. rewrite Hwi. simpl.
    eexists. split; [reflexivity|]. split.
    + apply compress_length_eq; assumption.
    + apply compress_Forall. rewrite values_len. assumption.
Qed.

Lemma init_snapshots_aligned (pm_gps pm_gps' : Pd.DataFrame)
    (snapshot_minutes : Z) (weather : option Pd.DataFrame)
    (minutes_to_weather : option Z)
    (datetime_to_vec : option (Np.Timestamp -> result Vec)) (self : Snapshots) :
  init_snapshots pm_gps snapshot_minutes weather minutes_to_weather
    datetime_to_vec = Ok (self, pm_gps') ->
  aligned_snapshots self
  /\ (s_weather_values self = option_map Pd.values weather)
  /\ (s_time_values self = None <-> datetime_to_vec = None).
Proof.
  intros H. unfold init_snapshots in H.
  bind_inv H as pm1 Hpm1. bind_inv H as pm Hpm. bind_inv H as gps Hgps.
  bind_inv H as gated Hg. bind_inv H as self' Hself. inv_Ok H.
  set (idx := comp_snapshot_indices _ _) in *.
  set (ts := comp_snapshot_timestamps _ _) in *.
  assert (Hts : List.length ts = List.length idx)
    by (unfold ts, comp_snapshot_timestamps; apply length_map).
  assert (Hgated : aligned_snapshots gated /\ s_time_values gated = None
                   /\ s_weather_values gated = option_map Pd.values weather).
  { destruct weather as [w|]; simpl in Hg.
    - bind_inv Hg as widx Hwidx.
      eapply remove_snapshots_without_weather_aligned in Hg; simpl; eauto.
      eexists. split; [reflexivity|].
      apply mapM_length in Hwidx. congruence.
    - inv_Ok Hg. repeat split; simpl; auto; intros; discriminate. }
  destruct Hgated as ((Ha & Hb & Hc) & Htv & Hwv).
  destruct datetime_to_vec as [f|].
  - bind_inv Hself as tv Htv'. inv_Ok Hself.
    unfold map_timestamps_to_features in Htv'. apply mapM_length in Htv'.
    split; [|split; [assumption|split; discriminate]].
    split; [assumption|]. split; [|assumption].
    simpl. intros tv' Hx. inv_Ok Hx. congruence.
  - inv_Ok Hself. split; [|split; [assumption|tauto]].
    split; [assumption|]. split; assumption.
Qed.

Lemma remove_unit_batches_aligned (self self' : Dataset) :
  aligned self ->
  remove_unit_batches self = Ok self' ->
  aligned self'
  /\ weather_values self' = weather_values self
  /\ (time_values self' = None <-> time_values self = None)
  /\ pm_values self' = pm_values self
  /\ gps_values self' = gps_values self.
Proof.
  intros (Hts & Htv & Hw) H. unfold remove_unit_batches in H.
  set (idx := find_indices_of_unit_batches _) in H.
  inv_bind H. inv_bind H. inv_bind H. inv_bind H. inv_Ok H.
  rename v into idx', v0 into ts', v1 into tv', v2 into wi'.
  rename Hv into Hidx, Hv0 into Hts', Hv1 into Htv', Hv2 into Hwi'.
  assert (Hts'' : map (@List.length _) ts' = map (@List.length _) idx')
    by (eapply delete_indices_lockstep; eauto).
  unfold aligned; simpl. repeat split; auto.
  - intros tv Hx. subst tv'.
    destruct (time_values self) as [tv0|]; [|discriminate].
    inv_bind Htv'. inv_Ok Htv'.
    eapply delete_indices_lockstep; eauto.
  - intros wv Hx. destruct (Hw wv Hx) as (wi & Hwi & Hlen & Hvalid).
    rewrite Hx, Hwi in Hwi'. inv_bind Hwi'. inv_Ok Hwi'.
    eexists. split; [reflexivity|]. split.
    + eapply delete_indices_lockstep; eauto.
    + eapply delete_indices_Forall; eauto.
  - intros Hx. subst tv'.
    destruct (time_values self); [|reflexivity].
    inv_bind Htv'. discriminate.
  - intros Hx. rewrite Hx in Htv'. inv_Ok Htv'. reflexivity.
Qed.

Lemma split_to_batches_aligned (self : Snapshots) (index_values : list Z)
    (snapshot_minutes : Z) (d : Dataset) :
  aligned_snapshots self ->
  split_to_batches self index_values snapshot_minutes = Ok d ->
  aligned d
  /\ weather_values d = s_weather_values self
  /\ (time_values d = None <-> s_time_values self = None)
  /\ pm_values d = s_pm_values self
  /\ gps_values d = s_gps_values self.
Proof.
  intros (Hts & Htv & Hw) H. unfold split_to_batches in H.
  inv_bind H. rename v into batch_splits.
  apply remove_unit_batches_aligned in H.
  - simpl in H. destruct H as (Ha & Hwv & Htime & Hpm & Hgps).
    split; [exact Ha|]. split; [exact Hwv|]. split; [|split; assumption].
    split; intros Hx.
    + apply Htime in Hx.
      destruct (s_time_values self); [discriminate|reflexivity].
    + apply Htime. rewrite Hx. reflexivity.
  - unfold aligned; simpl. repeat split.
    + apply split_lengths. assumption.
    + intros tv Hx. destruct (s_time_values self) as [tv0|]; [|discriminate].
      inv_Ok Hx. apply split_lengths. auto.
    + intros wv Hx. destruct (Hw wv Hx) as (wi & Hwi & Hlen & Hvalid).
      rewrite Hx, Hwi. simpl. eexists. split; [reflexivity|]. split.
      * apply split_lengths. assumption.
      * apply split_Forall. assumption.
Qed.

Lemma Dataset_init_aligned (pm_gps pm_gps' : Pd.DataFrame)
    (snapshot_minutes : Z) (weather : option Pd.DataFrame)
    (minutes_to_weather : option Z)
    (datetime_to_vec : option (Np.Timestamp -> result Vec)) (d : Dataset) :
  Dataset_init pm_gps snapshot_minutes weather minutes_to_weather
    datetime_to_vec = Ok (d, pm_gps') ->
  aligned d
  /\ weather_values d = option_map Pd.values weather
  /\ (time_values d = None <-> datetime_to_vec = None).
Proof.
  intros H. unfold Dataset_init in H.
  inv_bind H. destruct v as [self pm']. inv_bind H. inv_Ok H.
  simpl in Hv0.
  apply init_snapshots_aligned in Hv. destruct Hv as (Ha & Hwv & Htv).
  apply split_to_batches_aligned in Hv0; [|assumption].
  destruct Hv0 as (Hd & Hwv' & Htv' & _).
  split; [exact Hd|]. split; [congruence|tauto].
Qed.

(** C4.  When construction with a weather table succeeds, the arrays are in
    lockstep at both stages.  After weather gating (and the calendar mapping)
    the snapshot index pairs, the representative timestamps and the weather
    indices have one entry per snapshot, and so have the calendar vectors when
    a calendar mapping is given.  After the split and the pruning of unit
    batches the four lists hold the same batches with the same number of
    snapshots in each. *)
Theorem parallel_arrays_in_lockstep (pm_gps pm_gps' weather : Pd.DataFrame)
    (snapshot_minutes : Z) (minutes_to_weather : option Z)
    (datetime_to_vec : option (Np.Timestamp -> result Vec)) (d : Dataset) :
  Dataset_init pm_gps snapshot_minutes (Some weather) minutes_to_weather
    datetime_to_vec = Ok (d, pm_gps') ->
  (exists self wi,
      init_snapshots pm_gps snapshot_minutes (Some weather) minutes_to_weather
        datetime_to_vec = Ok (self, pm_gps')
      /\ s_weather_idx self = Some wi
      /\ List.length (s_pm_gps_idx self) = List.length (s_timestamps self)
      /\ List.length (s_timestamps self) = List.length wi
      /\ (datetime_to_vec <> None ->
          exists tv, s_time_values self = Some tv
                     /\ List.length wi = List.length tv))
  /\ (exists wi,
        weather_idx d = Some wi
        /\ map (@List.length _) (pm_gps_idx d)
           = map (@List.length _) (timestamps d)
        /\ map (@List.length _) (timestamps d) = map (@List.length _) wi
        /\ (datetime_to_vec <> None ->
            exists tv, time_values d = Some tv
                       /\ map (@List.length _) wi = map (@List.length _) tv)).
Proof.
  intros H. split.
  - unfold Dataset_init in H. inv_bind H. destruct v as [self pm'].
    inv_bind H. inv_Ok H. simpl.
    destruct (init_snapshots_aligned _ _ _ _ _ _ _ Hv)
      as ((Hts & Htv & Hw) & Hwv & Htime).
    destruct (Hw _ Hwv) as (wi & Hwi & Hlen & _).
    exists self, wi. repeat split; try congruence.
    intros Hf. destruct (s_time_values self) as [tv|] eqn:E.
    + exists tv. split; [reflexivity|]. rewrite (Htv tv eq_refl). assumption.
    + tauto.
  - destruct (Dataset_init_aligned _ _ _ _ _ _ _ H)
      as ((Hts & Htv & Hw) & Hwv & Htime).
    destruct (Hw _ Hwv) as (wi & Hwi & Hlen & _).
    exists wi. repeat split; try congruence.
    intros Hf. destruct (time_values d) as [tv|] eqn:E.
    + exists tv. split; [reflexivity|]. rewrite (Htv tv eq_refl). assumption.
    + tauto.
Qed.

Lemma parallel_arrays_witness :
  exists d pm_gps' wi tv,
    Dataset_init dense 15 (Some half_hourly) (Some 15) (Some is_nat_feature)
    = Ok (d, pm_gps')
    /\ weather_idx d = Some wi
    /\ time_values d = Some tv
    /\ map (@List.length _) (pm_gps_idx d) = [4%nat]
    /\ map (@List.length _) (pm_gps_idx d)
       = map (@List.length _) (timestamps d)
    /\ map (@List.length _) (timestamps d) = map (@List.length _) wi
    /\ map (@List.length _) wi = map (@List.length _) tv.
Proof.
  destruct (Dataset_init dense 15 (Some half_hourly) (Some 15)
              (Some is_nat_feature)) as [[d pm_gps']|e] eqn:E;
    [|vm_compute in E; discriminate].
  destruct (parallel_arrays_in_lockstep _ _ _ _ _ _ _ E)
    as (_ & wi & Hwi & H1 & H2 & H3).
  destruct H3 as (tv & Htv & H3); [discriminate|].
  exists d, pm_gps', wi, tv.
  repeat (split; [assumption || reflexivity|]).
  split; [|repeat split; assumption].
  vm_compute in E. inv_Ok E. reflexivity.
Defined.

(** ** Weather gating without a tolerance *)

Lemma le_NaT (a : Np.Timedelta) : Np.le a (Np.timedelta64_m None) = false.
Proof. destruct a; reflexivity. Qed.

Lemma gating_with_NaT (self self' : Snapshots) (weather_index_values : list Z) :
  remove_snapshots_without_weather self weather_index_values None = Ok self' ->
  s_pm_gps_idx self' = []
  /\ s_timestamps self' = []
  /\ s_weather_idx self' = Some []
  /\ s_time_values self' = s_time_values self
  /\ s_weather_values self' = s_weather_values self.
Proof.
  intros H. unfold remove_snapshots_without_weather in H.
  inv_bind H. inv_Ok H. rename v into mask.
  unfold weather_available_mask in Hv.
  destruct (s_weather_idx self) as [wi|]; [|discriminate].
  inv_bind Hv. inv_Ok Hv.
  match goal with
  | |- context [Np.compress ?m _] =>
      assert (Hmask : Forall (fun b => b = false) m)
        by (apply Forall_map, Forall_forall; intros; apply le_NaT)
  end.
  simpl. rewrite !compress_all_false by exact Hmask. auto.
Qed.

(** C5 (as amended).  Construction never validates [minutes_to_weather].
    With a weather table and the tolerance omitted the tolerance is NaT, no
    snapshot passes the weather gate, and whenever construction completes it
    yields a Dataset of length 0 with empty index structures. *)
Theorem omitted_tolerance_gates_everything (pm_gps pm_gps' weather : Pd.DataFrame)
    (snapshot_minutes : Z) (datetime_to_vec : option (Np.Timestamp -> result Vec))
    (d : Dataset) :
  Dataset_init pm_gps snapshot_minutes (Some weather) None datetime_to_vec
  = Ok (d, pm_gps') ->
  Dataset_len d = 0
  /\ pm_gps_idx d = []
  /\ timestamps d = []
  /\ weather_idx d = Some [].
Proof.
  intros H. unfold Dataset_init in H.
  bind_inv H as r Hr. destruct r as [self pm']. bind_inv H as d' Hd. inv_Ok H.
  simpl in Hd. unfold init_snapshots in Hr.
  bind_inv Hr as pm1 Hpm1. bind_inv Hr as pm Hpm. bind_inv Hr as gps Hgps.
  bind_inv Hr as gated Hgated. bind_inv Hr as mapped Hmapped. inv_Ok Hr.
  simpl in Hgated. bind_inv Hgated as widx Hwidx.
  apply gating_with_NaT in Hgated. simpl in Hgated.
  destruct Hgated as (Hidx & Hts & Hwi & Htv & Hwv).
  destruct gated as [pm0 gps0 wv tv idx ts wi]. simpl in *. subst.
  unfold split_to_batches in Hd.
  destruct datetime_to_vec as [f|]; simpl in Hmapped; inv_Ok Hmapped;
    simpl in Hd; inv_Ok Hd; repeat split; reflexivity.
Qed.

Lemma omitted_tolerance_witness :
  exists d pm_gps',
    Dataset_init dense 15 (Some half_hourly) None None = Ok (d, pm_gps')
    /\ Dataset_len d = 0
    /\ pm_gps_idx d = []
    /\ timestamps d = []
    /\ weather_idx d = Some [].
Proof.
  destruct (Dataset_init dense 15 (Some half_hourly) None None)
    as [[d pm_gps']|e] eqn:E; [|vm_compute in E; discriminate].
  exists d, pm_gps'. split; [reflexivity|].
  apply (omitted_tolerance_gates_everything dense pm_gps' half_hourly 15 None d).
  exact E.
Defined.

(** C5 (as stated) fails: with a weather table and no tolerance, construction
    on ten readings and four weather readings raises nothing and returns a
    Dataset. *)
Lemma omitted_tolerance_completes :
  (exists d pm_gps',
      Dataset_init dense 15 (Some half_hourly) None None = Ok (d, pm_gps'))
  /\ (forall e,
        Dataset_init dense 15 (Some half_hourly) None None <> Err e).
Proof.
  destruct (Dataset_init dense 15 (Some half_hourly) None None)
    as [[d pm_gps']|e] eqn:E; [|vm_compute in E; discriminate].
  split; [eauto | discriminate].
Qed.

(** ** Nearest weather reading *)

Lemma item_cons (x : Z) (r : list Z) (j : Z) :
  0 < j -> item (x :: r) j = item r (j - 1).
Proof.
  intros H. unfold item.
  replace (Z.to_nat j) with (S (Z.to_nat (j - 1))) by lia. reflexivity.
Qed.

Lemma len_cons {A : Type} (x : A) (r : list A) :
  Np.len (x :: r) = 1 + Np.len r.
Proof. unfold Np.len. simpl List.length. lia. Qed.

Lemma item_In (arr : list Z) (j : Z) :
  0 <= j < Np.len arr -> In (item arr j) arr.
Proof.
  intros H. unfold item. apply nth_In. unfold Np.len in H. lia.
Qed.

Lemma getitem_item (arr : list Z) (i : Z) :
  0 <= i < Np.len arr -> Np.getitem arr i = Ok (item arr i).
Proof.
  intros H. destruct (getitem_nonneg arr i H) as (x & Hx & Hn).
  rewrite Hx. f_equal. unfold item. symmetry.
  apply nth_error_nth. assumption.
Qed.

Lemma count_below_bounds (arr : list Z) (v : Z) :
  0 <= Np.count_below arr v <= Np.len arr.
Proof.
  induction arr as [|x r IH]; cbn [Np.count_below].
  - unfold Np.len. simpl. lia.
  - rewrite len_cons. destruct (x <? v); lia.
Qed.

Lemma count_below_lt (arr : list Z) (v j : Z) :
  0 <= j < Np.count_below arr v -> item arr j < v.
Proof.
  revert j. induction arr as [|x r IH]; cbn [Np.count_below]; intros j H;
    [lia|].
  destruct (x <? v) eqn:E; [|lia].
  destruct (Z.eq_dec j 0) as [->|Hj].
  - unfold item. simpl. lia.
  - rewrite item_cons by lia. apply IH. lia.
Qed.

Lemma count_below_ge (arr : list Z) (v j : Z) :
  StronglySorted Z.le arr ->
  Np.count_below arr v <= j < Np.len arr -> v <= item arr j.
Proof.
  intros Hs. revert j.
  induction Hs as [|x r Hr IH Hx]; cbn [Np.count_below]; intros j H.
  - unfold Np.len in H. simpl in H. lia.
  - rewrite len_cons in H.
    pose proof (count_below_bounds r v) as Hb.
    destruct (x <? v) eqn:E.
    + rewrite item_cons by lia. apply IH. lia.
    + destruct (Z.eq_dec j 0) as [->|Hj].
      * unfold item. simpl. lia.
      * rewrite item_cons by lia.
        assert (x <= item r (j - 1)).
        { rewrite Forall_forall in Hx. apply Hx, item_In. lia. }
        lia.
Qed.

Lemma sorted_item (arr : list Z) (i j : Z) :
  StronglySorted Z.le arr ->
  0 <= i <= j -> j < Np.len arr -> item arr i <= item arr j.
Proof.
  intros Hs. revert i j.
  induction Hs as [|x r Hr IH Hx]; intros i j Hij Hj.
  - unfold Np.len in Hj. simpl in Hj. lia.
  - rewrite len_cons in Hj.
    destruct (Z.eq_dec i 0) as [->|Hi].
    + destruct (Z.eq_dec j 0) as [->|Hj0]; [lia|].
      rewrite (item_cons x r j) by lia.
      rewrite Forall_forall in Hx. unfold item at 1. simpl.
      apply Hx, item_In. lia.
    + rewrite !item_cons by lia. apply IH; lia.
Qed.

Lemma hd_item (arr : list Z) : hd 0 arr = item arr 0.
Proof. destruct arr; reflexivity. Qed.

Lemma last_item (arr : list Z) :
  arr <> [] -> last arr 0 = item arr (Np.len arr - 1).
Proof.
  induction arr as [|x r IH]; [congruence|]. intros _.
  destruct r as [|y r'].
  - reflexivity.
  - rewrite len_cons, item_cons by (rewrite len_cons; pose proof (len_nonneg r'); lia).
    replace (1 + Np.len (y :: r') - 1 - 1) with (Np.len (y :: r') - 1) by lia.
    rewrite <- IH by congruence. reflexivity.
Qed.

(** Differences of dates wrap around in [int64].  Readings at
    -4.7e18 ns and 4.7e18 ns lie 298 years apart, yet their difference is
    negative and they fall in one snapshot; with weather readings at -9e18 ns
    and 8e18 ns and a query at 9e18 ns, [find_nearest] returns 2, no index of
    the array. *)
Example comp_snapshot_indices_wraps :
  comp_snapshot_indices [- 4700000000000000000; 4700000000000000000] 15
  = [(0, 2)].
Proof. vm_compute. reflexivity. Qed.

Example find_nearest_wraps :
  find_nearest [- 9000000000000000000; 8000000000000000000]
    [Some 9000000000000000000] = Ok [2].
Proof. vm_compute. reflexivity. Qed.

Lemma of_int64_exact (d : Z) :
  - 2 ^ 63 < d < 2 ^ 63 -> Np.of_int64 d = Some d.
Proof.
  intros H. unfold Np.of_int64, Np.wrap64.
  rewrite Z.mod_small by lia.
  replace (d + 2 ^ 63 - 2 ^ 63) with d by lia.
  destruct (Z.eqb_spec d (- 2 ^ 63)); [lia|reflexivity].
Qed.

Lemma timedelta64_m_exact (m : Z) :
  minutes_in_range m ->
  Np.timedelta64_m (Some m) = Some (m * Np.ns_per_minute).
Proof. intros H. cbn [Np.timedelta64_m]. apply of_int64_exact, H. Qed.

Lemma sub_exact (x y : Z) :
  mid_range x -> mid_range y -> Np.sub (Some x) (Some y) = Some (x - y).
Proof.
  unfold mid_range. intros Hx Hy. cbn [Np.sub].
  apply of_int64_exact. lia.
Qed.

Lemma item_mid_range (arr : list Z) (j : Z) :
  Forall mid_range arr -> 0 <= j < Np.len arr -> mid_range (item arr j).
Proof.
  intros H Hj. rewrite Forall_forall in H. apply H, item_In, Hj.
Qed.

Lemma find_nearest1_unfold (arr : list Z) (v : Z) :
  arr <> [] ->
  Forall mid_range arr -> mid_range v ->
  let idx := Np.count_below arr v in
  let n := Np.len arr in
  let before := item arr (if idx =? 0 then n - 1 else idx - 1) in
  let at_idx := item arr (if idx =? n then 0 else idx) in
  find_nearest1 arr (Some v)
  = Ok (idx - Z.b2z (Z.abs (before - v) <? Z.abs (at_idx - v))).
Proof.
  intros Hne Harr Hv idx n before at_idx.
  assert (Hn : 0 < n).
  { subst n. destruct arr; [congruence|]. rewrite len_cons.
    pose proof (len_nonneg arr). lia. }
  pose proof (count_below_bounds arr v) as Hb. fold idx n in Hb.
  assert (Hbefore : mid_range before).
  { subst before. apply item_mid_range; [exact Harr|]. fold n.
    destruct (Z.eqb_spec idx 0); lia. }
  assert (Hat : mid_range at_idx).
  { subst at_idx. apply item_mid_range; [exact Harr|]. fold n.
    destruct (Z.eqb_spec idx n); lia. }
  unfold find_nearest1. cbn [Np.searchsorted]. fold idx n.
  assert (H1 : Np.getitem arr (idx - 1) = Ok before).
  { subst before. destruct (Z.eqb_spec idx 0) as [E|E].
    - rewrite E. rewrite getitem_negative by (fold n; lia).
      fold n. replace (0 - 1 + n) with (n - 1) by lia.
      apply getitem_item. fold n. lia.
    - apply getitem_item. fold n. lia. }
  assert (H2 : Np.getitem arr (Np.remainder idx n) = Ok at_idx).
  { subst at_idx. unfold Np.remainder.
    destruct (Z.eqb_spec n 0) as [E|_]; [lia|].
    destruct (Z.eqb_spec idx n) as [E|E].
    - rewrite E, Z_mod_same_full. apply getitem_item. fold n. lia.
    - rewrite Z.mod_small by lia. apply getitem_item. fold n. lia. }
  rewrite H1. cbn [bind]. rewrite H2. cbn [bind].
  rewrite !sub_exact by assumption. reflexivity.
Qed.

(** C6 (as amended).  On a non-empty sorted array of weather timestamps,
    all of them and the query between the years 1824 and 2116 (so that no
    difference leaves [int64]), when the query does not exceed the last
    timestamp or the first and last timestamps differ, [find_nearest] returns
    an index of the array whose timestamp minimises the absolute difference to
    the query.  When the query lies exactly midway between two adjacent
    timestamps it returns the index of the later one. *)
Theorem find_nearest_closest_later_on_tie (arr : list Z) (v : Z) :
  StronglySorted Z.le arr ->
  arr <> [] ->
  Forall mid_range arr ->
  mid_range v ->
  v <= last arr 0 \/ hd 0 arr < last arr 0 ->
  exists i,
    find_nearest arr [Some v] = Ok [i]
    /\ 0 <= i < Np.len arr
    /\ (forall j, 0 <= j < Np.len arr ->
          Z.abs (item arr i - v) <= Z.abs (item arr j - v))
    /\ (forall k, 0 <= k -> k + 1 < Np.len arr ->
          item arr k < v -> v - item arr k = item arr (k + 1) - v ->
          i = k + 1).
Proof.
  intros Hs Hne Harr Hv Hedge.
  rewrite hd_item, last_item in Hedge by assumption.
  unfold find_nearest. cbn [mapM].
  rewrite find_nearest1_unfold by assumption. cbv zeta. cbn [bind].
  set (idx := Np.count_below arr v). set (n := Np.len arr) in *.
  pose proof (count_below_bounds arr v) as Hb. fold idx n in Hb.
  assert (Hlt : forall j, 0 <= j < idx -> item arr j < v)
    by (intros; apply count_below_lt; assumption).
  assert (Hge : forall j, idx <= j < n -> v <= item arr j)
    by (intros; apply count_below_ge; assumption).
  assert (Hmono : forall i j, 0 <= i <= j -> j < n -> item arr i <= item arr j)
    by (intros; apply sorted_item; assumption).
  assert (Hn : 0 < n).
  { subst n. destruct arr; [congruence|]. rewrite len_cons.
    pose proof (len_nonneg arr). lia. }
  eexists. split; [reflexivity|].
  destruct (Z.eqb_spec idx 0) as [E0|E0].
  - (* the query is at or before the first timestamp *)
    assert (En : (idx =? n) = false) by lia. rewrite En.
    pose proof (Hge idx ltac:(lia)) as H0.
    pose proof (Hmono idx (n - 1) ltac:(lia) ltac:(lia)) as H1.
    destruct (Z.ltb_spec (Z.abs (item arr (n - 1) - v))
                         (Z.abs (item arr idx - v))) as [C|C];
      cbn [Z.b2z]; [lia|].
    split; [lia|]. split.
    + intros j Hj. replace (idx - 0) with idx by lia.
      pose proof (Hge j ltac:(lia)). pose proof (Hmono idx j ltac:(lia) ltac:(lia)).
      lia.
    + intros k Hk0 Hk1 Hk2 _. pose proof (Hge k ltac:(lia)). lia.
  - destruct (Z.eqb_spec idx n) as [En|En].
    + (* the query is after the last timestamp *)
      pose proof (Hlt (idx - 1) ltac:(lia)) as H1.
      pose proof (Hlt 0 ltac:(lia)) as H0.
      assert (Hfl : item arr 0 < item arr (n - 1)).
      { destruct Hedge as [Hedge|Hedge]; [|assumption].
        rewrite En in H1. lia. }
      rewrite En in H1.
      destruct (Z.ltb_spec (Z.abs (item arr (idx - 1) - v))
                           (Z.abs (item arr 0 - v))) as [C|C];
        cbn [Z.b2z]; [|rewrite En in C; lia].
      split; [lia|]. split.
      * intros j Hj. rewrite En.
        pose proof (Hlt j ltac:(lia)).
        pose proof (Hmono j (n - 1) ltac:(lia) ltac:(lia)). lia.
      * intros k Hk0 Hk1 Hk2 Hk3.
        pose proof (Hlt (k + 1) ltac:(lia)). lia.
    + (* the query lies between two timestamps *)
      pose proof (Hlt (idx - 1) ltac:(lia)) as H1.
      pose proof (Hge idx ltac:(lia)) as H2.
      destruct (Z.ltb_spec (Z.abs (item arr (idx - 1) - v))
                           (Z.abs (item arr idx - v))) as [C|C];
        cbn [Z.b2z].
      * split; [lia|]. split.
        -- intros j Hj. destruct (Z_lt_ge_dec j idx).
           ++ pose proof (Hlt j ltac:(lia)).
              pose proof (Hmono j (idx - 1) ltac:(lia) ltac:(lia)). lia.
           ++ pose proof (Hge j ltac:(lia)).
              pose proof (Hmono idx j ltac:(lia) ltac:(lia)). lia.
        -- intros k Hk0 Hk1 Hk2 Hk3.
           assert (idx = k + 1).
           { destruct (Z_lt_ge_dec k idx).
             - destruct (Z_lt_ge_dec (k + 1) idx); [|lia].
               pose proof (Hlt (k + 1) ltac:(lia)). lia.
             - pose proof (Hge k ltac:(lia)). lia. }
           assert (Ek : idx - 1 = k) by lia.
           rewrite Ek in C. rewrite H in C. lia.
      * split; [lia|]. split.
        -- intros j Hj. replace (idx - 0) with idx by lia.
           destruct (Z_lt_ge_dec j idx).
           ++ pose proof (Hlt j ltac:(lia)).
              pose proof (Hmono j (idx - 1) ltac:(lia) ltac:(lia)). lia.
           ++ pose proof (Hge j ltac:(lia)).
              pose proof (Hmono idx j ltac:(lia) ltac:(lia)). lia.
        -- intros k Hk0 Hk1 Hk2 Hk3.
           destruct (Z_lt_ge_dec k idx).
           ++ destruct (Z_lt_ge_dec (k + 1) idx); [|lia].
              pose proof (Hlt (k + 1) ltac:(lia)). lia.
           ++ pose proof (Hge k ltac:(lia)). lia.
Qed.

Lemma find_nearest_witness :
  exists i,
    find_nearest (at_minutes [600; 630]) [Some (620 * Np.ns_per_minute)]
    = Ok [i]
    /\ 0 <= i < Np.len (at_minutes [600; 630])
    /\ (forall j, 0 <= j < Np.len (at_minutes [600; 630]) ->
          Z.abs (item (at_minutes [600; 630]) i - 620 * Np.ns_per_minute)
          <= Z.abs (item (at_minutes [600; 630]) j - 620 * Np.ns_per_minute))
    /\ (forall k, 0 <= k -> k + 1 < Np.len (at_minutes [600; 630]) ->
          item (at_minutes [600; 630]) k < 620 * Np.ns_per_minute ->
          620 * Np.ns_per_minute - item (at_minutes [600; 630]) k
          = item (at_minutes [600; 630]) (k + 1) - 620 * Np.ns_per_minute ->
          i = k + 1).
Proof.
  apply (find_nearest_closest_later_on_tie (at_minutes [600; 630])
           (620 * Np.ns_per_minute)).
  - repeat constructor; vm_compute; discriminate.
  - discriminate.
  - repeat constructor; vm_compute; discriminate.
  - split; vm_compute; [discriminate|reflexivity].
  - left. vm_compute. discriminate.
Defined.

(** C6 (as stated) fails on a tie: with weather readings at 10:00 and 10:30
    and a query at 10:15, both are 15 minutes away and [find_nearest] returns
    index 1, the later reading, not index 0. *)
Lemma find_nearest_tie_returns_later :
  let arr := at_minutes [600; 630] in
  let v := 615 * Np.ns_per_minute in
  Z.abs (item arr 0 - v) = Z.abs (item arr 1 - v)
  /\ find_nearest arr [Some v] = Ok [1]
  /\ find_nearest arr [Some v] <> Ok [0].
Proof.
  cbv zeta. repeat split; vm_compute; congruence.
Qed.

(** With a single weather reading (or equal ones) and a later query the
    returned index is the length of the array, which is no index of it. *)
Example find_nearest_single_reading :
  find_nearest [10] [Some 20] = Ok [1]
  /\ find_nearest [10; 10] [Some 20] = Ok [2]
  /\ Np.take [10] [1] = Err IndexError.
Proof. repeat split; reflexivity. Qed.

(** ** Empty primary table *)

Lemma position_In (name : string) (labels : list string) :
  In name labels -> exists p, Pd.position name labels = Some p.
Proof.
  induction labels as [|l r IH]; simpl; [tauto|].
  intros [H|H].
  - subst. rewrite String.eqb_refl. eauto.
  - destruct (String.eqb name l); [eauto|].
    destruct (IH H) as (p & Hp). rewrite Hp. simpl. eauto.
Qed.





(** A calendar mapping that raises on NaT, as the notebook's encoders do,
    makes construction from an empty table fail without any weather table. *)
Example empty_table_with_strict_calendar_fails :
  Dataset_init (pm_table []) 15 None None (Some hour_of_day) = Err IndexError.
Proof. reflexivity. Qed.

(** ** Indexing a constructed Dataset *)

Lemma map_length_len {A B : Type} (a : list (list A)) (b : list (list B)) :
  map (@List.length _) a = map (@List.length _) b -> Np.len a = Np.len b.
Proof.
  intros H. unfold Np.len. f_equal.
  rewrite <- (length_map (@List.length _) a),
          <- (length_map (@List.length _) b).
  congruence.
Qed.

Lemma getitem_int_error (self : Dataset) (i : Z) :
  ~ valid_index (Dataset_len self) i -> getitem_int self i = Err IndexError.
Proof.
  intros H. unfold getitem_int.
  rewrite getitem_invalid by exact H. reflexivity.
Qed.

Lemma getitem_int_negative (self : Dataset) (i : Z) :
  aligned self ->
  - Dataset_len self <= i < 0 ->
  getitem_int self i = getitem_int self (i + Dataset_len self).
Proof.
  intros (Hts & Htv & Hw) Hi. unfold getitem_int, Dataset_len in *.
  apply map_length_len in Hts.
  rewrite (getitem_negative (timestamps self)) by lia.
  rewrite (getitem_negative (pm_gps_idx self)) by lia.
  rewrite <- Hts.
  assert (Hweather :
    match weather_values self with
    | Some wv =>
        match weather_idx self with
        | Some wi =>
            widx <- Np.getitem wi i ;; w <- Np.take wv widx ;; Ok (Some w)
        | None => Err TypeError
        end
    | None => Ok None
    end
    = match weather_values self with
      | Some wv =>
          match weather_idx self with
          | Some wi =>
              widx <- Np.getitem wi (i + Np.len (timestamps self)) ;;
              w <- Np.take wv widx ;; Ok (Some w)
          | None => Err TypeError
          end
      | None => Ok None
      end).
  { destruct (weather_values self) as [wv|]; [|reflexivity].
    destruct (Hw wv eq_refl) as (wi & Hwi & Hlen & _). rewrite Hwi.
    apply map_length_len in Hlen.
    rewrite (getitem_negative wi) by lia. rewrite Hlen, <- Hts. reflexivity. }
  rewrite Hweather.
  destruct (time_values self) as [tv|]; [|reflexivity].
  pose proof (map_length_len _ _ (Htv tv eq_refl)) as Hlen.
  rewrite (getitem_negative tv) by lia. rewrite Hlen, <- Hts. reflexivity.
Qed.

Lemma getitem_int_in_range (self : Dataset) (i : Z) :
  aligned self ->
  0 <= i < Dataset_len self ->
  exists b, getitem_int self i = Ok b /\ nth_batch self (Z.to_nat i) b.
Proof.
  intros (Hts & Htv & Hw) Hi. unfold getitem_int, Dataset_len, nth_batch in *.
  apply map_length_len in Hts.
  destruct (getitem_nonneg (timestamps self) i Hi) as (ts & Ets & Nts).
  destruct (getitem_nonneg (pm_gps_idx self) i ltac:(lia)) as (idx & Eidx & Nidx).
  rewrite Ets, Eidx. cbn [bind].
  destruct (weather_values self) as [wv|].
  - destruct (Hw wv eq_refl) as (wi & Hwi & Hlen & Hvalid). rewrite Hwi.
    apply map_length_len in Hlen.
    destruct (getitem_nonneg wi i ltac:(lia)) as (widx & Ewidx & Nwidx).
    rewrite Ewidx. cbn [bind].
    assert (Hv : Forall (valid_index (Np.len wv)) widx).
    { rewrite Forall_forall in Hvalid. eapply Hvalid, nth_error_In; eauto. }
    destruct (take_valid wv widx Hv) as (w & Ew). rewrite Ew. cbn [bind].
    destruct (time_values self) as [tv|].
    + pose proof (map_length_len _ _ (Htv tv eq_refl)) as Hlen'.
      destruct (getitem_nonneg tv i ltac:(lia)) as (t & Et & Nt).
      rewrite Et. cbn [bind]. eexists. split; [reflexivity|]. simpl.
      split; [assumption|]. split; [eauto|]. split; eauto 10.
    + cbn [bind]. eexists. split; [reflexivity|]. simpl.
      split; [assumption|]. split; [eauto|]. split; eauto 10.
  - cbn [bind]. destruct (time_values self) as [tv|].
    + pose proof (map_length_len _ _ (Htv tv eq_refl)) as Hlen'.
      destruct (getitem_nonneg tv i ltac:(lia)) as (t & Et & Nt).
      rewrite Et. cbn [bind]. eexists. split; [reflexivity|]. simpl.
      split; [assumption|]. split; [eauto|]. split; eauto 10.
    + cbn [bind]. eexists. split; [reflexivity|]. simpl.
      split; [assumption|]. split; [eauto|]. split; eauto 10.
Qed.

(** C9 (as amended).  On every constructed Dataset with [n] retained batches:
    [get(i)] raises [IndexError] for every integer [i >= n] and every
    [i < -n]; for [0 <= i < n] it returns the [i]-th Batch; and a negative
    [i >= -n] is accepted and answered as [i + n], counting from the end. *)
Theorem getitem_int_bounds (pm_gps pm_gps' : Pd.DataFrame)
    (snapshot_minutes : Z) (weather : option Pd.DataFrame)
    (minutes_to_weather : option Z)
    (datetime_to_vec : option (Np.Timestamp -> result Vec)) (d : Dataset) (i : Z) :
  Dataset_init pm_gps snapshot_minutes weather minutes_to_weather
    datetime_to_vec = Ok (d, pm_gps') ->
  (Dataset_len d <= i \/ i < - Dataset_len d ->
     Dataset_getitem d (KInt i) = Err IndexError)
  /\ (0 <= i < Dataset_len d ->
      exists b, Dataset_getitem d (KInt i) = Ok (ItemBatch b)
                /\ nth_batch d (Z.to_nat i) b)
  /\ (- Dataset_len d <= i < 0 ->
      Dataset_getitem d (KInt i) = Dataset_getitem d (KInt (i + Dataset_len d))).
Proof.
  intros H. apply Dataset_init_aligned in H. destruct H as (Ha & _).
  unfold Dataset_getitem. cbn [isinstance_int int_value].
  split; [|split]; intros Hi.
  - rewrite getitem_int_error; [reflexivity|].
    unfold valid_index. lia.
  - destruct (getitem_int_in_range d i Ha Hi) as (b & Hb & Hn).
    rewrite Hb. cbn [bind]. eauto.
  - rewrite getitem_int_negative by assumption. reflexivity.
Qed.

Lemma getitem_int_bounds_witness :
  exists d pm_gps',
    Dataset_init dense 15 None None None = Ok (d, pm_gps')
    /\ (Dataset_len d <= 0 \/ 0 < - Dataset_len d ->
        Dataset_getitem d (KInt 0) = Err IndexError)
    /\ (0 <= 0 < Dataset_len d ->
        exists b, Dataset_getitem d (KInt 0) = Ok (ItemBatch b)
                  /\ nth_batch d (Z.to_nat 0) b)
    /\ (- Dataset_len d <= 0 < 0 ->
        Dataset_getitem d (KInt 0)
        = Dataset_getitem d (KInt (0 + Dataset_len d))).
Proof.
  destruct (Dataset_init dense 15 None None None) as [[d pm_gps']|e] eqn:E;
    [|vm_compute in E; discriminate].
  exists d, pm_gps'. split; [reflexivity|].
  apply (getitem_int_bounds dense pm_gps' 15 None None None d 0).
  exact E.
Defined.

(** C9 (as stated) fails for a negative index: the Dataset built from the
    ten dense readings has one batch, so -1 is outside [0, 1), yet [get(-1)]
    raises nothing and returns that batch. *)
Lemma getitem_minus_one_returns_last_batch :
  exists d pm_gps' b,
    Dataset_init dense 15 None None None = Ok (d, pm_gps')
    /\ Dataset_len d = 1
    /\ Dataset_getitem d (KInt (-1)) = Ok (ItemBatch b)
    /\ Dataset_getitem d (KInt (-1)) = Dataset_getitem d (KInt 0)
    /\ Dataset_getitem d (KInt (-1)) <> Err IndexError.
Proof.
  do 3 eexists.
  split; [vm_compute; reflexivity|].
  split; [vm_compute; reflexivity|].
  split; [vm_compute; reflexivity|].
  split; [vm_compute; reflexivity|].
  vm_compute. discriminate.
Qed.

(** C10.  A key that is neither an [int] nor a [slice] fails both
    [isinstance] tests, and [__getitem__] returns [None] without raising. *)
Theorem getitem_other_key_returns_None (self : Dataset) (key : PyKey) :
  isinstance_int key = false ->
  isinstance_slice key = false ->
  Dataset_getitem self key = Ok ItemNone.
Proof.
  intros Hint Hslice. unfold Dataset_getitem.
  rewrite Hint, Hslice. reflexivity.
Qed.

Lemma getitem_other_key_witness :
  Dataset_getitem (mkDataset [] [] None None [] [] None) (KNumpyInt 0)
  = Ok ItemNone.
Proof.
  apply getitem_other_key_returns_None; reflexivity.
Defined.

(** * Further properties of the notebooks *)

(** ** Snapshot boundaries *)

Lemma nonzero_from_In (i j : Z) (mask : list bool) :
  In j (Np.nonzero_from i mask)
  <-> i <= j /\ nth_error mask (Z.to_nat (j - i)) = Some true.
Proof.
  revert i. induction mask as [|b r IH]; intros i; cbn [Np.nonzero_from].
  - split; [intros []|]. intros (_ & H). destruct (Z.to_nat (j - i)); discriminate.
  - assert (Hr : In j (Np.nonzero_from (i + 1) r)
                 <-> i < j /\ nth_error (b :: r) (Z.to_nat (j - i)) = Some true).
    { rewrite IH. split; intros (H1 & H2); (split; [lia|]).
      - replace (Z.to_nat (j - i)) with (S (Z.to_nat (j - (i + 1)))) by lia.
        exact H2.
      - replace (Z.to_nat (j - i)) with (S (Z.to_nat (j - (i + 1)))) in H2
          by lia.
        exact H2. }
    destruct b.
    + simpl In. rewrite Hr. split.
      * intros [<-|(H1 & H2)]; [|split; [lia|exact H2]].
        split; [lia|]. replace (i - i) with 0 by lia. reflexivity.
      * intros (H1 & H2). destruct (Z.eq_dec i j); [left; assumption|].
        right. split; [lia|exact H2].
    + rewrite Hr. split; intros (H1 & H2).
      * split; [lia|exact H2].
      * split; [|exact H2]. destruct (Z.eq_dec i j) as [<-|]; [|lia].
        replace (i - i) with 0 in H2 by lia. discriminate.
Qed.

Lemma nonzero_from_sorted (i : Z) (mask : list bool) :
  StronglySorted Z.lt (Np.nonzero_from i mask).
Proof.
  revert i. induction mask as [|b r IH]; intros i; cbn [Np.nonzero_from].
  - constructor.
  - destruct b; [|apply IH]. constructor; [apply IH|].
    apply Forall_forall. intros j Hj. apply nonzero_from_In in Hj. lia.
Qed.

Lemma nonzero_from_bounds (i : Z) (mask : list bool) :
  Forall (fun j => i <= j < i + Np.len mask) (Np.nonzero_from i mask).
Proof.
  apply Forall_forall. intros j Hj. apply nonzero_from_In in Hj.
  destruct Hj as (H1 & H2).
  assert (Z.to_nat (j - i) < List.length mask)%nat
    by (apply nth_error_Some; congruence).
  unfold Np.len. lia.
Qed.

Lemma diff_length (a : list Z) :
  List.length (Np.diff a) = pred (List.length a).
Proof.
  induction a as [|x [|y r] IH]; try reflexivity.
  cbn [Np.diff List.length] in *. rewrite IH. reflexivity.
Qed.

Lemma diff_nth (a : list Z) (i : nat) :
  (S i < List.length a)%nat ->
  nth_error (Np.diff a) i = Some (Np.of_int64 (nth (S i) a 0 - nth i a 0)).
Proof.
  revert i. induction a as [|x [|y r] IH]; intros i H; simpl in H; try lia.
  destruct i as [|i].
  - reflexivity.
  - cbn [Np.diff nth_error]. rewrite IH by (simpl; lia). reflexivity.
Qed.

Lemma combine_chained (start stop : Z) (bounds : list Z) :
  start <= stop ->
  Forall (fun b => start <= b <= stop) bounds ->
  StronglySorted Z.lt bounds ->
  chained start (combine (start :: bounds) (bounds ++ [stop])) stop.
Proof.
  intros Hle Hb Hs. revert start Hle Hb.
  induction Hs as [|b r Hr IH Hhd]; intros start Hle Hb.
  - simpl. auto.
  - inversion Hb as [|? ? Hb1 Hb2]; subst.
    change (chained start ((start, b) :: combine (b :: r) (r ++ [stop])) stop).
    cbn [chained fst snd]. split; [reflexivity|]. split; [lia|].
    apply IH; [lia|].
    rewrite Forall_forall in *. intros x Hx.
    specialize (Hhd x Hx). specialize (Hb2 x Hx). lia.
Qed.

(** The boundaries [np.nonzero] finds, for an index and a threshold. *)
Lemma snapshot_bounds (index : list Z) (snapshot_minutes : Z) :
  exists bounds,
    comp_snapshot_indices index snapshot_minutes
    = combine (0 :: bounds) (bounds ++ [Np.len index])
    /\ StronglySorted Z.lt bounds
    /\ Forall (fun b => 0 <= b /\ b + 1 < Np.len index) bounds
    /\ (forall i, In i bounds
          <-> 0 <= i /\ i + 1 < Np.len index
              /\ Np.ge (Np.of_int64 (gap index i))
                       (Np.timedelta64_m (Some snapshot_minutes)) = true).
Proof.
  unfold comp_snapshot_indices.
  set (mask := map _ (Np.diff index)).
  exists (Np.nonzero mask).
  assert (Hlen : Np.len mask = Z.of_nat (pred (List.length index))).
  { unfold Np.len, mask. rewrite length_map, diff_length. reflexivity. }
  split; [reflexivity|]. split; [apply nonzero_from_sorted|].
  assert (Hb : Forall (fun b => 0 <= b /\ b + 1 < Np.len index)
                      (Np.nonzero mask)).
  { eapply Forall_impl; [|apply (nonzero_from_bounds 0)].
    intros b Hb. cbv beta in Hb. rewrite Hlen in Hb. unfold Np.len. lia. }
  split; [exact Hb|].
  intros i. split.
  - intros Hi. rewrite Forall_forall in Hb. destruct (Hb i Hi) as (H0 & H1).
    split; [lia|]. split; [lia|].
    apply nonzero_from_In in Hi. destruct Hi as (_ & Hi).
    replace (i - 0) with i in Hi by lia.
    unfold mask in Hi. rewrite nth_error_map in Hi.
    rewrite diff_nth in Hi by (unfold Np.len in H1; lia).
    cbn [option_map] in Hi. injection Hi as Hi.
    unfold gap. replace (Z.to_nat (i + 1)) with (S (Z.to_nat i)) by lia.
    exact Hi.
  - intros (H0 & H1 & H2). apply nonzero_from_In. split; [lia|].
    replace (i - 0) with i by lia.
    unfold mask. rewrite nth_error_map.
    rewrite diff_nth by (unfold Np.len in H1; lia).
    cbn [option_map]. f_equal.
    unfold gap in H2. replace (Z.to_nat (i + 1)) with (S (Z.to_nat i)) in H2
      by lia.
    exact H2.
Qed.

Lemma snapshot_chain (index : list Z) (snapshot_minutes : Z) :
  chained 0 (comp_snapshot_indices index snapshot_minutes) (Np.len index).
Proof.
  destruct (snapshot_bounds index snapshot_minutes)
    as (bounds & -> & Hs & Hb & _).
  apply combine_chained; [apply len_nonneg| |exact Hs].
  eapply Forall_impl; [|exact Hb]. cbv beta. intros; lia.
Qed.

(** X1.  The snapshots of [comp_snapshot_indices] tile the readings: there
    is always at least one, the first starts at 0, each ends where the next
    begins, the last ends at [len(index)], none runs backwards, and every
    snapshot but the first holds at least one reading. *)
Theorem comp_snapshot_indices_tiles (index : list Z) (snapshot_minutes : Z) :
  comp_snapshot_indices index snapshot_minutes <> []
  /\ chained 0 (comp_snapshot_indices index snapshot_minutes) (Np.len index)
  /\ Forall (fun se => fst se < snd se)
            (tl (comp_snapshot_indices index snapshot_minutes)).
Proof.
  pose proof (snapshot_chain index snapshot_minutes) as Hc.
  destruct (snapshot_bounds index snapshot_minutes)
    as (bounds & E & Hs & Hb & _).
  rewrite E in *.
  split; [destruct bounds; discriminate|]. split; [exact Hc|].
  cbn [combine]. destruct bounds as [|b r]; [constructor|].
  cbn [app combine tl].
  clear - Hs Hb. revert Hs Hb. generalize (Np.len index) as n.
  intros n. revert b.
  induction r as [|c r IH]; intros b Hs Hb; cbn [app combine].
  + constructor; [|constructor]. cbn [fst snd].
    inversion Hb; subst. lia.
  + constructor.
    * cbn [fst snd]. inversion Hs as [|? ? ? Hhd]; subst.
      inversion Hhd; subst. assumption.
    * apply IH.
      -- inversion Hs; assumption.
      -- inversion Hb; assumption.
Qed.

Lemma map_fst_combine {A B : Type} (l1 : list A) (l2 : list B) :
  List.length l1 = List.length l2 -> map fst (combine l1 l2) = l1.
Proof.
  revert l2. induction l1 as [|x r IH]; intros [|y l2] H; simpl in *;
    try reflexivity; try discriminate.
  f_equal. apply IH. lia.
Qed.

Lemma gap_exact (index : list Z) (i : Z) :
  Forall mid_range index -> 0 <= i -> i + 1 < Np.len index ->
  Np.of_int64 (gap index i) = Some (gap index i).
Proof.
  intros Hr H0 H1. apply of_int64_exact.
  pose proof (item_mid_range index i Hr ltac:(lia)) as Ha.
  pose proof (item_mid_range index (i + 1) Hr ltac:(lia)) as Hb.
  unfold gap, item, mid_range in *. lia.
Qed.

(** X2.  On readings dated between the years 1824 and 2116 and for a
    snapshot length below 292 years (no difference and no length leaves
    [int64]), a snapshot other than the first starts at position [i]
    exactly when the readings at [i] and [i+1] lie at least
    [snapshot_minutes] apart: the boundary is the position before the gap. *)
Theorem snapshot_starts_before_large_gaps (index : list Z)
    (snapshot_minutes i : Z) :
  Forall mid_range index ->
  minutes_in_range snapshot_minutes ->
  In i (tl (map fst (comp_snapshot_indices index snapshot_minutes)))
  <-> 0 <= i /\ i + 1 < Np.len index
      /\ snapshot_minutes * Np.ns_per_minute <= gap index i.
Proof.
  intros Hr Hm.
  destruct (snapshot_bounds index snapshot_minutes)
    as (bounds & -> & _ & _ & H).
  rewrite map_fst_combine by (rewrite length_app; simpl; lia).
  cbn [tl]. rewrite H. split.
  - intros (H0 & H1 & H2). split; [exact H0|]. split; [exact H1|].
    rewrite gap_exact, timedelta64_m_exact in H2 by assumption.
    unfold Np.ge, Np.cmp in H2.
    apply Z.geb_le in H2. exact H2.
  - intros (H0 & H1 & H2). split; [exact H0|]. split; [exact H1|].
    rewrite gap_exact, timedelta64_m_exact by assumption.
    unfold Np.ge, Np.cmp.
    apply Z.geb_le. exact H2.
Qed.

Lemma snapshot_starts_before_large_gaps_witness :
  In 2 (tl (map fst (comp_snapshot_indices
                       (at_minutes [0; 1; 2; 20; 21; 40]) 15)))
  <-> 0 <= 2 /\ 2 + 1 < Np.len (at_minutes [0; 1; 2; 20; 21; 40])
      /\ 15 * Np.ns_per_minute <= gap (at_minutes [0; 1; 2; 20; 21; 40]) 2.
Proof.
  apply (snapshot_starts_before_large_gaps
           (at_minutes [0; 1; 2; 20; 21; 40]) 15 2).
  - repeat constructor; vm_compute; discriminate.
  - unfold minutes_in_range, Np.ns_per_minute. lia.
Defined.

(** *** Slices along a chain *)

Lemma firstn_add {A : Type} (k m : nat) (l : list A) :
  firstn (k + m) l = firstn k l ++ firstn m (skipn k l).
Proof.
  revert l. induction k as [|k IH]; intros l; [reflexivity|].
  destruct l as [|x l]; simpl.
  - rewrite firstn_nil. reflexivity.
  - f_equal. apply IH.
Qed.

Lemma clamp_in_range (n i : Z) : 0 <= i <= n -> Np.clamp n i = i.
Proof. intros H. unfold Np.clamp. destruct (Z.ltb_spec i 0); lia. Qed.

Lemma slice_app {A : Type} (arr : list A) (a e b : Z) :
  0 <= a <= e -> e <= b -> b <= Np.len arr ->
  Np.slice arr a e ++ Np.slice arr e b = Np.slice arr a b.
Proof.
  intros Ha He Hb. unfold Np.slice. cbv zeta.
  rewrite !clamp_in_range by lia.
  replace (Z.to_nat (b - a)) with (Z.to_nat (e - a) + Z.to_nat (b - e))%nat
    by lia.
  rewrite firstn_add. f_equal. f_equal.
  rewrite skipn_skipn. f_equal. lia.
Qed.

Lemma slice_all {A : Type} (arr : list A) : Np.slice arr 0 (Np.len arr) = arr.
Proof.
  unfold Np.slice. cbv zeta. pose proof (len_nonneg arr).
  rewrite !clamp_in_range by lia.
  cbn [Z.to_nat skipn]. apply firstn_all2. unfold Np.len. lia.
Qed.

Lemma chained_le (start stop : Z) (l : list (Z * Z)) :
  chained start l stop -> start <= stop.
Proof.
  revert start. induction l as [|se r IH]; intros start; cbn [chained].
  - lia.
  - intros (H1 & H2 & H3). apply IH in H3. lia.
Qed.

Lemma chained_concat {A : Type} (arr : list A) (start stop : Z)
    (l : list (Z * Z)) :
  chained start l stop -> 0 <= start -> stop <= Np.len arr ->
  List.concat (split_by_double_index l arr) = Np.slice arr start stop.
Proof.
  revert start. induction l as [|se r IH]; intros start; cbn [chained].
  - intros <- H0 H1. unfold split_by_double_index. simpl.
    unfold Np.slice. cbv zeta. rewrite Z.sub_diag. reflexivity.
  - intros (H1 & H2 & H3) H0 Hn.
    pose proof (chained_le _ _ _ H3) as Hle.
    unfold split_by_double_index in *. cbn [map List.concat].
    rewrite (IH (snd se)) by (assumption || lia).
    rewrite H1. apply slice_app; lia.
Qed.

(** X3.  Cutting an array as long as the index along the snapshots and
    gluing the pieces back gives the array: no reading is lost, repeated or
    reordered by [comp_snapshot_indices] and [split_by_double_index]. *)
Theorem snapshots_concat_roundtrip {A : Type} (arr : list A) (index : list Z)
    (snapshot_minutes : Z) :
  List.length arr = List.length index ->
  List.concat (split_by_double_index
            (comp_snapshot_indices index snapshot_minutes) arr)
  = arr.
Proof.
  intros H. pose proof (snapshot_chain index snapshot_minutes) as Hc.
  rewrite (chained_concat arr 0 (Np.len index)).
  - replace (Np.len index) with (Np.len arr) by (unfold Np.len; congruence).
    apply slice_all.
  - exact Hc.
  - lia.
  - unfold Np.len. lia.
Qed.

Lemma snapshots_concat_roundtrip_witness :
  List.concat (split_by_double_index
            (comp_snapshot_indices (at_minutes [0; 1; 2; 20; 21; 40]) 15)
            [10; 20; 30; 40; 50; 60])
  = [10; 20; 30; 40; 50; 60].
Proof.
  apply snapshots_concat_roundtrip. reflexivity.
Defined.

(** ** The frame [average_duplicates] returns *)

Lemma tuple_compare_refl (a : list Qc) : Pd.tuple_compare a a = Eq.
Proof.
  induction a as [|x a IH]; simpl; [reflexivity|].
  rewrite Qccompare_refl. assumption.
Qed.

Lemma key_compare_refl (k : Pd.Key) : Pd.key_compare k k = Eq.
Proof.
  unfold Pd.key_compare. rewrite Z.compare_refl. apply tuple_compare_refl.
Qed.

Lemma key_eqb_eq (k k' : Pd.Key) : key_eqb k k' = true <-> k = k'.
Proof.
  unfold key_eqb. split.
  - destruct (Pd.key_compare k k') eqn:E; try discriminate.
    intros _. apply key_compare_eq. assumption.
  - intros <-. rewrite key_compare_refl. reflexivity.
Qed.

Lemma key_lt_neq (k k' : Pd.Key) : key_lt k k' -> key_eqb k' k = false.
Proof.
  intros H. destruct (key_eqb k' k) eqn:E; [|reflexivity].
  apply key_eqb_eq in E. subst. unfold key_lt in H.
  rewrite key_compare_refl in H. discriminate.
Qed.

Lemma key_lt_neq' (k k' : Pd.Key) : key_lt k k' -> key_eqb k k' = false.
Proof.
  intros H. destruct (key_eqb k k') eqn:E; [|reflexivity].
  apply key_eqb_eq in E. subst. unfold key_lt in H.
  rewrite key_compare_refl in H. discriminate.
Qed.

Lemma group_of_above (k : Pd.Key) (groups : list Group) :
  Forall (fun g => key_lt k (fst g)) groups -> group_of k groups = [].
Proof.
  induction 1 as [|g rest Hg Hrest IH]; simpl; [reflexivity|].
  destruct (key_eqb k (fst g)) eqn:E; [|assumption].
  apply key_eqb_eq in E. subst. unfold key_lt in Hg.
  rewrite key_compare_refl in Hg. discriminate.
Qed.

Lemma group_of_insert (k0 k : Pd.Key) (r : list Qc) (groups : list Group) :
  groups_sorted groups ->
  group_of k0 (Pd.insert_group k r groups)
  = if key_eqb k0 k then group_of k groups ++ [r] else group_of k0 groups.
Proof.
  unfold groups_sorted.
  induction 1 as [|[k' rs] rest Hrest IH Hhd]; cbn [Pd.insert_group].
  - cbn [group_of fst snd]. destruct (key_eqb k0 k); reflexivity.
  - destruct (Pd.key_compare k k') eqn:E.
    + apply key_compare_eq in E. subst k'. cbn [group_of fst snd].
      rewrite (proj2 (key_eqb_eq k k) eq_refl).
      destruct (key_eqb k0 k); reflexivity.
    + assert (Hnone : group_of k ((k', rs) :: rest) = []).
      { apply group_of_above. constructor; [exact E|].
        eapply Forall_impl; [|exact Hhd].
        intros g Hg. eapply key_lt_trans; eauto. }
      destruct (key_eqb k0 k) eqn:E0.
      * rewrite Hnone. cbn [group_of fst snd]. rewrite E0. reflexivity.
      * cbn [group_of fst snd]. rewrite E0. reflexivity.
    + cbn [group_of fst snd]. rewrite IH.
      apply key_compare_Gt in E.
      destruct (key_eqb k0 k') eqn:E1.
      * apply key_eqb_eq in E1. subst k0.
        rewrite (key_lt_neq' _ _ E). reflexivity.
      * destruct (key_eqb k0 k) eqn:E0; [|reflexivity].
        rewrite (key_lt_neq _ _ E). reflexivity.
Qed.

Lemma group_of_fold (k : Pd.Key) (keyed : list (Pd.Key * list Qc))
    (groups : list Group) :
  groups_sorted groups ->
  group_of k (fold_left (fun gs kr => Pd.insert_group (fst kr) (snd kr) gs)
                        keyed groups)
  = group_of k groups ++ rows_with_key k keyed.
Proof.
  revert groups. induction keyed as [|[k' r] keyed IH]; intros groups Hs.
  - unfold rows_with_key. simpl. rewrite app_nil_r. reflexivity.
  - cbn [fold_left fst snd]. rewrite IH by (apply insert_group_sorted; exact Hs).
    rewrite group_of_insert by exact Hs.
    unfold rows_with_key. cbn [filter fst snd].
    destruct (key_eqb k k') eqn:E.
    + apply key_eqb_eq in E. subst k'. cbn [map snd].
      rewrite <- app_assoc. reflexivity.
    + reflexivity.
Qed.

Lemma group_of_group_rows (k : Pd.Key) (keyed : list (Pd.Key * list Qc)) :
  group_of k (Pd.group_rows keyed) = rows_with_key k keyed.
Proof.
  unfold Pd.group_rows. rewrite group_of_fold by constructor. reflexivity.
Qed.

Lemma group_of_In (k : Pd.Key) (rs : list (list Qc)) (groups : list Group) :
  groups_sorted groups -> In (k, rs) groups -> group_of k groups = rs.
Proof.
  unfold groups_sorted.
  induction 1 as [|g rest Hrest IH Hhd]; intros Hin; [destruct Hin|].
  cbn [group_of]. destruct Hin as [->|Hin].
  - cbn [fst snd]. rewrite (proj2 (key_eqb_eq k k) eq_refl). reflexivity.
  - rewrite Forall_forall in Hhd. specialize (Hhd _ Hin). cbn [fst] in Hhd.
    rewrite (key_lt_neq _ _ Hhd). apply IH. assumption.
Qed.

Lemma In_group_of (k : Pd.Key) (groups : list Group) :
  group_of k groups <> [] -> In (k, group_of k groups) groups.
Proof.
  induction groups as [|[k' rs] rest IH]; cbn [group_of fst snd].
  - congruence.
  - destruct (key_eqb k k') eqn:E.
    + apply key_eqb_eq in E. subst. intros _. left. reflexivity.
    + intros H. right. apply IH. assumption.
Qed.

Lemma rows_with_key_nonempty (k : Pd.Key) (keyed : list (Pd.Key * list Qc)) :
  rows_with_key k keyed <> [] <-> In k (map fst keyed).
Proof.
  unfold rows_with_key. induction keyed as [|[k' r] keyed IH];
    cbn [filter map fst snd In].
  - split; [congruence|tauto].
  - destruct (key_eqb k k') eqn:E.
    + apply key_eqb_eq in E. subst. cbn [map]. split; [auto|discriminate].
    + rewrite IH. split; [auto|]. intros [H|H]; [|assumption].
      subst. rewrite (proj2 (key_eqb_eq k k) eq_refl) in E. discriminate.
Qed.


(** What [average_duplicates] computes, on a frame where it succeeds. *)
Lemma average_duplicates_groups (df df' avg : Pd.DataFrame)
    (columns : list string) :
  Forall (fun r => List.length (snd r) = List.length (Pd.columns df))
         (Pd.rows df) ->
  Pd.position (String.concat ", " columns) (Pd.columns df) = None ->
  average_duplicates df columns = Ok (df', avg) ->
  exists ps,
    mapM (Pd.locate (Pd.columns df)) columns = Ok ps
    /\ Forall (fun p => (p < List.length (Pd.columns df))%nat) ps
    /\ Pd.columns avg = Pd.columns df
    /\ Pd.rows avg
       = averaged_rows (List.length (Pd.columns df))
           (Pd.group_rows (key_rows ps (Pd.rows df)))
    /\ groups_sorted (Pd.group_rows (key_rows ps (Pd.rows df)))
    /\ Forall (group_ok (keyed_row ps (List.length (Pd.columns df))))
              (Pd.group_rows (key_rows ps (Pd.rows df))).
Proof.
  intros Hwf Htemp H.
  assert (Hps : exists ps, mapM (Pd.locate (Pd.columns df)) columns = Ok ps).
  { unfold average_duplicates, Pd.get_values in H.
    bind_inv H as tuples Htuples. bind_inv Htuples as ps Hps. eauto. }
  destruct Hps as (ps & Hps). exists ps.
  rewrite (average_duplicates_unfold df columns ps Htemp Hps) in H.
  inv_Ok H. cbn [Pd.columns Pd.rows].
  destruct (group_rows_inv (keyed_row ps (List.length (Pd.columns df)))
              (key_rows ps (Pd.rows df))) as (Hs & Hok).
  { unfold key_rows. apply Forall_map. eapply Forall_impl; [|exact Hwf].
    intros r Hr. split; simpl; auto. }
  repeat (split; [assumption || reflexivity || eauto using locate_all_lt|]).
  assumption.
Qed.






Lemma combine_map2 {A B C : Type} (f : A -> B) (g : A -> C) (l : list A) :
  combine (map f l) (map g l) = map (fun x => (f x, g x)) l.
Proof. induction l; simpl; congruence. Qed.

(** X6.  Each row of the frame [average_duplicates] returns is the
    column-wise mean of all the rows of the input that share its key (index
    value, tuple of the grouping columns), and every key of the input has its
    row. *)
Theorem average_duplicates_means (df df' avg : Pd.DataFrame)
    (columns : list string) :
  Forall (fun r => List.length (snd r) = List.length (Pd.columns df))
         (Pd.rows df) ->
  Pd.position (String.concat ", " columns) (Pd.columns df) = None ->
  average_duplicates df columns = Ok (df', avg) ->
  exists tuples,
    Pd.get_values df columns = Ok tuples
    /\ forall t cells,
         In (t, cells) (Pd.rows avg)
         <-> exists k,
               fst k = t
               /\ In k (combine (Pd.index_values df) tuples)
               /\ cells
                  = Pd.column_means (List.length (Pd.columns df))
                      (rows_with_key k
                         (combine (combine (Pd.index_values df) tuples)
                                  (Pd.values df))).
Proof.
  intros Hwf Htemp H.
  destruct (average_duplicates_groups df df' avg columns Hwf Htemp H)
    as (ps & Hps & Hlt & Hcols & Hrows & Hs & Hok).
  unfold Pd.get_values. rewrite Hps. cbn [bind].
  eexists. split; [reflexivity|].
  unfold Pd.index_values, Pd.values. rewrite combine_map3, combine_map2.
  fold (key_rows ps (Pd.rows df)).
  replace (map (fun x : Z * list Qc => (fst x, Pd.cells_at ps (snd x)))
               (Pd.rows df))
    with (map fst (key_rows ps (Pd.rows df)))
    by (unfold key_rows; rewrite map_map; reflexivity).
  set (keyed := key_rows ps (Pd.rows df)) in *.
  set (n := List.length (Pd.columns df)) in *.
  intros t cells. rewrite Hrows. unfold averaged_rows. rewrite in_map_iff.
  split.
  - intros ([k rs] & E & Hin). cbn [fst snd] in E. injection E as <- <-.
    exists k. split; [reflexivity|].
    pose proof (group_of_In k rs _ Hs Hin) as Hg.
    rewrite group_of_group_rows in Hg.
    split.
    + apply rows_with_key_nonempty. rewrite Hg.
      rewrite Forall_forall in Hok. destruct (Hok _ Hin) as (Hne & _).
      exact Hne.
    + rewrite Hg. reflexivity.
  - intros (k & <- & Hin & ->).
    exists (k, rows_with_key k keyed). split; [reflexivity|].
    rewrite <- group_of_group_rows. apply In_group_of.
    rewrite group_of_group_rows. apply rows_with_key_nonempty. exact Hin.
Qed.

Lemma position_Some_In (name : string) (labels : list string) (p : nat) :
  Pd.position name labels = Some p -> In name labels.
Proof.
  revert p. induction labels as [|l r IH]; simpl; intros p H; [discriminate|].
  destruct (String.eqb_spec name l); [left; congruence|].
  destruct (Pd.position name r) as [q|]; [|discriminate].
  right. eapply IH. reflexivity.
Qed.

Lemma mapM_locate (labels names : list string) :
  (Forall (fun name => In name labels) names ->
   exists ps, mapM (Pd.locate labels) names = Ok ps)
  /\ (~ Forall (fun name => In name labels) names ->
      mapM (Pd.locate labels) names = Err KeyError).
Proof.
  induction names as [|x r (IH1 & IH2)]; cbn [mapM].
  - split; [eauto|]. intros H. exfalso. apply H. constructor.
  - unfold Pd.locate at 1 3.
    destruct (Pd.position x labels) as [p|] eqn:E; cbn [bind].
    + split.
      * intros H. inversion H; subst. destruct (IH1 H3) as (ps & ->).
        cbn [bind]. eauto.
      * intros H. rewrite IH2; [reflexivity|].
        intros Hr. apply H. constructor; [|assumption].
        eapply position_Some_In; eauto.
    + split; [|reflexivity].
      intros H. inversion H; subst.
      destruct (position_In _ _ H2) as (p & Hp). congruence.
Qed.


Lemma average_duplicates_means_witness :
  exists df' avg tuples,
    average_duplicates (Pd.set_index_values sparse (Pd.floor 15))
      ["gpsLatitude"; "gpsLongitude"]%string = Ok (df', avg)
    /\ Pd.get_values (Pd.set_index_values sparse (Pd.floor 15))
         ["gpsLatitude"; "gpsLongitude"]%string = Ok tuples
    /\ forall t cells,
         In (t, cells) (Pd.rows avg)
         <-> exists k,
               fst k = t
               /\ In k (combine
                          (Pd.index_values
                             (Pd.set_index_values sparse (Pd.floor 15)))
                          tuples)
               /\ cells
                  = Pd.column_means
                      (List.length
                         (Pd.columns
                            (Pd.set_index_values sparse (Pd.floor 15))))
                      (rows_with_key k
                         (combine
                            (combine
                               (Pd.index_values
                                  (Pd.set_index_values sparse (Pd.floor 15)))
                               tuples)
                            (Pd.values
                               (Pd.set_index_values sparse (Pd.floor 15))))).
Proof.
  destruct (average_duplicates (Pd.set_index_values sparse (Pd.floor 15))
              ["gpsLatitude"; "gpsLongitude"]%string)
    as [[df' avg]|e] eqn:E; [|vm_compute in E; discriminate].
  destruct (average_duplicates_means
              (Pd.set_index_values sparse (Pd.floor 15)) df' avg
              ["gpsLatitude"; "gpsLongitude"]%string) as (tuples & H1 & H2).
  - repeat constructor.
  - reflexivity.
  - exact E.
  - exists df', avg, tuples. auto.
Defined.

(** ** Preparing the primary table *)

Lemma floor_spec (minutes t : Z) :
  0 < minutes ->
  Pd.floor minutes t <= t < Pd.floor minutes t + minutes * Np.ns_per_minute
  /\ (minutes * Np.ns_per_minute | Pd.floor minutes t).
Proof.
  intros H. unfold Pd.floor, Np.remainder.
  set (u := minutes * Np.ns_per_minute).
  assert (Hu : 0 < u) by (unfold u, Np.ns_per_minute; lia).
  destruct (Z.eqb_spec u 0); [lia|].
  pose proof (Z.mod_pos_bound t u Hu). split; [lia|].
  exists (t / u). pose proof (Z.div_mod t u ltac:(lia)). lia.
Qed.

(** X8.  Take a table of readings dated between the years 1824 and 2116
    whose index name labels no column and that has no float column under the
    label of the column of tuples, and a snapshot length below 292 years.
    When [prep_pm_gps] returns, it has added to the caller's table the column
    of (latitude, longitude) tuples under the label
    ["gpsLatitude, gpsLongitude"], changed no float column, no cell and not
    the name of the index, and replaced each timestamp by the start of the
    [snapshot_minutes] bucket that holds it. *)
Theorem prep_pm_gps_floors_index (pm_gps pm_gps' : Pd.DataFrame)
    (snapshot_minutes : Z) :
  0 < snapshot_minutes ->
  minutes_in_range snapshot_minutes ->
  Forall mid_range (Pd.index_values pm_gps) ->
  Pd.position "gpsLatitude, gpsLongitude" (Pd.columns pm_gps) = None ->
  index_name_free pm_gps "gpsLatitude, gpsLongitude" ->
  prep_pm_gps pm_gps snapshot_minutes = Ok pm_gps' ->
  exists tuples,
    Pd.get_values pm_gps ["gpsLatitude"; "gpsLongitude"]%string = Ok tuples
    /\ Pd.tuple_columns pm_gps'
       = Pd.set_assoc "gpsLatitude, gpsLongitude" tuples
           (Pd.tuple_columns pm_gps)
    /\ Pd.index_name pm_gps' = Pd.index_name pm_gps
    /\ Pd.columns pm_gps' = Pd.columns pm_gps
    /\ Pd.values pm_gps' = Pd.values pm_gps
    /\ Forall2 (fun t t' =>
                  t' <= t < t' + snapshot_minutes * Np.ns_per_minute
                  /\ (snapshot_minutes * Np.ns_per_minute | t'))
               (Pd.index_values pm_gps) (Pd.index_values pm_gps').
Proof.
  intros Hpos _ _ Htemp _ H.
  assert (Hps : exists ps,
             mapM (Pd.locate (Pd.columns pm_gps))
                  ["gpsLatitude"; "gpsLongitude"]%string = Ok ps).
  { unfold prep_pm_gps, average_duplicates, Pd.get_values in H.
    bind_inv H as r Hr. bind_inv Hr as tuples Htuples.
    bind_inv Htuples as ps Hps. cbn [Pd.columns Pd.set_index_values] in Hps.
    eauto. }
  destruct Hps as (ps & Hps).
  unfold prep_pm_gps in H.
  rewrite (average_duplicates_unfold _ _ ps) in H by assumption.
  cbn [bind fst Pd.columns Pd.rows Pd.index_name Pd.set_index_values
       Pd.tuple_columns] in H.
  inv_Ok H.
  unfold Pd.get_values. rewrite Hps. cbn [bind Pd.tuple_columns
    Pd.index_name Pd.columns].
  eexists. split; [reflexivity|].
  split; [rewrite map_map; reflexivity|].
  split; [reflexivity|]. split; [reflexivity|].
  unfold Pd.values, Pd.index_values. cbn [Pd.rows].
  rewrite !map_map. cbn [fst snd]. split; [reflexivity|].
  induction (Pd.rows pm_gps) as [|r rows IH]; cbn [map]; constructor.
  - apply floor_spec. assumption.
  - exact IH.
Qed.

Lemma prep_pm_gps_floors_index_witness :
  exists pm_gps' tuples,
    prep_pm_gps sparse 15 = Ok pm_gps'
    /\ Pd.get_values sparse ["gpsLatitude"; "gpsLongitude"]%string = Ok tuples
    /\ Pd.tuple_columns pm_gps'
       = Pd.set_assoc "gpsLatitude, gpsLongitude" tuples
           (Pd.tuple_columns sparse)
    /\ Pd.columns pm_gps' = Pd.columns sparse
    /\ Pd.values pm_gps' = Pd.values sparse.
Proof.
  destruct (prep_pm_gps sparse 15) as [pm_gps'|e] eqn:E;
    [|vm_compute in E; discriminate].
  assert (Hfree : index_name_free sparse "gpsLatitude, gpsLongitude").
  { split; [simpl; intuition discriminate|discriminate]. }
  assert (Hm : minutes_in_range 15)
    by (unfold minutes_in_range, Np.ns_per_minute; lia).
  assert (Hr : Forall mid_range (Pd.index_values sparse))
    by (repeat constructor; vm_compute; discriminate).
  destruct (prep_pm_gps_floors_index sparse pm_gps' 15 ltac:(lia) Hm Hr
              eq_refl Hfree E)
    as (tuples & H1 & H2 & _ & H3 & H4 & _).
  exists pm_gps', tuples. split; [reflexivity|]. auto.
Defined.

(** ** Weather gating *)

Lemma mapM_Forall2 {A B : Type} (f : A -> result B) (l : list A)
    (l' : list B) :
  mapM f l = Ok l' -> Forall2 (fun x y => f x = Ok y) l l'.
Proof.
  revert l'. induction l as [|x r IH]; cbn [mapM]; intros l' H.
  - inv_Ok H. constructor.
  - bind_inv H as y Hy. bind_inv H as ys Hys. inv_Ok H.
    constructor; auto.
Qed.


Lemma compress_map_filter {A : Type} (p : A -> bool) (l : list A) :
  Np.compress (map p l) l = filter p l.
Proof.
  induction l as [|x r IH]; cbn [map Np.compress filter]; [reflexivity|].
  destruct (p x); [f_equal|]; exact IH.
Qed.

Lemma weather_mask (weather_index_values : list Z)
    (minutes_to_weather : option Z) (idx : list (Z * Z))
    (ts : list Np.Timestamp) (wi near : list Z) :
  Np.take weather_index_values wi = Ok near ->
  List.length ts = List.length idx -> List.length wi = List.length idx ->
  map (fun wt => Np.le (Np.abs (Np.sub (Some (fst wt)) (snd wt)))
                       (Np.timedelta64_m minutes_to_weather))
      (combine near ts)
  = map (fun x => weather_close weather_index_values minutes_to_weather
                    (snd (fst x)) (snd x))
        (combine (combine idx ts) wi).
Proof.
  intros Htake. apply mapM_Forall2 in Htake. revert idx ts.
  induction Htake as [|w x wi near Hx Hrest IH]; intros idx ts Hts Hwi.
  - destruct idx; [|discriminate]. destruct ts; [|discriminate]. reflexivity.
  - destruct idx as [|se idx]; [discriminate|].
    destruct ts as [|t ts]; [discriminate|].
    cbn [combine map fst snd]. f_equal.
    + unfold weather_close. rewrite Hx. reflexivity.
    + apply IH; simpl in *; lia.
Qed.

Lemma gating_unfold (self self' : Snapshots) (weather_index_values : list Z)
    (minutes_to_weather : option Z) (wi : list Z) :
  s_weather_idx self = Some wi ->
  List.length (s_timestamps self) = List.length (s_pm_gps_idx self) ->
  List.length wi = List.length (s_pm_gps_idx self) ->
  remove_snapshots_without_weather self weather_index_values
    minutes_to_weather = Ok self' ->
  let mask :=
    map (fun x => weather_close weather_index_values minutes_to_weather
                    (snd (fst x)) (snd x))
        (combine (combine (s_pm_gps_idx self) (s_timestamps self)) wi) in
  self' = mkSnapshots (s_pm_values self) (s_gps_values self)
            (s_weather_values self) (s_time_values self)
            (Np.compress mask (s_pm_gps_idx self))
            (Np.compress mask (s_timestamps self))
            (Some (Np.compress mask wi)).
Proof.
  intros Hwi Hts Hlen H mask. unfold remove_snapshots_without_weather in H.
  bind_inv H as mask' Hmask. inv_Ok H.
  unfold weather_available_mask in Hmask. rewrite Hwi in *.
  bind_inv Hmask as near Hnear. inv_Ok Hmask.
  rewrite (weather_mask _ _ (s_pm_gps_idx self) _ _ _ Hnear Hts Hlen).
  reflexivity.
Qed.



(** ** Pruning of unit batches on the container *)

Lemma unit_batches_from_lengths {A B : Type} (a : list (list A))
    (b : list (list B)) (i : Z) :
  map (@List.length _) b = map (@List.length _) a ->
  unit_batches_from i b = unit_batches_from i a.
Proof.
  revert b i. induction a as [|x a IH]; intros [|y b] i H;
    try discriminate; [reflexivity|].
  cbn [map] in H. injection H as Hxy H.
  cbn [unit_batches_from]. unfold Np.len. rewrite Hxy, (IH b (i + 1) H).
  reflexivity.
Qed.

Lemma delete_unit_batches_of {A B : Type} (a : list (list A))
    (b : list (list B)) :
  map (@List.length _) b = map (@List.length _) a ->
  delete_indices b (find_indices_of_unit_batches a) = Ok (filter kept b).
Proof.
  intros H. unfold find_indices_of_unit_batches.
  rewrite <- (unit_batches_from_lengths a b 0 H).
  apply delete_unit_batches.
Qed.

Lemma remove_unit_batches_unfold (self : Dataset) :
  aligned self ->
  remove_unit_batches self
  = Ok (mkDataset (pm_values self) (gps_values self) (weather_values self)
          (option_map (filter kept) (time_values self))
          (filter kept (pm_gps_idx self))
          (filter kept (timestamps self))
          (match weather_values self with
           | Some _ => option_map (filter kept) (weather_idx self)
           | None => weather_idx self
           end)).
Proof.
  intros (Hts & Htv & Hw). unfold remove_unit_batches.
  rewrite delete_unit_batches. cbn [bind].
  rewrite (delete_unit_batches_of _ _ Hts). cbn [bind].
  assert (Hwi : match weather_values self, weather_idx self with
                | Some _, Some wi =>
                    wi' <- delete_indices wi
                             (find_indices_of_unit_batches (pm_gps_idx self)) ;;
                    Ok (Some wi')
                | _, wi => Ok wi
                end
                = Ok (match weather_values self with
                      | Some _ => option_map (filter kept) (weather_idx self)
                      | None => weather_idx self
                      end)).
  { destruct (weather_values self) as [wv|] eqn:Ewv; [|reflexivity].
    destruct (Hw wv eq_refl) as (wi & -> & Hlen & _).
    rewrite (delete_unit_batches_of _ _ Hlen). reflexivity. }
  destruct (time_values self) as [tv|] eqn:Etv.
  - rewrite (delete_unit_batches_of _ _ (Htv tv eq_refl)).
    cbn [bind option_map]. rewrite Hwi. reflexivity.
  - cbn [bind option_map]. rewrite Hwi. reflexivity.
Qed.

Lemma filter_combine_kept {A B : Type} (a : list (list A))
    (b : list (list B)) :
  map (@List.length _) b = map (@List.length _) a ->
  combine (filter kept a) (filter kept b)
  = filter (fun p => kept (fst p)) (combine a b).
Proof.
  revert b. induction a as [|x a IH]; intros [|y b] H; try discriminate;
    [reflexivity|].
  cbn [map] in H. injection H as Hxy H.
  cbn [filter combine fst].
  assert (E : kept y = kept x) by (unfold kept, Np.len; rewrite Hxy; reflexivity).
  rewrite E. destruct (kept x); cbn [combine]; rewrite (IH b H); reflexivity.
Qed.

(** X10.  On a container whose per-batch arrays are in lockstep,
    [remove_unit_batches] never raises, and it drops a batch from every array
    or from none: what remains of the index pairs together with the
    timestamps, the calendar vectors and the weather indices are the entries
    of the batches with two snapshots or more, in their order. *)
Theorem remove_unit_batches_drops_whole_batches (self : Dataset) :
  aligned self ->
  exists self',
    remove_unit_batches self = Ok self'
    /\ combine (pm_gps_idx self') (timestamps self')
       = filter (fun p => kept (fst p))
                (combine (pm_gps_idx self) (timestamps self))
    /\ (forall tv, time_values self = Some tv ->
          exists tv', time_values self' = Some tv'
            /\ combine (pm_gps_idx self') tv'
               = filter (fun p => kept (fst p)) (combine (pm_gps_idx self) tv))
    /\ (forall wv, weather_values self = Some wv ->
          exists wi wi', weather_idx self = Some wi
            /\ weather_idx self' = Some wi'
            /\ combine (pm_gps_idx self') wi'
               = filter (fun p => kept (fst p)) (combine (pm_gps_idx self) wi)).
Proof.
  intros Ha. eexists. split; [apply remove_unit_batches_unfold, Ha|].
  destruct Ha as (Hts & Htv & Hw).
  cbn [pm_gps_idx timestamps time_values weather_idx].
  split; [apply filter_combine_kept, Hts|]. split.
  - intros tv Etv. rewrite Etv. eexists. split; [reflexivity|].
    apply filter_combine_kept, Htv, Etv.
  - intros wv Hwv. destruct (Hw wv Hwv) as (wi & Hwi & Hlen & _).
    rewrite Hwv, Hwi. do 2 eexists. split; [reflexivity|].
    split; [reflexivity|]. apply filter_combine_kept, Hlen.
Qed.

Lemma remove_unit_batches_drops_whole_batches_witness :
  exists self',
    remove_unit_batches
      (mkDataset [] [] None None [[(0, 1)]; [(1, 2); (2, 3)]]
         [[Some 0]; [Some 1; Some 2]] None) = Ok self'
    /\ pm_gps_idx self' = [[(1, 2); (2, 3)]]
    /\ timestamps self' = [[Some 1; Some 2]].
Proof.
  destruct (remove_unit_batches_drops_whole_batches
              (mkDataset [] [] None None [[(0, 1)]; [(1, 2); (2, 3)]]
                 [[Some 0]; [Some 1; Some 2]] None))
    as (self' & H & _).
  - split; [reflexivity|]. split; intros ? E; discriminate E.
  - exists self'. split; [exact H|].
    vm_compute in H. injection H as <-. split; reflexivity.
Defined.

(** ** From the snapshots to the batches *)

Lemma init_snapshots_unfold (pm_gps pm_gps' : Pd.DataFrame)
    (snapshot_minutes : Z) (weather : option Pd.DataFrame)
    (minutes_to_weather : option Z)
    (datetime_to_vec : option (Np.Timestamp -> result Vec)) (self : Snapshots) :
  init_snapshots pm_gps snapshot_minutes weather minutes_to_weather
    datetime_to_vec = Ok (self, pm_gps') ->
  let idx := comp_snapshot_indices (Pd.index_values pm_gps') snapshot_minutes in
  let ts := comp_snapshot_timestamps idx (Pd.index_values pm_gps') in
  match weather with
  | None =>
      s_pm_gps_idx self = idx /\ s_timestamps self = ts
      /\ s_weather_idx self = None
  | Some w =>
      exists widx,
        find_nearest (Pd.index_values w) ts = Ok widx
        /\ let mask :=
             map (fun x => weather_close (Pd.index_values w) minutes_to_weather
                             (snd (fst x)) (snd x))
                 (combine (combine idx ts) widx) in
           s_pm_gps_idx self = Np.compress mask idx
           /\ s_timestamps self = Np.compress mask ts
           /\ s_weather_idx self = Some (Np.compress mask widx)
  end.
Proof.
  intros H. unfold init_snapshots in H.
  bind_inv H as pm1 Hpm1. bind_inv H as pm Hpm. bind_inv H as gps Hgps.
  bind_inv H as gated Hg. bind_inv H as self' Hself. inv_Ok H.
  intros idx ts.
  assert (Hts : List.length ts = List.length idx)
    by (unfold ts, comp_snapshot_timestamps; apply length_map).
  assert (Hsame : s_pm_gps_idx self = s_pm_gps_idx gated
                  /\ s_timestamps self = s_timestamps gated
                  /\ s_weather_idx self = s_weather_idx gated).
  { destruct datetime_to_vec as [f|].
    - bind_inv Hself as tv Htv. inv_Ok Hself. repeat split.
    - inv_Ok Hself. repeat split. }
  destruct Hsame as (-> & -> & ->).
  destruct weather as [w|].
  - bind_inv Hg as widx Hwidx. exists widx. split; [exact Hwidx|].
    apply gating_unfold with (wi := widx) in Hg; cbn [s_weather_idx
      s_pm_gps_idx s_timestamps]; auto.
    + cbn [s_pm_gps_idx s_timestamps s_pm_values s_gps_values
        s_weather_values s_time_values] in Hg.
      rewrite Hg. cbn [s_weather_idx s_pm_gps_idx s_timestamps].
      repeat split.
    + unfold find_nearest in Hwidx. apply mapM_length in Hwidx.
      rewrite Hwidx. exact Hts.
  - inv_Ok Hg. repeat split.
Qed.

Lemma compress_length_le {A : Type} (mask : list bool) (a : list A) :
  (List.length (Np.compress mask a) <= List.length a)%nat.
Proof.
  revert a. induction mask as [|m r IH]; intros [|x a];
    cbn [Np.compress List.length]; try lia.
  specialize (IH a). destruct m; cbn [List.length]; lia.
Qed.

Lemma Forall_tl {A : Type} (P : A -> Prop) (l : list A) :
  Forall P l -> Forall P (tl l).
Proof. intros H. destruct H; [constructor|assumption]. Qed.

Lemma Forall_removelast {A : Type} (P : A -> Prop) (l : list A) :
  Forall P l -> Forall P (removelast l).
Proof.
  induction 1 as [|x l Hx Hl IH]; [constructor|].
  cbn [removelast]. destruct l; [constructor|].
  constructor; assumption.
Qed.

(** The snapshot pairs the splitter can look up in an index of [n] entries:
    every start and every end minus one is a position of the index, or there
    is at most one pair. *)
Lemma snapshots_splittable (index : list Z) (snapshot_minutes : Z)
    (mask : list bool) :
  let idx := Np.compress mask (comp_snapshot_indices index snapshot_minutes) in
  Forall (fun se => valid_index (Np.len index) (fst se)
                    /\ valid_index (Np.len index) (snd se - 1)) idx
  \/ (List.length idx <= 1)%nat.
Proof.
  intros idx. unfold idx.
  destruct (snapshot_bounds index snapshot_minutes)
    as (bounds & E & _ & Hb & _).
  destruct bounds as [|b bounds].
  - right. rewrite E. etransitivity; [apply compress_length_le|].
    cbn. lia.
  - left. apply compress_Forall. rewrite E.
    assert (Hn : 1 < Np.len index) by (inversion Hb; subst; lia).
    apply Forall_forall. intros [s e] Hin. cbn [fst snd].
    pose proof (in_combine_l _ _ _ _ Hin) as Hs.
    pose proof (in_combine_r _ _ _ _ Hin) as He.
    rewrite Forall_forall in Hb. unfold valid_index. split.
    + destruct Hs as [<-|Hs]; [lia|]. specialize (Hb s Hs). lia.
    + apply in_app_or in He. destruct He as [He|[<-|[]]]; [|lia].
      specialize (Hb e He). lia.
Qed.

Lemma split_snapshot_indices_to_batches_total (timestamps : list Z)
    (snapshot_indices : list (Z * Z)) (snapshot_minutes : Z) :
  Forall (fun se => valid_index (Np.len timestamps) (fst se)
                    /\ valid_index (Np.len timestamps) (snd se - 1))
         snapshot_indices
  \/ (List.length snapshot_indices <= 1)%nat ->
  exists batch_splits,
    split_snapshot_indices_to_batches timestamps snapshot_indices
      snapshot_minutes = Ok batch_splits.
Proof.
  intros H. unfold split_snapshot_indices_to_batches.
  assert (Hs : Forall (valid_index (Np.len timestamps))
                      (tl (map fst snapshot_indices))).
  { destruct H as [H|H].
    - apply Forall_tl, Forall_map. eapply Forall_impl; [|exact H].
      cbv beta. tauto.
    - destruct snapshot_indices as [|x [|y r]]; cbn in *; try lia;
        constructor. }
  assert (He : Forall (valid_index (Np.len timestamps))
                      (map (fun e => e - 1)
                           (removelast (map snd snapshot_indices)))).
  { destruct H as [H|H].
    - apply Forall_map, Forall_removelast, Forall_map.
      eapply Forall_impl; [|exact H]. cbv beta. tauto.
    - destruct snapshot_indices as [|x [|y r]]; cbn in *; try lia;
        constructor. }
  destruct (take_valid _ _ Hs) as (starts & ->).
  destruct (take_valid _ _ He) as (ends & ->).
  cbn [bind]. eexists. reflexivity.
Qed.

Lemma split_aligned (self : Snapshots) (batch_splits : list Z) :
  aligned_snapshots self ->
  aligned
    (mkDataset (s_pm_values self) (s_gps_values self) (s_weather_values self)
       (option_map (fun tv => Np.split tv batch_splits) (s_time_values self))
       (Np.split (s_pm_gps_idx self) batch_splits)
       (Np.split (s_timestamps self) batch_splits)
       (match s_weather_values self with
        | Some _ =>
            option_map (fun wi => Np.split wi batch_splits) (s_weather_idx self)
        | None => None
        end)).
Proof.
  intros (Hts & Htv & Hw). unfold aligned; simpl. repeat split.
  - apply split_lengths. assumption.
  - intros tv Hx. destruct (s_time_values self) as [tv0|]; [|discriminate].
    inv_Ok Hx. apply split_lengths. auto.
  - intros wv Hx. destruct (Hw wv Hx) as (wi & Hwi & Hlen & Hvalid).
    rewrite Hx, Hwi. simpl. eexists. split; [reflexivity|]. split.
    + apply split_lengths. assumption.
    + apply split_Forall. assumption.
Qed.

Lemma split_to_batches_completes (pm_gps pm_gps' : Pd.DataFrame)
    (snapshot_minutes : Z) (weather : option Pd.DataFrame)
    (minutes_to_weather : option Z)
    (datetime_to_vec : option (Np.Timestamp -> result Vec)) (self : Snapshots) :
  init_snapshots pm_gps snapshot_minutes weather minutes_to_weather
    datetime_to_vec = Ok (self, pm_gps') ->
  exists d,
    split_to_batches self (Pd.index_values pm_gps') snapshot_minutes = Ok d.
Proof.
  intros H.
  pose proof (init_snapshots_aligned _ _ _ _ _ _ _ H) as (Ha & _ & _).
  pose proof (init_snapshots_unfold _ _ _ _ _ _ _ H) as Hu. cbv zeta in Hu.
  assert (Hidx : exists mask,
             s_pm_gps_idx self
             = Np.compress mask
                 (comp_snapshot_indices (Pd.index_values pm_gps')
                    snapshot_minutes)).
  { destruct weather as [w|].
    - destruct Hu as (widx & _ & Hi & _). eexists. exact Hi.
    - destruct Hu as (Hi & _).
      exists (map (fun _ => true) (s_pm_gps_idx self)).
      rewrite <- Hi. rewrite compress_map_filter.
      symmetry. apply forallb_filter_id, forallb_forall. reflexivity. }
  destruct Hidx as (mask & Hidx).
  unfold split_to_batches.
  destruct (split_snapshot_indices_to_batches_total (Pd.index_values pm_gps')
              (s_pm_gps_idx self) snapshot_minutes) as (batch_splits & ->).
  { rewrite Hidx. apply snapshots_splittable. }
  cbn [bind].
  rewrite remove_unit_batches_unfold by (apply split_aligned, Ha).
  eexists. reflexivity.
Qed.

(** X11.  Once the snapshots are computed, matched to the weather, gated and
    mapped to calendar features without an error, the rest of [__init__]
    cannot raise: the lookups of the batch splitter stay inside the index,
    and the pruning deletes positions that exist. *)
Theorem construction_completes_after_snapshots (pm_gps pm_gps' : Pd.DataFrame)
    (snapshot_minutes : Z) (weather : option Pd.DataFrame)
    (minutes_to_weather : option Z)
    (datetime_to_vec : option (Np.Timestamp -> result Vec)) (self : Snapshots) :
  init_snapshots pm_gps snapshot_minutes weather minutes_to_weather
    datetime_to_vec = Ok (self, pm_gps') ->
  exists d,
    Dataset_init pm_gps snapshot_minutes weather minutes_to_weather
      datetime_to_vec = Ok (d, pm_gps').
Proof.
  intros H. unfold Dataset_init.
  destruct (split_to_batches_completes _ _ _ _ _ _ _ H) as (d & Hd).
  rewrite H. cbn [bind fst snd]. rewrite Hd. cbn [bind].
  exists d. reflexivity.
Qed.

Lemma construction_completes_after_snapshots_witness :
  exists self pm_gps' d,
    init_snapshots sparse 15 None None None = Ok (self, pm_gps')
    /\ Dataset_init sparse 15 None None None = Ok (d, pm_gps').
Proof.
  destruct (init_snapshots sparse 15 None None None) as [[self pm_gps']|e]
    eqn:E; [|vm_compute in E; discriminate].
  destruct (construction_completes_after_snapshots sparse pm_gps' 15 None
              None None self E) as (d & Hd).
  exists self, pm_gps', d. split; [reflexivity|exact Hd].
Defined.

(** ** The weather of a constructed dataset *)


Lemma Forall2_skipn {A B : Type} (R : A -> B -> Prop) (n : nat) (a : list A)
    (b : list B) :
  Forall2 R a b -> Forall2 R (skipn n a) (skipn n b).
Proof.
  intros H. revert n. induction H as [|x y a b Hxy H IH]; intros [|n];
    cbn [skipn]; try constructor; auto.
Qed.

Lemma Forall2_firstn {A B : Type} (R : A -> B -> Prop) (n : nat) (a : list A)
    (b : list B) :
  Forall2 R a b -> Forall2 R (firstn n a) (firstn n b).
Proof.
  intros H. revert n. induction H as [|x y a b Hxy H IH]; intros [|n];
    cbn [firstn]; try constructor; auto.
Qed.

Lemma slice_Forall2 {A B : Type} (R : A -> B -> Prop) (a : list A)
    (b : list B) (start stop : Z) :
  Forall2 R a b -> Forall2 R (Np.slice a start stop) (Np.slice b start stop).
Proof.
  intros H. unfold Np.slice.
  assert (Hl : Np.len a = Np.len b)
    by (unfold Np.len; f_equal; eapply Forall2_length; eauto).
  rewrite Hl. apply Forall2_firstn, Forall2_skipn, H.
Qed.

Lemma Forall2_map_same {A B C : Type} (R : A -> B -> Prop) (f : C -> A)
    (g : C -> B) (l : list C) :
  (forall x, R (f x) (g x)) -> Forall2 R (map f l) (map g l).
Proof.
  intros H. induction l; cbn [map]; constructor; auto.
Qed.

Lemma split_Forall2 {A B : Type} (R : A -> B -> Prop) (a : list A)
    (b : list B) (points : list Z) :
  Forall2 R a b -> Forall2 (Forall2 R) (Np.split a points) (Np.split b points).
Proof.
  intros H. unfold Np.split.
  assert (Hl : Np.len a = Np.len b)
    by (unfold Np.len; f_equal; eapply Forall2_length; eauto).
  rewrite Hl. apply Forall2_map_same. intros se. apply slice_Forall2, H.
Qed.

Lemma filter_kept_Forall2 {A B : Type} (R : A -> B -> Prop)
    (a : list (list A)) (b : list (list B)) :
  Forall2 (Forall2 R) a b ->
  Forall2 (Forall2 R) (filter kept a) (filter kept b).
Proof.
  induction 1 as [|x y a b Hxy H IH]; cbn [filter]; [constructor|].
  assert (E : kept y = kept x).
  { unfold kept, Np.len. rewrite (Forall2_length Hxy). reflexivity. }
  rewrite E. destruct (kept x); [constructor|]; assumption.
Qed.



(** ** The batches indexing returns *)

Lemma nth_error_map_Some {A B : Type} (f : A -> B) (l : list A) (n : nat)
    (x : A) :
  nth_error l n = Some x -> nth_error (map f l) n = Some (f x).
Proof. intros H. rewrite nth_error_map, H. reflexivity. Qed.

Lemma getitem_map {A B : Type} (f : A -> B) (a : list A) (i : Z) (x : A) :
  Np.getitem a i = Ok x -> Np.getitem (map f a) i = Ok (f x).
Proof.
  unfold Np.getitem, Np.len. rewrite length_map. cbv zeta.
  destruct (_ <? 0); [discriminate|].
  destruct (nth_error a _) as [y|] eqn:E; [|discriminate].
  intros H. inv_Ok H. rewrite (nth_error_map_Some f _ _ _ E). reflexivity.
Qed.

Lemma getitem_In {A : Type} (a : list A) (i : Z) (x : A) :
  Np.getitem a i = Ok x -> In x a.
Proof.
  unfold Np.getitem. cbv zeta.
  destruct (_ <? 0); [discriminate|].
  destruct (nth_error a _) as [y|] eqn:E; [|discriminate].
  intros H. inv_Ok H. eapply nth_error_In; eauto.
Qed.

Lemma getitem_same_length {A B : Type} (a : list (list A))
    (b : list (list B)) (i : Z) (x : list A) (y : list B) :
  map (@List.length _) a = map (@List.length _) b ->
  Np.getitem a i = Ok x -> Np.getitem b i = Ok y ->
  Np.len x = Np.len y.
Proof.
  intros H Hx Hy.
  apply (getitem_map (@List.length _)) in Hx, Hy.
  rewrite H in Hx. unfold Np.len. congruence.
Qed.

Lemma getitem_int_full (self : Dataset) (i : Z) (b : Batch) :
  aligned self ->
  Forall (fun batch => 2 <= Np.len batch) (pm_gps_idx self) ->
  getitem_int self i = Ok b -> full_batch b.
Proof.
  intros (Hts & Htv & Hw) H2 H. unfold getitem_int in H.
  bind_inv H as ts Ets. bind_inv H as idx Eidx.
  bind_inv H as weather Eweather. bind_inv H as time Etime. inv_Ok H.
  pose proof (getitem_same_length _ _ _ _ _ Hts Ets Eidx) as Hlen.
  assert (Hidx : 2 <= Np.len idx).
  { rewrite Forall_forall in H2. apply H2. eapply getitem_In; eauto. }
  unfold full_batch. cbn [b_timestamps b_pm b_gps b_weather b_time].
  split; [lia|].
  split; [unfold split_by_double_index, Np.len in *; rewrite length_map;
          exact (eq_sym Hlen)|].
  split; [unfold split_by_double_index, Np.len in *; rewrite length_map;
          exact (eq_sym Hlen)|].
  split.
  - intros w ->. destruct (weather_values self) as [wv|] eqn:Ewv;
      [|discriminate].
    destruct (Hw wv eq_refl) as (wi & Ewi & Hwi & _). rewrite Ewi in Eweather.
    bind_inv Eweather as widx Ewidx. bind_inv Eweather as w' Ew.
    inv_Ok Eweather.
    pose proof (getitem_same_length _ _ _ _ _ Hwi Ewidx Eidx) as Hlen'.
    unfold Np.take in Ew. apply mapM_length in Ew.
    unfold Np.len in *. lia.
  - intros t ->. destruct (time_values self) as [tv|] eqn:Etv;
      [|discriminate].
    bind_inv Etime as t' Et. inv_Ok Etime.
    pose proof (getitem_same_length _ _ _ _ _ (Htv tv eq_refl) Et Eidx).
    lia.
Qed.

(** X13.  Whatever indexing a constructed dataset returns, by an integer or
    by a slice, is made of batches of at least two snapshots, and every such
    batch carries one [pm] array, one [gps] array and, when configured, one
    weather vector and one calendar vector per snapshot. *)
Theorem indexing_returns_full_batches (pm_gps pm_gps' : Pd.DataFrame)
    (snapshot_minutes : Z) (weather : option Pd.DataFrame)
    (minutes_to_weather : option Z)
    (datetime_to_vec : option (Np.Timestamp -> result Vec)) (d : Dataset)
    (key : PyKey) (it : Item) :
  Dataset_init pm_gps snapshot_minutes weather minutes_to_weather
    datetime_to_vec = Ok (d, pm_gps') ->
  Dataset_getitem d key = Ok it ->
  match it with
  | ItemBatch b => full_batch b
  | ItemList bs => Forall full_batch bs
  | ItemNone => isinstance_int key = false /\ isinstance_slice key = false
  end.
Proof.
  intros Hinit H.
  pose proof (retained_batches_have_two_snapshots _ _ _ _ _ _ _ Hinit) as H2.
  apply Dataset_init_aligned in Hinit. destruct Hinit as (Ha & _).
  unfold Dataset_getitem in H.
  destruct (isinstance_int key).
  - bind_inv H as b Hb. inv_Ok H. eapply getitem_int_full; eauto.
  - destruct (isinstance_slice key).
    + bind_inv H as r Hr. bind_inv H as bs Hbs. inv_Ok H.
      apply mapM_Forall2 in Hbs.
      induction Hbs as [|i b l bs Hb _ IH]; constructor; [|exact IH].
      eapply getitem_int_full; eauto.
    + inv_Ok H. split; reflexivity.
Qed.

Lemma indexing_returns_full_batches_witness :
  exists d pm_gps' it,
    Dataset_init dense 15 None None None = Ok (d, pm_gps')
    /\ Dataset_getitem d (KSlice None None None) = Ok it
    /\ match it with
       | ItemBatch b => full_batch b
       | ItemList bs => Forall full_batch bs
       | ItemNone => False
       end.
Proof.
  destruct (Dataset_init dense 15 None None None) as [[d pm_gps']|e] eqn:E;
    [|vm_compute in E; discriminate].
  destruct (Dataset_getitem d (KSlice None None None)) as [it|e] eqn:G;
    [|vm_compute in E; injection E as <- <-; vm_compute in G; discriminate].
  pose proof (indexing_returns_full_batches _ _ _ _ _ _ _ _ _ E G) as H.
  exists d, pm_gps', it. split; [reflexivity|]. split; [exact G|].
  destruct it; [exact H|exact H|destruct H; discriminate].
Defined.

(** ** Slices *)

Lemma adjust_bounds (length step : Z) (i : option Z) (is_stop : bool) :
  0 <= length ->
  (0 < step -> 0 <= Py.adjust length step i is_stop <= length)
  /\ (step < 0 -> -1 <= Py.adjust length step i is_stop <= length - 1).
Proof.
  intros Hl. unfold Py.adjust.
  destruct i as [i|].
  - destruct (Z.ltb_spec i 0); [destruct (Z.ltb_spec (i + length) 0)|
      destruct (Z.leb_spec length i)];
      destruct (Z.ltb_spec step 0); lia.
  - destruct (Z.ltb_spec step 0); destruct is_stop; lia.
Qed.

Lemma range_bounds (start stop step i : Z) :
  In i (Py.range start stop step) ->
  (0 < step -> start <= i < stop) /\ (step < 0 -> stop < i <= start).
Proof.
  unfold Py.range. intros H. apply in_map_iff in H.
  destruct H as (k & <- & Hk). apply in_seq in Hk.
  split; intros Hs.
  - assert (E : (0 <? step) = true) by lia. rewrite E in Hk.
    set (n := (stop - start + step - 1) / step) in *.
    assert (Hn : Z.of_nat k + 1 <= n) by lia.
    pose proof (Z.mul_div_le (stop - start + step - 1) step Hs) as Hd.
    fold n in Hd. nia.
  - assert (E : (0 <? step) = false) by lia. rewrite E in Hk.
    set (n := (start - stop - step - 1) / (- step)) in *.
    assert (Hn : Z.of_nat k + 1 <= n) by lia.
    pose proof (Z.mul_div_le (start - stop - step - 1) (- step)
                  ltac:(lia)) as Hd.
    fold n in Hd. nia.
Qed.

Lemma range_all (n : nat) :
  Py.range 0 (Z.of_nat n) 1 = map Z.of_nat (seq 0 n).
Proof.
  unfold Py.range. cbn [Z.ltb Z.compare].
  replace (Z.of_nat n - 0 + 1 - 1) with (Z.of_nat n) by lia.
  rewrite Z.div_1_r, Nat2Z.id. apply map_ext. intros k. lia.
Qed.

Lemma mapM_getitem_int (self : Dataset) (l : list Z) :
  aligned self ->
  Forall (fun i => 0 <= i < Dataset_len self) l ->
  exists bs,
    mapM (getitem_int self) l = Ok bs
    /\ Forall2 (fun i b => nth_batch self (Z.to_nat i) b) l bs.
Proof.
  intros Ha H. induction H as [|i l Hi _ (bs & E & IH)]; cbn [mapM].
  - exists []. split; [reflexivity|constructor].
  - destruct (getitem_int_in_range self i Ha Hi) as (b & Hb & Hn).
    rewrite Hb, E. cbn [bind]. eexists. split; [reflexivity|].
    constructor; assumption.
Qed.

Lemma Forall2_map_left {A B C : Type} (R : A -> B -> Prop) (f : C -> A)
    (l : list C) (l' : list B) :
  Forall2 R (map f l) l' -> Forall2 (fun x y => R (f x) y) l l'.
Proof.
  revert l'. induction l as [|x l IH]; intros l' H; inversion H; subst;
    constructor; auto.
Qed.

Lemma Forall2_In_right {A B : Type} (R : A -> B -> Prop) (l : list A)
    (l' : list B) (y : B) :
  Forall2 R l l' -> In y l' -> exists x, In x l /\ R x y.
Proof.
  induction 1 as [|x y' l l' Hxy _ IH]; intros Hy; [destruct Hy|].
  destruct Hy as [<-|Hy].
  - exists x. split; [left; reflexivity|exact Hxy].
  - destruct (IH Hy) as (x' & Hx' & HR). exists x'. split; [right|]; assumption.
Qed.

(** X14.  Indexing a constructed dataset by a slice: a zero step raises
    [ValueError]; every other slice, whatever its bounds, never raises and
    returns a list of batches of the dataset; and the full slice [d[:]]
    returns every batch, in order. *)
Theorem getitem_slice (pm_gps pm_gps' : Pd.DataFrame)
    (snapshot_minutes : Z) (weather : option Pd.DataFrame)
    (minutes_to_weather : option Z)
    (datetime_to_vec : option (Np.Timestamp -> result Vec)) (d : Dataset)
    (start stop step : option Z) :
  Dataset_init pm_gps snapshot_minutes weather minutes_to_weather
    datetime_to_vec = Ok (d, pm_gps') ->
  (step = Some 0 ->
     Dataset_getitem d (KSlice start stop step) = Err ValueError)
  /\ (step <> Some 0 ->
      exists bs,
        Dataset_getitem d (KSlice start stop step) = Ok (ItemList bs)
        /\ Forall (fun b => exists i, 0 <= i < Dataset_len d
                              /\ nth_batch d (Z.to_nat i) b) bs)
  /\ (exists bs,
        Dataset_getitem d (KSlice None None None) = Ok (ItemList bs)
        /\ Forall2 (nth_batch d) (seq 0 (List.length (timestamps d))) bs).
Proof.
  intros H. apply Dataset_init_aligned in H. destruct H as (Ha & _).
  unfold Dataset_getitem.
  cbn [isinstance_int isinstance_slice key_indices].
  split; [|split].
  - intros ->. reflexivity.
  - intros Hstep. unfold Py.slice_indices.
    set (st := match step with None => 1 | Some s => s end).
    assert (Hst : st <> 0).
    { unfold st. destruct step as [s|]; [|lia]. congruence. }
    destruct (Z.eqb_spec st 0) as [|_]; [contradiction|].
    cbn [bind fst snd].
    set (len := Dataset_len d).
    assert (Hlen : 0 <= len) by apply len_nonneg.
    destruct (mapM_getitem_int d
                (Py.range (Py.adjust len st start false)
                   (Py.adjust len st stop true) st) Ha) as (bs & -> & Hbs).
    { apply Forall_forall. intros i Hi. apply range_bounds in Hi.
      destruct (adjust_bounds len st start false Hlen) as (Hp & Hm).
      destruct (adjust_bounds len st stop true Hlen) as (Hp' & Hm').
      fold len. destruct (Z_lt_ge_dec 0 st); lia. }
    cbn [bind]. eexists. split; [reflexivity|].
    apply Forall_forall. intros b Hb.
    destruct (Forall2_In_right _ _ _ _ Hbs Hb) as (i & Hi & Hn).
    exists i. split; [|exact Hn].
    apply range_bounds in Hi.
    destruct (adjust_bounds len st start false Hlen) as (Hp & Hm).
    destruct (adjust_bounds len st stop true Hlen) as (Hp' & Hm').
    fold len. destruct (Z_lt_ge_dec 0 st); lia.
  - unfold Py.slice_indices. cbn [Z.eqb bind fst snd Py.adjust Z.ltb Z.compare].
    unfold Dataset_len at 1, Np.len. rewrite range_all.
    destruct (mapM_getitem_int d
                (map Z.of_nat (seq 0 (List.length (timestamps d)))) Ha)
      as (bs & -> & Hbs).
    { apply Forall_forall. intros i Hi. apply in_map_iff in Hi.
      destruct Hi as (k & <- & Hk). apply in_seq in Hk.
      unfold Dataset_len, Np.len. lia. }
    cbn [bind]. eexists. split; [reflexivity|].
    apply Forall2_map_left in Hbs.
    eapply Forall2_impl; [|exact Hbs].
    cbv beta. intros k b Hk. rewrite Nat2Z.id in Hk. exact Hk.
Qed.

Lemma getitem_slice_witness :
  exists d pm_gps',
    Dataset_init sparse 15 None None None = Ok (d, pm_gps')
    /\ Dataset_getitem d (KSlice (Some 1) None (Some 0)) = Err ValueError
    /\ (exists bs,
          Dataset_getitem d (KSlice None None None) = Ok (ItemList bs)
          /\ Forall2 (nth_batch d) (seq 0 (List.length (timestamps d))) bs).
Proof.
  destruct (Dataset_init sparse 15 None None None) as [[d pm_gps']|e] eqn:E;
    [|vm_compute in E; discriminate].
  destruct (getitem_slice _ _ _ _ _ _ _ (Some 1) None (Some 0) E)
    as (H0 & _ & Hall).
  exists d, pm_gps'. split; [reflexivity|]. split; [|exact Hall].
  apply H0. reflexivity.
Defined.

(** ** [find_nearest] on every query *)

Lemma find_nearest1_NaT (arr : list Z) :
  arr <> [] -> find_nearest1 arr None = Ok (Np.len arr).
Proof.
  intros Hne. unfold find_nearest1. cbn [Np.searchsorted].
  assert (Hn : 0 < Np.len arr).
  { destruct arr; [congruence|]. rewrite len_cons.
    pose proof (len_nonneg arr). lia. }
  rewrite (getitem_item arr (Np.len arr - 1)) by lia. cbn [bind].
  unfold Np.remainder. destruct (Z.eqb_spec (Np.len arr) 0); [lia|].
  rewrite Z_mod_same_full, (getitem_item arr 0) by lia. cbn [bind].
  cbn [Np.sub Np.abs option_map]. unfold Np.lt, Np.cmp. cbn [Z.b2z].
  f_equal. lia.
Qed.

Lemma find_nearest1_range (arr : list Z) (v : Np.Timestamp) :
  StronglySorted Z.le arr -> arr <> [] ->
  Forall mid_range arr -> query_in_range v ->
  exists i,
    find_nearest1 arr v = Ok i
    /\ 0 <= i <= Np.len arr
    /\ (i = Np.len arr
        <-> v = None
            \/ exists x, v = Some x /\ last arr 0 < x
                         /\ hd 0 arr = last arr 0).
Proof.
  intros Hs Hne Harr Hq. destruct v as [v|].
  - rewrite find_nearest1_unfold by assumption. cbv zeta.
    rewrite hd_item, last_item by assumption.
    set (idx := Np.count_below arr v). set (n := Np.len arr) in *.
    pose proof (count_below_bounds arr v) as Hb. fold idx n in Hb.
    assert (Hlt : forall j, 0 <= j < idx -> item arr j < v)
      by (intros; apply count_below_lt; assumption).
    assert (Hge : forall j, idx <= j < n -> v <= item arr j)
      by (intros; apply count_below_ge; assumption).
    assert (Hmono : forall i j, 0 <= i <= j -> j < n ->
                      item arr i <= item arr j)
      by (intros; apply sorted_item; assumption).
    assert (Hn : 0 < n).
    { subst n. destruct arr; [congruence|]. rewrite len_cons.
      pose proof (len_nonneg arr). lia. }
    eexists. split; [reflexivity|].
    pose proof (Hmono 0 (n - 1) ltac:(lia) ltac:(lia)) as Hfl.
    destruct (Z.eqb_spec idx n) as [En|En].
    + pose proof (Hlt (n - 1) ltac:(lia)) as Hlast.
      pose proof (Hlt 0 ltac:(lia)) as Hfirst.
      destruct (Z.eqb_spec idx 0) as [E0|_]; [lia|].
      rewrite En.
      replace (n - 1) with (n - 1) by reflexivity.
      destruct (Z.ltb_spec (Z.abs (item arr (n - 1) - v))
                           (Z.abs (item arr 0 - v))) as [Hc|Hc];
        cbn [Z.b2z].
      * split; [lia|]. split; [lia|].
        intros [H|(x & Hx & Hl & He)]; [discriminate|].
        injection Hx as <-. lia.
      * split; [lia|]. split; [|lia].
        intros _. right. exists v. split; [reflexivity|]. lia.
    + assert (Hv : v <= item arr (n - 1)) by (apply Hge; lia).
      destruct (Z.eqb_spec idx 0) as [E0|E0].
      * pose proof (Hge 0 ltac:(lia)) as H0.
        destruct (Z.ltb_spec (Z.abs (item arr (n - 1) - v))
                             (Z.abs (item arr idx - v))) as [Hc|Hc];
          cbn [Z.b2z].
        -- rewrite E0 in Hc. lia.
        -- split; [lia|]. split; [lia|].
           intros [H|(x & Hx & Hl & He)]; [discriminate|].
           injection Hx as <-. lia.
      * destruct (Z.abs _ <? Z.abs _); cbn [Z.b2z].
        -- split; [lia|]. split; [lia|].
           intros [H|(x & Hx & Hl & He)]; [discriminate|].
           injection Hx as <-. lia.
        -- split; [lia|]. split; [lia|].
           intros [H|(x & Hx & Hl & He)]; [discriminate|].
           injection Hx as <-. lia.
  - rewrite find_nearest1_NaT by assumption.
    eexists. split; [reflexivity|]. pose proof (len_nonneg arr).
    split; [lia|]. split; [left; reflexivity|reflexivity].
Qed.

(** X15.  [find_nearest] on a sorted array of timestamps.  On an empty array
    every query raises [IndexError].  On a non-empty array of dates between
    the years 1824 and 2116 no query that is NaT or a date in that range
    raises: there is one index per query, between 0 and [len(arr)], and it is
    [len(arr)] (no index of the array) exactly for a NaT query and for a query
    beyond the last timestamp when all timestamps are equal. *)
Theorem find_nearest_every_query (arr : list Z) (vals : list Np.Timestamp) :
  StronglySorted Z.le arr ->
  (arr = [] -> vals <> [] -> find_nearest arr vals = Err IndexError)
  /\ (arr <> [] -> Forall mid_range arr -> Forall query_in_range vals ->
      exists idxs,
        find_nearest arr vals = Ok idxs
        /\ Forall2 (fun v i =>
                      0 <= i <= Np.len arr
                      /\ (i = Np.len arr
                          <-> v = None
                              \/ exists x, v = Some x /\ last arr 0 < x
                                           /\ hd 0 arr = last arr 0))
                   vals idxs).
Proof.
  intros Hs. split.
  - intros -> Hv. destruct vals as [|v r]; [congruence|].
    unfold find_nearest. cbn [mapM]. destruct v; reflexivity.
  - intros Hne Harr Hvals. unfold find_nearest.
    induction Hvals as [|v r Hv _ (idxs & E & IH)]; cbn [mapM].
    + exists []. split; [reflexivity|constructor].
    + destruct (find_nearest1_range arr v Hs Hne Harr Hv) as (i & Hi & Hr).
      rewrite Hi, E. cbn [bind]. eexists. split; [reflexivity|].
      constructor; assumption.
Qed.

Lemma find_nearest_every_query_witness :
  find_nearest [10; 10] [None; Some 20; Some 5] = Ok [2; 2; 0]
  /\ find_nearest [] [Some 5] = Err IndexError.
Proof.
  destruct (find_nearest_every_query [10; 10] [None; Some 20; Some 5])
    as (_ & H).
  { repeat constructor; lia. }
  destruct H as (idxs & E & _).
  - discriminate.
  - repeat constructor; vm_compute; discriminate.
  - repeat constructor; vm_compute; discriminate.
  - destruct (find_nearest_every_query [] [Some 5]) as (H & _).
    + constructor.
    + split; [|apply H; [reflexivity|discriminate]].
      rewrite E. vm_compute in E. injection E as <-. reflexivity.
Defined.

(** ** [delete_indices] on arbitrary indices *)

Lemma insert_desc_In (x z : Z) (l : list Z) :
  In z (insert_desc x l) <-> z = x \/ In z l.
Proof.
  induction l as [|y r IH]; cbn [insert_desc].
  - cbn [In]. intuition congruence.
  - destruct (y <=? x); cbn [In]; [intuition congruence|].
    rewrite IH. intuition congruence.
Qed.

Lemma sorted_reverse_In (z : Z) (l : list Z) :
  In z (sorted_reverse l) <-> In z l.
Proof.
  unfold sorted_reverse. induction l as [|x r IH]; cbn [fold_right];
    [tauto|].
  rewrite insert_desc_In, IH. cbn [In]. intuition congruence.
Qed.

Lemma insert_desc_strict (x : Z) (l : list Z) :
  StronglySorted Z.gt l -> ~ In x l -> StronglySorted Z.gt (insert_desc x l).
Proof.
  induction 1 as [|y r Hr IH Hy]; intros Hx; cbn [insert_desc].
  - repeat constructor.
  - assert (Hxy : x <> y) by (intros ->; apply Hx; left; reflexivity).
    destruct (Z.leb_spec y x).
    + constructor; [constructor; assumption|].
      constructor; [lia|]. eapply Forall_impl; [|exact Hy]. cbv beta. lia.
    + constructor; [apply IH; intros Hin; apply Hx; right; exact Hin|].
      apply Forall_forall. intros z Hz. apply insert_desc_In in Hz.
      destruct Hz as [->|Hz]; [lia|].
      rewrite Forall_forall in Hy. apply Hy, Hz.
Qed.

Lemma sorted_reverse_strict (l : list Z) :
  NoDup l -> StronglySorted Z.gt (sorted_reverse l).
Proof.
  unfold sorted_reverse. induction 1 as [|x r Hx Hr IH]; cbn [fold_right].
  - constructor.
  - apply insert_desc_strict; [exact IH|].
    intros Hin. apply Hx. apply (sorted_reverse_In x r). exact Hin.
Qed.

Lemma insert_desc_sorted (x : Z) (l : list Z) :
  StronglySorted Z.ge l -> StronglySorted Z.ge (insert_desc x l).
Proof.
  induction 1 as [|y r Hr IH Hy]; cbn [insert_desc].
  - repeat constructor.
  - destruct (Z.leb_spec y x).
    + constructor; [constructor; assumption|].
      constructor; [lia|]. eapply Forall_impl; [|exact Hy]. cbv beta. lia.
    + constructor; [exact IH|].
      apply Forall_forall. intros z Hz. apply insert_desc_In in Hz.
      destruct Hz as [->|Hz]; [lia|].
      rewrite Forall_forall in Hy. apply Hy, Hz.
Qed.

Lemma sorted_reverse_sorted (l : list Z) :
  StronglySorted Z.ge (sorted_reverse l).
Proof.
  unfold sorted_reverse. induction l as [|x r IH]; cbn [fold_right].
  - constructor.
  - apply insert_desc_sorted, IH.
Qed.

Lemma existsb_ext_In (i : Z) (s s' : list Z) :
  (forall z, In z s <-> In z s') ->
  existsb (Z.eqb i) s = existsb (Z.eqb i) s'.
Proof.
  intros H. apply eq_true_iff_eq. rewrite !existsb_exists.
  split; intros (z & Hz & E); exists z; (split; [apply H, Hz|exact E]).
Qed.

Lemma drop_positions_ext {A : Type} (i : Z) (s s' : list Z) (arr : list A) :
  (forall z, In z s <-> In z s') ->
  drop_positions i s arr = drop_positions i s' arr.
Proof.
  intros H. revert i. induction arr as [|x r IH]; intros i;
    cbn [drop_positions]; [reflexivity|].
  rewrite (existsb_ext_In i s s' H), IH. reflexivity.
Qed.

Lemma existsb_below (k : Z) (s : list Z) :
  Forall (fun j => j < k) s -> existsb (Z.eqb k) s = false.
Proof.
  induction 1 as [|j s Hj _ IH]; cbn [existsb]; [reflexivity|].
  rewrite IH. destruct (Z.eqb_spec k j); [lia|reflexivity].
Qed.

Lemma drop_positions_below {A : Type} (k : Z) (s : list Z) (arr : list A) :
  Forall (fun j => j < k) s -> drop_positions k s arr = arr.
Proof.
  revert k. induction arr as [|x r IH]; intros k H; cbn [drop_positions];
    [reflexivity|].
  rewrite (existsb_below k s H). f_equal. apply IH.
  eapply Forall_impl; [|exact H]. cbv beta. lia.
Qed.

Lemma drop_positions_head {A : Type} (arr : list A) (k i : Z)
    (rest : list Z) :
  k <= i < k + Np.len arr -> Forall (fun j => j < i) rest ->
  drop_positions k (i :: rest) arr
  = drop_positions k rest (Py.remove_nth (Z.to_nat (i - k)) arr).
Proof.
  revert k. induction arr as [|x r IH]; intros k Hi Hrest.
  - unfold Np.len in Hi. cbn in Hi. lia.
  - rewrite len_cons in Hi. cbn [drop_positions existsb].
    destruct (Z.eqb_spec k i) as [<-|Hk].
    + rewrite Z.sub_diag. cbn [Z.to_nat Py.remove_nth orb].
      rewrite drop_positions_below.
      * symmetry. apply drop_positions_below. exact Hrest.
      * constructor; [lia|]. eapply Forall_impl; [|exact Hrest].
        cbv beta. lia.
    + replace (Z.to_nat (i - k)) with (S (Z.to_nat (i - (k + 1)))) by lia.
      cbn [Py.remove_nth orb drop_positions].
      rewrite (IH (k + 1)) by (try lia; exact Hrest).
      reflexivity.
Qed.

Lemma remove_nth_length {A : Type} (n : nat) (l : list A) :
  (n < List.length l)%nat ->
  List.length (Py.remove_nth n l) = pred (List.length l).
Proof.
  revert n. induction l as [|x r IH]; intros n H; [cbn in H; lia|].
  destruct n as [|n]; cbn [Py.remove_nth List.length]; [reflexivity|].
  cbn [List.length] in H. rewrite IH by lia. lia.
Qed.

Lemma del_in_range {A : Type} (arr : list A) (i : Z) :
  0 <= i < Np.len arr ->
  Py.del arr i = Ok (Py.remove_nth (Z.to_nat i) arr)
  /\ Np.len (Py.remove_nth (Z.to_nat i) arr) = Np.len arr - 1.
Proof.
  intros H. unfold Py.del.
  destruct (Z.ltb_spec i 0); [lia|].
  destruct (Z.ltb_spec i 0); [lia|].
  destruct (Z.leb_spec (Np.len arr) i); [lia|].
  split; [reflexivity|]. unfold Np.len in *.
  rewrite remove_nth_length by lia. lia.
Qed.

Lemma fold_del_descending {A : Type} (s : list Z) (arr : list A) :
  StronglySorted Z.gt s ->
  Forall (fun j => 0 <= j < Np.len arr) s ->
  fold_left (fun acc idx => a <- acc ;; Py.del a idx) s (Ok arr)
  = Ok (drop_positions 0 s arr).
Proof.
  intros Hs. revert arr.
  induction Hs as [|i rest Hrest IH Hi]; intros arr Hr; cbn [fold_left bind].
  - rewrite drop_positions_below by constructor. reflexivity.
  - inversion Hr as [|? ? Hi0 Hr0]; subst.
    destruct (del_in_range arr i Hi0) as (-> & Hlen).
    assert (Hlt : Forall (fun j => j < i) rest).
    { eapply Forall_impl; [|exact Hi]. cbv beta. lia. }
    rewrite IH.
    + f_equal. rewrite (drop_positions_head arr 0 i rest) by (try lia; exact Hlt).
      rewrite Z.sub_0_r. reflexivity.
    + rewrite Hlen. rewrite Forall_forall in Hlt, Hr0 |- *.
      intros j Hj. specialize (Hlt j Hj). specialize (Hr0 j Hj). lia.
Qed.

Lemma sorted_reverse_head (l : list Z) (i : Z) :
  In i l -> exists h r, sorted_reverse l = h :: r /\ i <= h.
Proof.
  intros Hi. apply (sorted_reverse_In i l) in Hi.
  pose proof (sorted_reverse_sorted l) as Hs.
  destruct (sorted_reverse l) as [|h r]; [destruct Hi|].
  exists h, r. split; [reflexivity|].
  destruct Hi as [->|Hi]; [lia|].
  inversion Hs as [|? ? _ Hh]; subst.
  rewrite Forall_forall in Hh. specialize (Hh i Hi). lia.
Qed.

(** X16.  [delete_indices] with distinct positions of the list, given in any
    order, removes exactly the entries at these positions and keeps the
    others in their order.  With an index at or beyond the end of the list it
    raises [IndexError]. *)
Theorem delete_indices_removes_listed_positions {A : Type} (arr : list A)
    (indices : list Z) :
  (NoDup indices ->
   Forall (fun j => 0 <= j < Np.len arr) indices ->
   delete_indices arr indices = Ok (drop_positions 0 indices arr))
  /\ ((exists i, In i indices /\ Np.len arr <= i) ->
      delete_indices arr indices = Err IndexError).
Proof.
  unfold delete_indices. split.
  - intros Hnd Hr. rewrite fold_del_descending.
    + f_equal. apply drop_positions_ext. intros z. apply sorted_reverse_In.
    + apply sorted_reverse_strict, Hnd.
    + rewrite Forall_forall in Hr |- *. intros j Hj.
      apply Hr, (sorted_reverse_In j indices), Hj.
  - intros (i & Hi & Hlen).
    destruct (sorted_reverse_head indices i Hi) as (h & r & -> & Hh).
    cbn [fold_left bind].
    assert (E : Py.del arr h = Err IndexError).
    { unfold Py.del. pose proof (len_nonneg arr).
      destruct (Z.ltb_spec h 0); [lia|].
      destruct (Z.ltb_spec h 0); [lia|].
      destruct (Z.leb_spec (Np.len arr) h); [reflexivity|lia]. }
    rewrite E. apply fold_del_Err.
Qed.

Lemma delete_indices_removes_listed_positions_witness :
  delete_indices [10; 11; 12; 13; 14] [1; 4; 0] = Ok [12; 13]
  /\ delete_indices [10; 11] [0; 2] = Err IndexError.
Proof.
  destruct (delete_indices_removes_listed_positions [10; 11; 12; 13; 14]
              [1; 4; 0]) as (H & _).
  destruct (delete_indices_removes_listed_positions [10; 11] [0; 2])
    as (_ & H').
  split.
  - rewrite H; [reflexivity| |repeat constructor; cbn; lia].
    repeat constructor; cbn; intuition lia.
  - apply H'. exists 2. split; [cbn; tauto|cbn; lia].
Defined.

Lemma remove_nth_twice {A : Type} (n : nat) (l : list A) :
  Py.remove_nth n (Py.remove_nth n l) = Py.remove_nth n (Py.remove_nth (S n) l).
Proof.
  revert n. induction l as [|x r IH]; intros n; [destruct n; reflexivity|].
  destruct n as [|n].
  - destruct r; reflexivity.
  - cbn [Py.remove_nth]. destruct r as [|y r']; [destruct n; reflexivity|].
    specialize (IH n). cbn [Py.remove_nth] in IH |- *. f_equal. exact IH.
Qed.

(** X17.  A position listed twice makes [delete_indices] delete the entry
    that follows it as well: [delete_indices(arr, [i, i])] removes the
    entries at [i] and [i + 1].  When [i] is the last position the second
    deletion raises [IndexError]. *)
Theorem delete_indices_repeated_index {A : Type} (arr : list A) (i : Z) :
  0 <= i < Np.len arr ->
  (i + 1 < Np.len arr ->
   delete_indices arr [i; i] = Ok (drop_positions 0 [i; i + 1] arr))
  /\ (i + 1 = Np.len arr -> delete_indices arr [i; i] = Err IndexError).
Proof.
  intros Hi. unfold delete_indices, sorted_reverse.
  cbn [fold_right insert_desc]. rewrite Z.leb_refl. cbn [fold_left bind].
  destruct (del_in_range arr i Hi) as (-> & Hlen). cbn [bind].
  split; intros H.
  - destruct (del_in_range (Py.remove_nth (Z.to_nat i) arr) i
                ltac:(lia)) as (-> & _).
    f_equal. rewrite remove_nth_twice.
    rewrite (drop_positions_ext 0 [i; i + 1] [i + 1; i])
      by (intros z; cbn [In]; tauto).
    pose proof (fold_del_descending [i + 1; i] arr) as E.
    cbn [fold_left bind] in E.
    destruct (del_in_range arr (i + 1) ltac:(lia)) as (E1 & Hlen1).
    rewrite E1 in E. cbn [bind] in E.
    destruct (del_in_range (Py.remove_nth (Z.to_nat (i + 1)) arr) i
                ltac:(lia)) as (E2 & _).
    rewrite E2 in E.
    replace (Z.to_nat (i + 1)) with (S (Z.to_nat i)) in E by lia.
    assert (E' : Ok (Py.remove_nth (Z.to_nat i)
                       (Py.remove_nth (S (Z.to_nat i)) arr))
                 = Ok (drop_positions 0 [i + 1; i] arr)).
    { apply E.
      - repeat constructor. lia.
      - repeat constructor; lia. }
    injection E' as E'. exact E'.
  - unfold Py.del. rewrite Hlen.
    destruct (Z.ltb_spec i 0); [lia|].
    destruct (Z.ltb_spec i 0); [lia|].
    destruct (Z.leb_spec (Np.len arr - 1) i); [reflexivity|lia].
Qed.

Lemma delete_indices_repeated_index_witness :
  delete_indices [10; 11; 12; 13] [1; 1] = Ok [10; 13]
  /\ delete_indices [10; 11] [1; 1] = Err IndexError.
Proof.
  destruct (delete_indices_repeated_index [10; 11; 12; 13] 1) as (H & _);
    [cbn; lia|].
  destruct (delete_indices_repeated_index [10; 11] 1) as (_ & H');
    [cbn; lia|].
  split.
  - rewrite H; [reflexivity|cbn; lia].
  - apply H'. reflexivity.
Defined.

(** ** Batch boundaries *)

Lemma Forall2_nth_left {A B : Type} (R : A -> B -> Prop) (l : list A)
    (l' : list B) (n : nat) (x : A) :
  Forall2 R l l' -> nth_error l n = Some x ->
  exists y, nth_error l' n = Some y /\ R x y.
Proof.
  intros H. revert n. induction H as [|a b l l' Hab _ IH]; intros [|n] Hn;
    try discriminate.
  - inv_Ok Hn. exists b. split; [reflexivity|exact Hab].
  - apply IH. exact Hn.
Qed.

Lemma Forall2_nth_right {A B : Type} (R : A -> B -> Prop) (l : list A)
    (l' : list B) (n : nat) (y : B) :
  Forall2 R l l' -> nth_error l' n = Some y ->
  exists x, nth_error l n = Some x /\ R x y.
Proof.
  intros H. revert n. induction H as [|a b l l' Hab _ IH]; intros [|n] Hn;
    try discriminate.
  - inv_Ok Hn. exists a. split; [reflexivity|exact Hab].
  - apply IH. exact Hn.
Qed.

Lemma nth_error_combine {A B : Type} (a : list A) (b : list B) (n : nat)
    (x : A) (y : B) :
  nth_error (combine a b) n = Some (x, y)
  <-> nth_error a n = Some x /\ nth_error b n = Some y.
Proof.
  revert b n. induction a as [|u a IH]; intros [|v b] [|n];
    cbn [combine nth_error]; try (split; [discriminate|intros (H1 & H2);
    discriminate]).
  - split; [intros H; inv_Ok H; split; reflexivity|].
    intros (H1 & H2). inv_Ok H1. inv_Ok H2. reflexivity.
  - apply IH.
Qed.

Lemma nth_error_tl {A : Type} (l : list A) (n : nat) :
  nth_error (tl l) n = nth_error l (S n).
Proof. destruct l; [destruct n|]; reflexivity. Qed.

Lemma nth_error_removelast {A : Type} (l : list A) (n : nat) (x : A) :
  nth_error (removelast l) n = Some x
  <-> nth_error l n = Some x /\ (S n < List.length l)%nat.
Proof.
  revert n. induction l as [|a l IH]; intros n.
  - destruct n; cbn; split; try discriminate; intros (H & _); discriminate.
  - cbn [removelast]. destruct l as [|b l].
    + destruct n as [|[|n]]; cbn; split; try discriminate;
        intros (_ & H); lia.
    + destruct n as [|n]; cbn [nth_error List.length].
      * split; [intros H; split; [exact H|lia]|tauto].
      * rewrite IH. cbn [List.length]. split; intros (H1 & H2);
          (split; [exact H1|lia]).
Qed.

Lemma nth_error_map_inv {A B : Type} (f : A -> B) (l : list A) (n : nat)
    (y : B) :
  nth_error (map f l) n = Some y ->
  exists x, nth_error l n = Some x /\ f x = y.
Proof.
  rewrite nth_error_map. destruct (nth_error l n) as [x|]; [|discriminate].
  intros H. inv_Ok H. eauto.
Qed.

(** X18.  On readings dated between the years 1824 and 2116 and for a
    snapshot length below 292 years (no difference and no length leaves
    [int64]), the batch splitter returns, in increasing order, exactly the
    positions [k] of the snapshots whose last reading is followed, more than
    [snapshot_minutes] minutes later, by the first reading of snapshot
    [k + 1]. *)
Theorem batch_splits_at_long_pauses (timestamps : list Z)
    (snapshot_indices : list (Z * Z)) (snapshot_minutes : Z)
    (batch_splits : list Z) :
  Forall mid_range timestamps ->
  minutes_in_range snapshot_minutes ->
  split_snapshot_indices_to_batches timestamps snapshot_indices
    snapshot_minutes = Ok batch_splits ->
  StronglySorted Z.lt batch_splits
  /\ forall k,
       In k batch_splits
       <-> 0 <= k
           /\ exists se se' first_next last_this,
                nth_error snapshot_indices (Z.to_nat k) = Some se
                /\ nth_error snapshot_indices (S (Z.to_nat k)) = Some se'
                /\ Np.getitem timestamps (fst se') = Ok first_next
                /\ Np.getitem timestamps (snd se - 1) = Ok last_this
                /\ snapshot_minutes * Np.ns_per_minute
                   < first_next - last_this.
Proof.
  intros Hr Hm H. unfold split_snapshot_indices_to_batches in H.
  bind_inv H as starts Hstarts. bind_inv H as ends Hends. inv_Ok H.
  unfold Np.take in Hstarts, Hends.
  apply mapM_Forall2 in Hstarts, Hends.
  assert (Hin : forall i t, Np.getitem timestamps i = Ok t -> mid_range t).
  { intros i t Hi. rewrite Forall_forall in Hr.
    eapply Hr, getitem_In, Hi. }
  split; [apply nonzero_from_sorted|].
  intros k. unfold Np.nonzero. rewrite nonzero_from_In, Z.sub_0_r.
  apply and_iff_compat_l.
  set (n := Z.to_nat k).
  set (P := fun se : Z * Z =>
              Np.gt (Np.sub (Some (fst se)) (Some (snd se)))
                    (Np.timedelta64_m (Some snapshot_minutes))).
  assert (HP : forall s e, mid_range s -> mid_range e ->
                (P (s, e) = true
                 <-> snapshot_minutes * Np.ns_per_minute < s - e)).
  { intros s e Hs He. unfold P. cbn [fst snd].
    rewrite sub_exact, timedelta64_m_exact by assumption.
    unfold Np.gt, Np.cmp.
    rewrite Z.gtb_ltb. apply Z.ltb_lt. }
  split.
  - intros Hn. apply nth_error_map_inv in Hn.
    destruct Hn as ([s e] & Hse & Hp). apply nth_error_combine in Hse.
    destruct Hse as (Hs & He).
    destruct (Forall2_nth_right _ _ _ _ _ Hstarts Hs) as (i & Hi & Gi).
    destruct (Forall2_nth_right _ _ _ _ _ Hends He) as (j & Hj & Gj).
    rewrite nth_error_tl in Hi. apply nth_error_map_inv in Hi.
    destruct Hi as (se' & Hse' & <-).
    apply nth_error_map_inv in Hj. destruct Hj as (e0 & He0 & <-).
    apply nth_error_removelast in He0. destruct He0 as (He0 & _).
    apply nth_error_map_inv in He0. destruct He0 as (se & Hse & <-).
    exists se, se', s, e. repeat split; try assumption.
    apply HP; [eapply Hin, Gi|eapply Hin, Gj|exact Hp].
  - intros (se & se' & s & e & Hse & Hse' & Gs & Ge & Hp).
    assert (Hi : nth_error (tl (map fst snapshot_indices)) n
                 = Some (fst se')).
    { rewrite nth_error_tl. apply nth_error_map_Some, Hse'. }
    assert (Hj : nth_error (map (fun e => e - 1)
                              (removelast (map snd snapshot_indices))) n
                 = Some (snd se - 1)).
    { apply (nth_error_map_Some (fun e => e - 1)).
      apply nth_error_removelast. split; [apply nth_error_map_Some, Hse|].
      rewrite length_map. apply nth_error_Some. congruence. }
    destruct (Forall2_nth_left _ _ _ _ _ Hstarts Hi) as (s' & Hs' & Gs').
    destruct (Forall2_nth_left _ _ _ _ _ Hends Hj) as (e' & He' & Ge').
    assert (s' = s) by congruence. assert (e' = e) by congruence. subst.
    rewrite nth_error_map.
    assert (Hc : nth_error (combine starts ends) n = Some (s, e))
      by (apply nth_error_combine; split; assumption).
    rewrite Hc. cbn [option_map]. f_equal.
    apply HP; [eapply Hin, Gs|eapply Hin, Ge|exact Hp].
Qed.

Lemma batch_splits_at_long_pauses_witness :
  exists batch_splits,
    split_snapshot_indices_to_batches (at_minutes [0; 1; 15; 60; 75; 76])
      [(0, 2); (2, 3); (3, 4); (4, 6)] 15 = Ok batch_splits
    /\ StronglySorted Z.lt batch_splits
    /\ In 1 batch_splits.
Proof.
  destruct (split_snapshot_indices_to_batches
              (at_minutes [0; 1; 15; 60; 75; 76])
              [(0, 2); (2, 3); (3, 4); (4, 6)] 15) as [batch_splits|e] eqn:E;
    [|vm_compute in E; discriminate].
  destruct (batch_splits_at_long_pauses
              (at_minutes [0; 1; 15; 60; 75; 76])
              [(0, 2); (2, 3); (3, 4); (4, 6)] 15 batch_splits
              ltac:(repeat constructor; vm_compute; discriminate)
              ltac:(unfold minutes_in_range, Np.ns_per_minute; lia) E)
    as (Hs & Hk).
  exists batch_splits. split; [reflexivity|]. split; [exact Hs|].
  apply Hk. split; [lia|].
  exists (2, 3), (3, 4), (60 * Np.ns_per_minute), (15 * Np.ns_per_minute).
  repeat split.
Defined.

(** ** The calendar encoders *)

Lemma firstn_repeat_le {A : Type} (x : A) (j n : nat) :
  (j <= n)%nat -> firstn j (repeat x n) = repeat x j.
Proof.
  revert n. induction j as [|j IH]; intros n H; [reflexivity|].
  destruct n as [|n]; [lia|]. cbn [repeat firstn]. f_equal. apply IH. lia.
Qed.

Lemma skipn_repeat_le {A : Type} (x : A) (j n : nat) :
  skipn j (repeat x n) = repeat x (n - j).
Proof.
  revert n. induction j as [|j IH]; intros n.
  - rewrite Nat.sub_0_r. reflexivity.
  - destruct n as [|n]; [reflexivity|]. cbn [repeat skipn]. apply IH.
Qed.

Lemma nth_repeat_same {A : Type} (x : A) (k n : nat) :
  nth k (repeat x n) x = x.
Proof.
  revert k. induction n as [|n IH]; intros [|k]; cbn [repeat nth];
    try reflexivity. apply IH.
Qed.

(** Setting one entry of a zero vector gives a one-hot vector. *)
Lemma setitem_zeros (n : nat) (i : Z) :
  0 <= i < Z.of_nat n ->
  exists v,
    setitem (zeros n) i (qc 1) = Ok v
    /\ List.length v = n
    /\ forall k, nth k v (qc 0) = if Z.of_nat k =? i then qc 1 else qc 0.
Proof.
  intros Hi. unfold setitem, zeros, Np.len. rewrite repeat_length.
  destruct (Z.ltb_spec i 0); [lia|].
  destruct (Z.ltb_spec i 0); [lia|].
  destruct (Z.leb_spec (Z.of_nat n) i); [lia|]. cbn [orb].
  eexists. split; [reflexivity|].
  rewrite firstn_repeat_le by lia. rewrite skipn_repeat_le.
  split.
  - rewrite length_app. cbn [List.length]. rewrite !repeat_length. lia.
  - intros k. destruct (Z.eqb_spec (Z.of_nat k) i) as [E|E].
    + rewrite app_nth2 by (rewrite repeat_length; lia).
      rewrite repeat_length.
      replace (k - Z.to_nat i)%nat with O by lia. reflexivity.
    + destruct (Nat.ltb_spec k (Z.to_nat i)).
      * rewrite app_nth1 by (rewrite repeat_length; lia).
        apply nth_repeat_same.
      * rewrite app_nth2 by (rewrite repeat_length; lia).
        rewrite repeat_length.
        replace (k - Z.to_nat i)%nat with (S (k - Z.to_nat i - 1)) by lia.
        cbn [nth]. apply nth_repeat_same.
Qed.

Lemma timestamp_to_vec_entries (datetime : DateTime) :
  calendar_fields datetime ->
  exists v,
    timestamp_to_vec datetime = Ok v
    /\ List.length v = 43%nat
    /\ forall k,
         nth k v (qc 0)
         = if (Z.of_nat k =? dt_month datetime - 1)
              || (Z.of_nat k =? 12 + dt_weekday datetime)
              || (Z.of_nat k =? 19 + dt_hour datetime)
           then qc 1 else qc 0.
Proof.
  intros (Hm & Hw & Hh).
  unfold timestamp_to_vec, month_to_vec, weekday_to_vec, hour_to_vec.
  destruct (setitem_zeros 12 (dt_month datetime - 1) ltac:(lia))
    as (m & -> & Lm & Em).
  destruct (setitem_zeros 7 (dt_weekday datetime) ltac:(lia))
    as (w & -> & Lw & Ew).
  destruct (setitem_zeros 24 (dt_hour datetime) ltac:(lia))
    as (h & -> & Lh & Eh).
  cbn [bind]. eexists. split; [reflexivity|]. split.
  - rewrite !length_app. lia.
  - intros k. destruct (Nat.ltb_spec k 12).
    + rewrite app_nth1 by lia. rewrite Em.
      destruct (Z.eqb_spec (Z.of_nat k) (dt_month datetime - 1));
        [reflexivity|].
      destruct (Z.eqb_spec (Z.of_nat k) (12 + dt_weekday datetime)); [lia|].
      destruct (Z.eqb_spec (Z.of_nat k) (19 + dt_hour datetime)); [lia|].
      reflexivity.
    + rewrite app_nth2 by lia. rewrite Lm.
      destruct (Z.eqb_spec (Z.of_nat k) (dt_month datetime - 1)); [lia|].
      cbn [orb]. destruct (Nat.ltb_spec k 19).
      * rewrite app_nth1 by lia. rewrite Ew.
        destruct (Z.eqb_spec (Z.of_nat (k - 12)) (dt_weekday datetime));
          destruct (Z.eqb_spec (Z.of_nat k) (12 + dt_weekday datetime));
          try lia; [reflexivity|].
        destruct (Z.eqb_spec (Z.of_nat k) (19 + dt_hour datetime)); [lia|].
        reflexivity.
      * rewrite app_nth2 by lia. rewrite Lw, Eh.
        destruct (Z.eqb_spec (Z.of_nat k) (12 + dt_weekday datetime)); [lia|].
        cbn [orb].
        destruct (Z.eqb_spec (Z.of_nat (k - 12 - 7)) (dt_hour datetime));
          destruct (Z.eqb_spec (Z.of_nat k) (19 + dt_hour datetime));
          try lia; reflexivity.
Qed.

(** X19.  On the fields of a [datetime], [timestamp_to_vec] never raises and
    returns a vector of 43 entries: a 1 at the positions [month - 1],
    [12 + weekday] and [19 + hour], and 0 everywhere else.  The encoding
    loses nothing: a datetime with the same vector has the same month,
    weekday and hour. *)
Theorem timestamp_to_vec_three_hot (datetime : DateTime) :
  calendar_fields datetime ->
  exists v,
    timestamp_to_vec datetime = Ok v
    /\ List.length v = 43%nat
    /\ (forall k,
          nth k v (qc 0)
          = if (Z.of_nat k =? dt_month datetime - 1)
               || (Z.of_nat k =? 12 + dt_weekday datetime)
               || (Z.of_nat k =? 19 + dt_hour datetime)
            then qc 1 else qc 0)
    /\ (forall datetime',
          calendar_fields datetime' ->
          timestamp_to_vec datetime' = Ok v -> datetime' = datetime).
Proof.
  intros Hd.
  destruct (timestamp_to_vec_entries datetime Hd) as (v & Ev & Lv & H).
  exists v. split; [exact Ev|]. split; [exact Lv|]. split; [exact H|].
  intros datetime' Hd' E.
  destruct (timestamp_to_vec_entries datetime' Hd') as (v' & Ev' & _ & H').
  assert (Hv : v' = v) by congruence. subst v'.
  destruct Hd as (Hm & Hw & Hh), Hd' as (Hm' & Hw' & Hh').
  assert (H10 : qc 1 <> qc 0) by discriminate.
  assert (Hone : forall i, 0 <= i ->
            (i = dt_month datetime - 1 \/ i = 12 + dt_weekday datetime
             \/ i = 19 + dt_hour datetime)
            -> (i = dt_month datetime' - 1 \/ i = 12 + dt_weekday datetime'
                \/ i = 19 + dt_hour datetime')).
  { intros i Hi Hc.
    pose proof (H (Z.to_nat i)) as E1. pose proof (H' (Z.to_nat i)) as E2.
    rewrite Z2Nat.id in E1, E2 by lia. rewrite E1 in E2. clear E1.
    destruct (Z.eqb_spec i (dt_month datetime - 1));
      destruct (Z.eqb_spec i (12 + dt_weekday datetime));
      destruct (Z.eqb_spec i (19 + dt_hour datetime));
      destruct (Z.eqb_spec i (dt_month datetime' - 1));
      destruct (Z.eqb_spec i (12 + dt_weekday datetime'));
      destruct (Z.eqb_spec i (19 + dt_hour datetime'));
      cbn [orb] in E2; try (exfalso; lia); try tauto;
      exfalso; apply H10; congruence. }
  pose proof (Hone (dt_month datetime - 1) ltac:(lia) ltac:(tauto)) as E1.
  pose proof (Hone (12 + dt_weekday datetime) ltac:(lia) ltac:(tauto)) as E2.
  pose proof (Hone (19 + dt_hour datetime) ltac:(lia) ltac:(tauto)) as E3.
  destruct datetime as [m w h], datetime' as [m' w' h'].
  cbn [dt_month dt_weekday dt_hour] in *.
  f_equal; lia.
Qed.

Lemma timestamp_to_vec_three_hot_witness :
  exists v,
    timestamp_to_vec (mkDateTime 11 1 9) = Ok v
    /\ List.length v = 43%nat
    /\ nth 10 v (qc 0) = qc 1 /\ nth 13 v (qc 0) = qc 1
    /\ nth 28 v (qc 0) = qc 1 /\ nth 0 v (qc 0) = qc 0.
Proof.
  destruct (timestamp_to_vec_three_hot (mkDateTime 11 1 9))
    as (v & E & L & H & _).
  - unfold calendar_fields. cbn. lia.
  - exists v. split; [exact E|]. split; [exact L|].
    rewrite !H. repeat split.
Defined.

(** ** Persistent coordinates *)

Lemma tuple_eqb_eq (p q : list Qc) : tuple_eqb p q = true <-> p = q.
Proof.
  unfold tuple_eqb. split.
  - destruct (Pd.tuple_compare p q) eqn:E; try discriminate.
    intros _. apply tuple_compare_eq, E.
  - intros ->. rewrite tuple_compare_refl. reflexivity.
Qed.

Lemma existsb_tuple_In (p : list Qc) (l : list (list Qc)) :
  existsb (tuple_eqb p) l = true <-> In p l.
Proof.
  rewrite existsb_exists. split.
  - intros (q & Hq & E). apply tuple_eqb_eq in E. subst. exact Hq.
  - intros H. exists p. split; [exact H|]. apply tuple_eqb_eq. reflexivity.
Qed.

Lemma set_of_rows_In (p : list Qc) (snapshot : list (list Qc)) :
  In p (set_of_rows snapshot) <-> In p snapshot.
Proof.
  induction snapshot as [|q r IH]; cbn [set_of_rows]; [tauto|].
  destruct (existsb (tuple_eqb q) r) eqn:E; cbn [In]; rewrite IH.
  - apply existsb_tuple_In in E. split; [tauto|].
    intros [<-|H]; assumption.
  - tauto.
Qed.

Lemma set_of_rows_NoDup (snapshot : list (list Qc)) :
  NoDup (set_of_rows snapshot).
Proof.
  induction snapshot as [|q r IH]; cbn [set_of_rows]; [constructor|].
  destruct (existsb (tuple_eqb q) r) eqn:E; [exact IH|].
  constructor; [|exact IH].
  intros H. apply (proj1 (set_of_rows_In q r)) in H.
  apply (proj2 (existsb_tuple_In q r)) in H. congruence.
Qed.

(** X20.  [persistent_gps] raises [TypeError] on a batch without snapshots;
    on every other batch it returns, each once, exactly the coordinate pairs
    that occur in every snapshot of the batch. *)
Theorem persistent_gps_in_every_snapshot (batch_gps : list (list (list Qc))) :
  (batch_gps = [] -> persistent_gps batch_gps = Err TypeError)
  /\ (batch_gps <> [] ->
      exists coords,
        persistent_gps batch_gps = Ok coords
        /\ NoDup coords
        /\ forall p, In p coords <-> Forall (In p) batch_gps).
Proof.
  split; [intros ->; reflexivity|].
  intros Hne. destruct batch_gps as [|s sets]; [congruence|].
  unfold persistent_gps. cbn [map]. eexists. split; [reflexivity|].
  split; [apply NoDup_filter, set_of_rows_NoDup|].
  intros p. rewrite filter_In, set_of_rows_In, forallb_forall.
  split.
  - intros (Hs & H). constructor; [exact Hs|].
    apply Forall_forall. intros snapshot Hin.
    apply set_of_rows_In, existsb_tuple_In, H, in_map, Hin.
  - intros H. inversion H as [|? ? Hs Hr]; subst. split; [exact Hs|].
    intros set Hset. apply in_map_iff in Hset.
    destruct Hset as (snapshot & <- & Hin).
    apply existsb_tuple_In, set_of_rows_In.
    rewrite Forall_forall in Hr. apply Hr, Hin.
Qed.

Lemma persistent_gps_in_every_snapshot_witness :
  persistent_gps [] = Err TypeError
  /\ exists coords,
       persistent_gps [[[qc 1; qc 2]; [qc 3; qc 4]; [qc 1; qc 2]];
                       [[qc 5; qc 6]; [qc 1; qc 2]]] = Ok coords
       /\ NoDup coords
       /\ In [qc 1; qc 2] coords.
Proof.
  destruct (persistent_gps_in_every_snapshot []) as (H & _).
  destruct (persistent_gps_in_every_snapshot
              [[[qc 1; qc 2]; [qc 3; qc 4]; [qc 1; qc 2]];
               [[qc 5; qc 6]; [qc 1; qc 2]]]) as (_ & H').
  split; [apply H; reflexivity|].
  destruct H' as (coords & E & Hnd & Hin); [discriminate|].
  exists coords. split; [exact E|]. split; [exact Hnd|].
  apply Hin. repeat constructor; cbn; tauto.
Defined.

(** ** Pruning the attribute dictionaries *)

Lemma dict_get_set {V : Type} (d : PyDict V) (k k' : string) (v : V) :
  dict_get (dict_set d k v) k'
  = if String.eqb k' k then Ok v else dict_get d k'.
Proof.
  unfold dict_get. induction d as [|[k0 v0] r IH]; cbn [dict_set find fst snd].
  - destruct (String.eqb_spec k' k); reflexivity.
  - destruct (String.eqb_spec k k0) as [<-|Hk]; cbn [find fst snd].
    + destruct (String.eqb_spec k' k); reflexivity.
    + destruct (String.eqb_spec k' k0) as [->|Hk'].
      * destruct (String.eqb_spec k0 k); [congruence|reflexivity].
      * exact IH.
Qed.

Lemma restrict_step {V : Type} (attr_dict : PyDict V) (ignore : list string)
    (e : PyError) :
  fold_left (fun acc f =>
               temp <- acc ;; v <- dict_get attr_dict f ;;
               Ok (dict_set temp f v))
            ignore (Err e) = Err e.
Proof. induction ignore; cbn [fold_left bind]; auto. Qed.

Lemma dict_get_error {V : Type} (d : PyDict V) (k : string) (e : PyError) :
  dict_get d k = Err e -> e = KeyError.
Proof.
  unfold dict_get. destruct (find _ d); [discriminate|]. congruence.
Qed.

(** The comprehension from any start: it succeeds exactly when every key is
    present, raises nothing but [KeyError], and adds the keys with their
    values to what was collected. *)
Lemma restrict_from {V : Type} (attr_dict : PyDict V) (ignore : list string)
    (temp : PyDict V) (res : result (PyDict V)) :
  fold_left (fun acc f =>
               temp <- acc ;; v <- dict_get attr_dict f ;;
               Ok (dict_set temp f v))
            ignore (Ok temp) = res ->
  match res with
  | Ok temp' =>
      has_keys ignore attr_dict
      /\ forall f,
           (In f ignore -> dict_get temp' f = dict_get attr_dict f)
           /\ (~ In f ignore -> dict_get temp' f = dict_get temp f)
  | Err e => e = KeyError /\ ~ has_keys ignore attr_dict
  end.
Proof.
  revert temp res. induction ignore as [|k r IH]; intros temp res <-;
    cbn [fold_left bind].
  - split; [constructor|]. intros f. split; [intros []|reflexivity].
  - destruct (dict_get attr_dict k) as [v|e] eqn:Ek; cbn [bind].
    + specialize (IH (dict_set temp k v) _ eq_refl).
      destruct (fold_left _ r (Ok (dict_set temp k v))) as [temp'|e].
      * destruct IH as (Hk & Hf). split; [constructor; eauto|].
        intros f. destruct (Hf f) as (Hin & Hout).
        destruct (in_dec string_dec f r) as [Hr|Hr].
        -- split; [intros _; apply Hin, Hr|]. intros Hn. exfalso.
           apply Hn. right. exact Hr.
        -- rewrite (Hout Hr), dict_get_set. split.
           ++ intros [<-|H]; [|contradiction].
              rewrite String.eqb_refl. congruence.
           ++ intros Hn. destruct (String.eqb_spec f k) as [->|_];
                [|reflexivity].
              exfalso. apply Hn. left. reflexivity.
      * destruct IH as (He & Hn). split; [exact He|].
        intros H. apply Hn. inversion H; assumption.
    + rewrite restrict_step. split; [eapply dict_get_error; eauto|].
      intros H. inversion H as [|? ? (v & Hv) _]; subst. congruence.
Qed.

Lemma restrict_spec {V : Type} (attr_dict : PyDict V) (ignore : list string) :
  match restrict attr_dict ignore with
  | Ok temp => has_keys ignore attr_dict /\ pruned ignore attr_dict temp
  | Err e => e = KeyError /\ ~ has_keys ignore attr_dict
  end.
Proof.
  pose proof (restrict_from attr_dict ignore [] (restrict attr_dict ignore)
                eq_refl) as H.
  destruct (restrict attr_dict ignore) as [temp|e]; [|exact H].
  destruct H as (Hk & Hf). split; [exact Hk|].
  intros f. destruct (Hf f) as (Hin & Hout). split; [exact Hin|].
  intros Hn. rewrite (Hout Hn). reflexivity.
Qed.

Lemma clear_features_spec {N V : Type} (attrs : list (N * PyDict V))
    (ignore : list string) :
  let (attrs', e) := clear_features attrs ignore in
  map fst attrs' = map fst attrs
  /\ (e = None \/ e = Some KeyError)
  /\ (e = None <-> Forall (fun nd => has_keys ignore (snd nd)) attrs)
  /\ exists done rest,
       attrs = done ++ rest
       /\ exists done', attrs' = done' ++ rest
       /\ Forall2 (fun nd nd' => fst nd' = fst nd
                                /\ pruned ignore (snd nd) (snd nd'))
                  done done'
       /\ match e with
          | None => rest = []
          | Some _ => exists nd, hd_error rest = Some nd
                                 /\ ~ has_keys ignore (snd nd)
          end.
Proof.
  induction attrs as [|[n d] r IH]; cbn [clear_features].
  - split; [reflexivity|]. split; [left; reflexivity|].
    split; [split; [constructor|reflexivity]|].
    exists [], []. split; [reflexivity|]. exists [].
    split; [reflexivity|]. split; [constructor|reflexivity].
  - pose proof (restrict_spec d ignore) as Hd.
    destruct (restrict d ignore) as [temp|e0].
    + destruct Hd as (Hk & Hp).
      destruct (clear_features r ignore) as [r' e].
      destruct IH as (Hfst & He & Hiff & done & rest & -> & done' & -> & H2 & Hr).
      split; [cbn [map fst]; f_equal; exact Hfst|]. split; [exact He|].
      split.
      * rewrite Hiff. split; [intros H; constructor; assumption|].
        intros H. inversion H; assumption.
      * exists ((n, d) :: done), rest. split; [reflexivity|].
        exists ((n, temp) :: done'). split; [reflexivity|].
        split; [|exact Hr]. constructor; [|exact H2].
        split; [reflexivity|exact Hp].
    + destruct Hd as (-> & Hn). split; [reflexivity|].
      split; [right; reflexivity|]. split.
      * split; [discriminate|]. intros H. inversion H; subst. contradiction.
      * exists [], ((n, d) :: r). split; [reflexivity|]. exists [].
        split; [reflexivity|]. split; [constructor|].
        exists (n, d). split; [reflexivity|exact Hn].
Qed.

(** X21.  [clear_node_features] leaves the edges and the set of nodes alone
    and raises nothing but [KeyError].  It completes exactly when every node
    has every attribute of [ignore]; every node then holds exactly the
    attributes of [ignore], with their values.  When a node lacks one, the
    dictionaries of the nodes before the first such node are already pruned,
    and those from it on are untouched. *)
Theorem clear_node_features_prunes {V : Type} (G G' : Graph V)
    (ignore : list string) (e : option PyError) :
  clear_node_features G ignore = (G', e) ->
  edges G' = edges G
  /\ map fst (nodes G') = map fst (nodes G)
  /\ (e = None \/ e = Some KeyError)
  /\ (e = None <-> Forall (fun nd => has_keys ignore (snd nd)) (nodes G))
  /\ exists done rest done',
       nodes G = done ++ rest
       /\ nodes G' = done' ++ rest
       /\ Forall2 (fun nd nd' => fst nd' = fst nd
                                /\ pruned ignore (snd nd) (snd nd'))
                  done done'
       /\ match e with
          | None => rest = []
          | Some _ => exists nd, hd_error rest = Some nd
                                 /\ ~ has_keys ignore (snd nd)
          end.
Proof.
  unfold clear_node_features. intros H.
  pose proof (clear_features_spec (nodes G) ignore) as Hs.
  destruct (clear_features (nodes G) ignore) as [nodes' e'].
  injection H as <- <-. cbn [edges nodes].
  destruct Hs as (Hfst & He & Hiff & done & rest & E & done' & E' & H2 & Hr).
  split; [reflexivity|]. split; [exact Hfst|]. split; [exact He|].
  split; [exact Hiff|]. exists done, rest, done'. auto.
Qed.

Lemma clear_node_features_prunes_witness :
  exists G' e,
    clear_node_features
      (mkGraph [(1, [("x", 10); ("street_count", 3); ("y", 20)]%string);
                (2, [("x", 11)]%string)]
               [((1, 2), [("length", 7)]%string)])
      ["x"; "y"]%string = (G', e)
    /\ edges G' = [((1, 2), [("length", 7)]%string)]
    /\ map fst (nodes G') = [1; 2]
    /\ (e = None \/ e = Some KeyError).
Proof.
  destruct (clear_node_features
              (mkGraph [(1, [("x", 10); ("street_count", 3); ("y", 20)]%string);
                        (2, [("x", 11)]%string)]
                       [((1, 2), [("length", 7)]%string)])
              ["x"; "y"]%string) as [G' e] eqn:E.
  destruct (clear_node_features_prunes _ _ _ _ E) as (H1 & H2 & H3 & _).
  exists G', e. split; [reflexivity|]. split; [exact H1|].
  split; [exact H2|exact H3].
Defined.

(** X22.  [clear_edge_features] does to the edges what
    [clear_node_features] does to the nodes: the nodes are left alone, only
    [KeyError] can be raised, and it completes exactly when every edge has
    every attribute of [ignore], every edge then holding exactly these
    attributes with their values. *)
Theorem clear_edge_features_prunes {V : Type} (G G' : Graph V)
    (ignore : list string) (e : option PyError) :
  clear_edge_features G ignore = (G', e) ->
  nodes G' = nodes G
  /\ (e = None \/ e = Some KeyError)
  /\ (e = None <-> Forall (fun ed => has_keys ignore (snd ed)) (edges G))
  /\ (e = None ->
      Forall2 (fun ed ed' => fst ed' = fst ed
                             /\ pruned ignore (snd ed) (snd ed'))
              (edges G) (edges G')).
Proof.
  unfold clear_edge_features. intros H.
  pose proof (clear_features_spec (edges G) ignore) as Hs.
  destruct (clear_features (edges G) ignore) as [edges' e'].
  injection H as <- <-. cbn [edges nodes].
  destruct Hs as (Hfst & He & Hiff & done & rest & E & done' & E' & H2 & Hr).
  split; [reflexivity|]. split; [exact He|]. split; [exact Hiff|].
  intros ->. subst rest. rewrite app_nil_r in E, E'. subst. exact H2.
Qed.

Lemma clear_edge_features_prunes_witness :
  exists G' e,
    clear_edge_features
      (mkGraph [(1, [("x", 10)]%string)]
               [((1, 2), [("oneway", 0); ("length", 7)]%string)])
      ["length"]%string = (G', e)
    /\ nodes G' = [(1, [("x", 10)]%string)]
    /\ (e = None \/ e = Some KeyError).
Proof.
  destruct (clear_edge_features
              (mkGraph [(1, [("x", 10)]%string)]
                       [((1, 2), [("oneway", 0); ("length", 7)]%string)])
              ["length"]%string) as [G' e] eqn:E.
  destruct (clear_edge_features_prunes _ _ _ _ E) as (H1 & H2 & _).
  exists G', e. split; [reflexivity|]. split; [exact H1|exact H2].
Defined.

(** ** Batches as runs of snapshots *)

Lemma combine_app_left {A B : Type} (l r : list A) (l' : list B) :
  List.length l = List.length l' -> combine (l ++ r) l' = combine l l'.
Proof.
  revert l'. induction l as [|x l IH]; intros [|y l'] H; try discriminate.
  - destruct r; reflexivity.
  - cbn [app combine]. f_equal. apply IH. simpl in H. lia.
Qed.

Lemma split_concat {A : Type} (a : list A) (points : list Z) :
  StronglySorted Z.lt points ->
  Forall (fun p => 0 <= p <= Np.len a) points ->
  List.concat (Np.split a points) = a.
Proof.
  intros Hs Hp. unfold Np.split. cbn [tl].
  change (0 :: points ++ [Np.len a]) with ((0 :: points) ++ [Np.len a]).
  rewrite combine_app_left by (rewrite length_app; simpl; lia).
  pose proof (len_nonneg a) as Hn.
  pose proof (combine_chained 0 (Np.len a) points Hn Hp Hs) as Hc.
  pose proof (chained_concat a 0 (Np.len a) _ Hc ltac:(lia) ltac:(lia)) as E.
  unfold split_by_double_index in E. rewrite E. apply slice_all.
Qed.

Lemma batch_splits_in_range (timestamps : list Z)
    (snapshot_indices : list (Z * Z)) (snapshot_minutes : Z)
    (batch_splits : list Z) :
  split_snapshot_indices_to_batches timestamps snapshot_indices
    snapshot_minutes = Ok batch_splits ->
  StronglySorted Z.lt batch_splits
  /\ Forall (fun p => 0 <= p <= Np.len snapshot_indices) batch_splits.
Proof.
  intros H. unfold split_snapshot_indices_to_batches in H.
  bind_inv H as starts Hstarts. bind_inv H as ends Hends. inv_Ok H.
  split; [apply nonzero_from_sorted|].
  eapply Forall_impl; [|apply (nonzero_from_bounds 0)].
  cbv beta. intros p Hp.
  unfold Np.take in Hstarts. apply mapM_length in Hstarts.
  assert (Hl : (List.length (tl (map fst snapshot_indices))
                <= List.length snapshot_indices)%nat).
  { destruct snapshot_indices; cbn [map tl List.length];
      rewrite ?length_map; lia. }
  unfold Np.len in *. rewrite length_map, length_combine in Hp. lia.
Qed.

(** X23.  The batches of a constructed dataset are runs of consecutive
    snapshots: the snapshots that survive the weather gating are cut into
    consecutive runs that together hold each of them once, in order, and the
    dataset keeps the runs of two snapshots or more.  The timestamps are cut
    at the same places. *)
Theorem batches_are_runs_of_snapshots (pm_gps pm_gps' : Pd.DataFrame)
    (snapshot_minutes : Z) (weather : option Pd.DataFrame)
    (minutes_to_weather : option Z)
    (datetime_to_vec : option (Np.Timestamp -> result Vec))
    (self : Snapshots) (d : Dataset) :
  init_snapshots pm_gps snapshot_minutes weather minutes_to_weather
    datetime_to_vec = Ok (self, pm_gps') ->
  Dataset_init pm_gps snapshot_minutes weather minutes_to_weather
    datetime_to_vec = Ok (d, pm_gps') ->
  exists runs runs_ts,
    List.concat runs = s_pm_gps_idx self
    /\ List.concat runs_ts = s_timestamps self
    /\ map (@List.length _) runs_ts = map (@List.length _) runs
    /\ pm_gps_idx d = filter kept runs
    /\ timestamps d = filter kept runs_ts.
Proof.
  intros Hinit H. unfold Dataset_init in H. rewrite Hinit in H.
  cbn [bind fst snd] in H. bind_inv H as d' Hd. inv_Ok H.
  pose proof (init_snapshots_aligned _ _ _ _ _ _ _ Hinit) as (Ha & _ & _).
  unfold split_to_batches in Hd. bind_inv Hd as batch_splits Hsplits.
  rewrite remove_unit_batches_unfold in Hd by (apply split_aligned, Ha).
  inv_Ok Hd. cbn [pm_gps_idx timestamps].
  destruct (batch_splits_in_range _ _ _ _ Hsplits) as (Hs & Hp).
  destruct Ha as (Hts & _).
  exists (Np.split (s_pm_gps_idx self) batch_splits),
         (Np.split (s_timestamps self) batch_splits).
  split; [apply split_concat; assumption|].
  split.
  - apply split_concat; [assumption|].
    unfold Np.len in *. rewrite Hts. exact Hp.
  - split; [apply split_lengths, Hts|]. split; reflexivity.
Qed.

Lemma batches_are_runs_of_snapshots_witness :
  exists self pm_gps' d runs,
    init_snapshots sparse 15 None None None = Ok (self, pm_gps')
    /\ Dataset_init sparse 15 None None None = Ok (d, pm_gps')
    /\ List.concat runs = s_pm_gps_idx self
    /\ pm_gps_idx d = filter kept runs.
Proof.
  destruct (init_snapshots sparse 15 None None None) as [[self pm_gps']|e]
    eqn:E; [|vm_compute in E; discriminate].
  destruct (Dataset_init sparse 15 None None None) as [[d pm_gps'']|e]
    eqn:G; [|vm_compute in G; discriminate].
  assert (Hpm : pm_gps'' = pm_gps').
  { unfold Dataset_init in G. rewrite E in G. cbn [bind fst snd] in G.
    destruct (split_to_batches self (Pd.index_values pm_gps') 15);
      [|discriminate].
    cbn [bind] in G. congruence. }
  subst pm_gps''.
  destruct (batches_are_runs_of_snapshots _ _ _ _ _ _ _ _ E G)
    as (runs & runs_ts & H1 & _ & _ & H2 & _).
  exists self, pm_gps', d, runs. repeat split; assumption.
Defined.

(** ** The calendar vectors of a constructed dataset *)

Lemma init_snapshots_time (pm_gps pm_gps' : Pd.DataFrame)
    (snapshot_minutes : Z) (weather : option Pd.DataFrame)
    (minutes_to_weather : option Z) (f : Np.Timestamp -> result Vec)
    (self : Snapshots) :
  init_snapshots pm_gps snapshot_minutes weather minutes_to_weather (Some f)
  = Ok (self, pm_gps') ->
  exists tv,
    s_time_values self = Some tv
    /\ Forall2 (fun t v => f t = Ok v) (s_timestamps self) tv.
Proof.
  intros H. unfold init_snapshots in H.
  bind_inv H as pm1 Hpm1. bind_inv H as pm Hpm. bind_inv H as gps Hgps.
  bind_inv H as gated Hg. bind_inv H as self' Hself. inv_Ok H.
  bind_inv Hself as tv Htv. inv_Ok Hself.
  cbn [s_time_values s_timestamps]. exists tv. split; [reflexivity|].
  apply mapM_Forall2. exact Htv.
Qed.

(** X24.  In a dataset constructed with a calendar mapping, every batch
    carries, for each of its snapshots, the vector the mapping returns on
    the snapshot's timestamp. *)
Theorem constructed_calendar_vectors (pm_gps pm_gps' : Pd.DataFrame)
    (snapshot_minutes : Z) (weather : option Pd.DataFrame)
    (minutes_to_weather : option Z) (f : Np.Timestamp -> result Vec)
    (d : Dataset) :
  Dataset_init pm_gps snapshot_minutes weather minutes_to_weather (Some f)
  = Ok (d, pm_gps') ->
  exists tv,
    time_values d = Some tv
    /\ Forall2 (Forall2 (fun t v => f t = Ok v)) (timestamps d) tv.
Proof.
  intros H. unfold Dataset_init in H.
  bind_inv H as r Hr. destruct r as [self pm']. bind_inv H as d' Hd.
  inv_Ok H. cbn [fst snd] in Hd.
  pose proof (init_snapshots_aligned _ _ _ _ _ _ _ Hr) as (Ha & _ & _).
  destruct (init_snapshots_time _ _ _ _ _ _ _ Hr) as (tv & Etv & Htv).
  unfold split_to_batches in Hd. bind_inv Hd as batch_splits Hsplits.
  rewrite remove_unit_batches_unfold in Hd by (apply split_aligned, Ha).
  inv_Ok Hd. cbn [time_values timestamps]. rewrite Etv. cbn [option_map].
  eexists. split; [reflexivity|].
  apply filter_kept_Forall2, split_Forall2, Htv.
Qed.

Lemma constructed_calendar_vectors_witness :
  exists d pm_gps' tv,
    Dataset_init dense 15 None None (Some hour_of_day) = Ok (d, pm_gps')
    /\ time_values d = Some tv
    /\ Forall2 (Forall2 (fun t v => hour_of_day t = Ok v)) (timestamps d) tv.
Proof.
  destruct (Dataset_init dense 15 None None (Some hour_of_day))
    as [[d pm_gps']|e] eqn:E; [|vm_compute in E; discriminate].
  destruct (constructed_calendar_vectors _ _ _ _ _ _ _ E) as (tv & Htv & H).
  exists d, pm_gps', tv. split; [reflexivity|]. split; assumption.
Defined.

(** ** The columns construction needs *)

Lemma remove_nth_In {A : Type} (x : A) (n : nat) (l : list A) :
  In x (Py.remove_nth n l) -> In x l.
Proof.
  revert n. induction l as [|y r IH]; intros [|n]; cbn [Py.remove_nth In];
    try tauto.
  intros [H|H]; [tauto|]. right. eapply IH, H.
Qed.

Lemma remove_position_In (x name : string) (p : nat) (l : list string) :
  Pd.position name l = Some p -> x <> name ->
  In x l -> In x (Py.remove_nth p l).
Proof.
  revert p. induction l as [|y r IH]; intros p Hp Hx Hin; [destruct Hin|].
  cbn [Pd.position] in Hp. destruct (String.eqb_spec name y) as [->|Hy].
  - inv_Ok Hp. cbn [Py.remove_nth]. destruct Hin as [H|H]; [congruence|exact H].
  - destruct (Pd.position name r) as [q|] eqn:E; [|discriminate].
    cbn [option_map] in Hp. inv_Ok Hp. cbn [Py.remove_nth In].
    destruct Hin as [H|H]; [left; exact H|right]. apply IH; auto.
Qed.

Lemma columns_after_tuple_column (df : Pd.DataFrame) (label name : string)
    (tuples : list (list Qc)) :
  name <> label ->
  (In name (Pd.columns (Pd.set_tuple_column df label tuples))
   <-> In name (Pd.columns df)).
Proof.
  intros Hn. unfold Pd.set_tuple_column.
  destruct (Pd.position label (Pd.columns df)) as [p|] eqn:E;
    cbn [Pd.columns]; [|tauto].
  split; [apply remove_nth_In|].
  apply remove_position_In with (name := label); assumption.
Qed.

Lemma prep_pm_gps_columns (pm_gps : Pd.DataFrame) (snapshot_minutes : Z) :
  (In "gpsLatitude"%string (Pd.columns pm_gps)
   /\ In "gpsLongitude"%string (Pd.columns pm_gps) ->
   exists pm_gps',
     prep_pm_gps pm_gps snapshot_minutes = Ok pm_gps'
     /\ forall name, name <> "gpsLatitude, gpsLongitude"%string ->
          (In name (Pd.columns pm_gps') <-> In name (Pd.columns pm_gps)))
  /\ (~ (In "gpsLatitude"%string (Pd.columns pm_gps)
         /\ In "gpsLongitude"%string (Pd.columns pm_gps)) ->
      prep_pm_gps pm_gps snapshot_minutes = Err KeyError).
Proof.
  unfold prep_pm_gps, average_duplicates, Pd.get_values.
  cbn [Pd.columns Pd.set_index_values].
  destruct (mapM_locate (Pd.columns pm_gps)
              ["gpsLatitude"; "gpsLongitude"]%string) as (H1 & H2).
  split.
  - intros (Hlat & Hlon).
    destruct H1 as (ps & ->); [repeat constructor; assumption|].
    cbn [bind fst]. eexists. split; [reflexivity|].
    intros name Hn.
    rewrite columns_after_tuple_column by exact Hn. reflexivity.
  - intros Hn. rewrite H2; [reflexivity|].
    intros H. apply Hn. inversion H as [|? ? Hlat Hr]; subst.
    inversion Hr; subst. split; assumption.
Qed.

(** X25.  Construction needs the columns [pm2_5], [gpsLatitude] and
    [gpsLongitude] of the primary table.  On a table of readings dated
    between the years 1824 and 2116 whose index name labels no column, and
    for a positive snapshot length below 292 years, it raises [KeyError] when
    one of the three is missing, whatever the other arguments. *)
Theorem construction_needs_three_columns (pm_gps : Pd.DataFrame)
    (snapshot_minutes : Z) (weather : option Pd.DataFrame)
    (minutes_to_weather : option Z)
    (datetime_to_vec : option (Np.Timestamp -> result Vec)) :
  0 < snapshot_minutes ->
  minutes_in_range snapshot_minutes ->
  Forall mid_range (Pd.index_values pm_gps) ->
  index_name_free pm_gps "gpsLatitude, gpsLongitude" ->
  ~ (In "pm2_5"%string (Pd.columns pm_gps)
     /\ In "gpsLatitude"%string (Pd.columns pm_gps)
     /\ In "gpsLongitude"%string (Pd.columns pm_gps)) ->
  Dataset_init pm_gps snapshot_minutes weather minutes_to_weather
    datetime_to_vec = Err KeyError.
Proof.
  intros _ _ _ _ Hn.
  destruct (prep_pm_gps_columns pm_gps snapshot_minutes) as (Hok & Herr).
  unfold Dataset_init, init_snapshots.
  destruct (in_dec string_dec "gpsLatitude"%string (Pd.columns pm_gps))
    as [Hlat|Hlat];
    [destruct (in_dec string_dec "gpsLongitude"%string (Pd.columns pm_gps))
       as [Hlon|Hlon]|].
  - destruct (Hok (conj Hlat Hlon)) as (pm1 & -> & Hcols). cbn [bind].
    assert (Hpm : ~ In "pm2_5"%string (Pd.columns pm1)).
    { rewrite Hcols by discriminate. intros H. apply Hn.
      split; [exact H|]. split; assumption. }
    unfold Pd.get_column, Pd.locate.
    destruct (Pd.position "pm2_5" (Pd.columns pm1)) as [p|] eqn:E;
      [|reflexivity].
    exfalso. apply Hpm. eapply position_Some_In; eauto.
  - rewrite Herr by tauto. reflexivity.
  - rewrite Herr by tauto. reflexivity.
Qed.

Lemma construction_needs_three_columns_witness :
  Dataset_init
    (Pd.mkDataFrame "timestamp" ["pm2_5"; "gpsLatitude"]%string
       [(0, [qc 1; qc 2])] [])
    15 (Some half_hourly) (Some 5) None = Err KeyError.
Proof.
  apply construction_needs_three_columns.
  - lia.
  - unfold minutes_in_range, Np.ns_per_minute. lia.
  - repeat constructor; vm_compute; discriminate.
  - split; [simpl; intuition discriminate|discriminate].
  - cbn. intros (_ & _ & [E|[E|[]]]); discriminate.
Defined.
